(** * Test Automation Platform (demo.py): a shallow embedding and its properties

    The development follows the layout of [demo.py]:

    - [Str], [Dict], [Value]: the Python values the program manipulates --
      text as sequences of code points, insertion-ordered dictionaries,
      and the dynamically typed values stored in them;
    - [TestStatus], [TestResult], [ConfigField], [TestCase]: the data classes;
    - [TestBundle], [BundleRegistry], [TestRunner]: the plugin contract, the
      registry and the execution engine, with the effects of the program
      (clock, executors) threaded through an explicit world;
    - [Textwrap], [ReportGenerator]: the renderers.

    Definitions come first, theorems about them afterwards. *)

From Stdlib Require Import String Ascii.
From Stdlib Require Import List ZArith NArith Lia Bool Floats Permutation.
Import ListNotations.

Set Implicit Arguments.
#[local] Set Warnings "-register-all,-inexact-float".

(* ================================================================== *)
(** ** Python text *)

(** A Python [str] is a sequence of Unicode code points; [len] counts
    code points, so the model is a list of numbers rather than a byte
    string. *)
Definition pychar := N.
Definition pystr := list pychar.

Module Str.

(** ASCII literals of the source are written as Rocq strings. *)
Definition lit (s : string) : pystr :=
  map N_of_ascii (list_ascii_of_string s).

Fixpoint eqb (a b : pystr) : bool :=
  match a, b with
  | [], [] => true
  | x :: a', y :: b' => N.eqb x y && eqb a' b'
  | _, _ => false
  end.

(** [sep.join(parts)] *)
Fixpoint join (sep : pystr) (parts : list pystr) : pystr :=
  match parts with
  | [] => []
  | [p] => p
  | p :: rest => p ++ sep ++ join sep rest
  end.

(** [s.split(sep)] for a one-character [sep]: the lines of a text, for
    [sep] the newline. *)
Fixpoint split_on (sep : pychar) (s : pystr) : list pystr :=
  match s with
  | [] => [[]]
  | c :: rest =>
      if N.eqb c sep then [] :: split_on sep rest
      else match split_on sep rest with
           | piece :: pieces => (c :: piece) :: pieces
           | [] => [[c]]
           end
  end.

(** [c * n] for a one-character string [c] *)
Definition rep (c : pychar) (n : nat) : pystr := repeat c n.

Definition space : pychar := 32%N.

(** [s.ljust(width)]: pad on the right with spaces, never truncate. *)
Definition ljust (s : pystr) (width : Z) : pystr :=
  s ++ rep space (Z.to_nat (width - Z.of_nat (length s))).

(** [s.center(width)] as CPython pads: the left margin is
    [marg / 2 + (marg & width & 1)]; a string that is already [width]
    long or longer is returned as it is. *)
Definition center (s : pystr) (width : Z) : pystr :=
  let len := Z.of_nat (length s) in
  if (width <=? len)%Z then s
  else
    let marg := (width - len)%Z in
    let left := (marg / 2 + Z.land (Z.land marg width) 1)%Z in
    rep space (Z.to_nat left) ++ s ++ rep space (Z.to_nat (marg - left)).

(** [s.replace(old, new)] for one-character [old] and [new]. *)
Definition replace_char (old new : pychar) (s : pystr) : pystr :=
  map (fun c => if N.eqb c old then new else c) s.

Definition is_ascii (c : pychar) : bool := (c <? 128)%N.

Definition ascii_lower (c : pychar) : pychar :=
  if ((65 <=? c) && (c <=? 90))%N then (c + 32)%N else c.

(** [str.isspace] for one character (the characters whose bidirectional
    class is WS, B or S, or whose category is Zs). *)
Definition isspace (c : pychar) : bool :=
  (((9 <=? c) && (c <=? 13)) || ((28 <=? c) && (c <=? 32))
   || (c =? 133) || (c =? 160) || (c =? 5760)
   || ((8192 <=? c) && (c <=? 8202))
   || (c =? 8232) || (c =? 8233) || (c =? 8239) || (c =? 8287)
   || (c =? 12288))%N.

(** [s.strip() == ''] *)
Definition is_blank (s : pystr) : bool := forallb isspace s.

(** Decimal text of an integer, [str(n)]. *)
Fixpoint digits_fuel (fuel : nat) (n : N) (acc : pystr) : pystr :=
  match fuel with
  | O => acc
  | S fuel' =>
      let acc' := (48 + n mod 10)%N :: acc in
      if (n <? 10)%N then acc' else digits_fuel fuel' (n / 10)%N acc'
  end.

Definition of_N (n : N) : pystr := digits_fuel (S (N.to_nat (N.log2 n))) n [].

Definition of_Z (z : Z) : pystr :=
  match z with
  | Zneg p => 45%N :: of_N (Npos p)
  | _ => of_N (Z.to_N z)
  end.

End Str.

(* ================================================================== *)
(** ** Insertion-ordered dictionaries keyed by text *)

Module Dict.

Section WithValue.
Variable V : Type.

Definition t := list (pystr * V).

(** [d.get(k)] *)
Fixpoint get (k : pystr) (d : t) : option V :=
  match d with
  | [] => None
  | (k', v) :: rest => if Str.eqb k k' then Some v else get k rest
  end.

(** [d.get(k, default)] *)
Definition get_default (k : pystr) (d : t) (default : V) : V :=
  match get k d with
  | Some v => v
  | None => default
  end.

(** [d[k] = v]: an existing key keeps its position, a new key goes last. *)
Fixpoint set (k : pystr) (v : V) (d : t) : t :=
  match d with
  | [] => [(k, v)]
  | (k', v') :: rest =>
      if Str.eqb k k' then (k', v) :: rest else (k', v') :: set k v rest
  end.

Definition keys (d : t) : list pystr := map fst d.
Definition values (d : t) : list V := map snd d.

End WithValue.

End Dict.

(* ================================================================== *)
(** ** Dynamically typed values *)

(** The values that travel through configurations and run outcomes. *)
Inductive pyval : Type :=
| VNone
| VBool (b : bool)
| VInt (z : Z)
| VFloat (f : float)
| VStr (s : pystr)
| VList (l : list pyval)
| VDict (d : list (pystr * pyval)).

Module Value.

(** Truth value testing: [None], [False], zero, and empty containers are
    false. *)
Definition truthy (v : pyval) : bool :=
  match v with
  | VNone => false
  | VBool b => b
  | VInt z => negb (z =? 0)%Z
  | VFloat f => negb (PrimFloat.eqb f PrimFloat.zero)
  | VStr s => negb (Nat.eqb (length s) 0)
  | VList l => negb (Nat.eqb (length l) 0)
  | VDict d => negb (Nat.eqb (length d) 0)
  end.

(** [not o] for the result of [dict.get], which is [None] for a missing
    key. *)
Definition falsy_opt (o : option pyval) : bool :=
  match o with
  | None => true
  | Some v => negb (truthy v)
  end.

Definition of_opt_str (o : option pystr) : pyval :=
  match o with
  | None => VNone
  | Some s => VStr s
  end.

End Value.

(* ================================================================== *)
(** ** Core architecture: the data classes *)

(** [class TestStatus(Enum)] *)
Inductive TestStatus := PENDING | RUNNING | PASSED | FAILED | SKIPPED.

Module Status.

(** [status.value] *)
Definition value (s : TestStatus) : pystr :=
  match s with
  | PENDING => Str.lit "pending"
  | RUNNING => Str.lit "running"
  | PASSED => Str.lit "passed"
  | FAILED => Str.lit "failed"
  | SKIPPED => Str.lit "skipped"
  end.

Definition eqb (a b : TestStatus) : bool :=
  match a, b with
  | PENDING, PENDING | RUNNING, RUNNING | PASSED, PASSED
  | FAILED, FAILED | SKIPPED, SKIPPED => true
  | _, _ => false
  end.

End Status.

(** [@dataclass class TestResult] *)
Module TestResult.

Record t := mk {
  name : pystr;
  description : pystr;
  status : TestStatus;
  duration_ms : Z;
  details : pystr;
  url : option pystr;
  timestamp : pystr;
  error_message : option pystr
}.

(** [TestResult.to_dict]: every key is always present; an unset [url] or
    [error_message] is stored as [None]. *)
Definition to_dict (r : t) : Dict.t pyval :=
  [ (Str.lit "name", VStr (name r));
    (Str.lit "description", VStr (description r));
    (Str.lit "status", VStr (Status.value (status r)));
    (Str.lit "duration_ms", VInt (duration_ms r));
    (Str.lit "details", VStr (details r));
    (Str.lit "url", Value.of_opt_str (url r));
    (Str.lit "timestamp", VStr (timestamp r));
    (Str.lit "error_message", Value.of_opt_str (error_message r)) ].

End TestResult.

(** [@dataclass class ConfigField] *)
Module ConfigField.

Record t := mk {
  field_type : pystr;
  label : pystr;
  required : bool;
  default : pyval;
  placeholder : option pystr;
  help_text : option pystr
}.

End ConfigField.

(** [@dataclass class TestCase] *)
Module TestCase.

Record t := mk {
  name : pystr;
  description : pystr;
  test_function : pystr;
  success_message : pystr;
  failure_message : pystr;
  timeout_seconds : Z
}.

(** The dataclass default [timeout_seconds = 30]. *)
Definition make (n d f ok ko : pystr) : t := mk n d f ok ko 30.

End TestCase.

(* ================================================================== *)
(** ** The host: what the interpreter supplies *)

(** The program reads the wall clock, draws random numbers and sleeps.
    These effects act on a world that is passed along explicitly.  The
    textual form of a float ([repr]) and the Unicode tables behind
    [str.lower] and the regular expression classes [\w] and [\d] are the
    interpreter's; they are taken as they come, for characters outside
    ASCII. *)
Class Host := {
  World : Type;
  (** [time.time()] *)
  time_time : World -> float * World;
  (** [datetime.now().isoformat()] *)
  datetime_now_isoformat : World -> pystr * World;
  (** [random.random()] and [random.uniform(a, b)] *)
  random_random : World -> float * World;
  random_uniform : float -> float -> World -> float * World;
  (** [await asyncio.sleep(seconds)], in a task that is not cancelled *)
  asyncio_sleep : float -> World -> unit * World;
  (** [repr(x)] for a float [x] *)
  float_repr : float -> pystr;
  (** [float(text)] for the text of a number with a fraction or an
      exponent *)
  float_of_str : pystr -> float;
  (** [str(v)] for a list or a dictionary [v] *)
  container_str : pyval -> pystr;
  (** [s.lower()] for text that is not pure ASCII *)
  unicode_lower : pystr -> pystr;
  (** [c.isalnum()] and [c.isdecimal()] for a character outside ASCII *)
  unicode_isalnum : pychar -> bool;
  unicode_isdecimal : pychar -> bool
}.

(** Computations that act on the world. *)
Definition IO `{Host} (A : Type) : Type := World -> A * World.

Definition ret `{Host} {A} (a : A) : IO A := fun w => (a, w).

Definition bind `{Host} {A B} (m : IO A) (k : A -> IO B) : IO B :=
  fun w => let (a, w') := m w in k a w'.

Notation "x <- m ;; k" := (bind m (fun x => k))
  (at level 61, m at next level, right associativity).

(** What a call either returns or raises.  The first four are the
    classes of [Exception] the program meets.  [BaseException cls text]
    is an exception whose class [cls] derives from [BaseException] and
    not from [Exception] -- [KeyboardInterrupt], [SystemExit],
    [asyncio.CancelledError], [GeneratorExit] or a class of a plugin --
    with [text] its [str]. *)
Inductive exn :=
| ValueError (msg : pystr)
| KeyError (key : pystr)
| AttributeError (msg : pystr)
| TypeError (msg : pystr)
| BaseException (cls text : pystr).

Inductive outcome (A : Type) :=
| Ok (a : A)
| Raise (e : exn).
Arguments Ok {A} a.
Arguments Raise {A} e.

(** The result of awaiting [execute_test]: a result; an exception [e]
    of a subclass of [Exception], of which the orchestration keeps
    [str(e)]; or an exception of a class outside [Exception], which no
    [except Exception] clause catches. *)
Inductive executed :=
| Returned (r : TestResult.t)
| Raised (text : pystr)
| Escaping (cls text : pystr).

(* ================================================================== *)
(** ** Built-in operations that need the host *)

Module Py.
Section WithHost.
Context `{Host}.

(** [s.lower()]: per character on ASCII text, the interpreter's case
    mapping otherwise. *)
Definition lower (s : pystr) : pystr :=
  if forallb Str.is_ascii s then map Str.ascii_lower s else unicode_lower s.

(** [str(v)], which is what an f-string applies to a value. *)
Definition str (v : pyval) : pystr :=
  match v with
  | VNone => Str.lit "None"
  | VBool true => Str.lit "True"
  | VBool false => Str.lit "False"
  | VInt z => Str.of_Z z
  | VFloat f => float_repr f
  | VStr s => s
  | VList _ | VDict _ => container_str v
  end.

(** [f"{o}"] for an optional text. *)
Definition str_opt (o : option pystr) : pystr :=
  match o with
  | None => Str.lit "None"
  | Some s => s
  end.

End WithHost.

(** *** Floats *)

(** The exact value of an integer as an unrounded binary float. *)
Definition SF_of_Z (z : Z) : spec_float :=
  match z with
  | Z0 => S754_zero false
  | Zpos p => S754_finite false p 0
  | Zneg p => S754_finite true p 0
  end.

(** [a / b] on integers: the correctly rounded quotient. *)
Definition int_truediv (a b : Z) : float :=
  SF2Prim (SFdiv prec emax (SF_of_Z a) (SF_of_Z b)).

(** The integer nearest to [num * 2^e], ties to the even one
    ([num >= 0]). *)
Definition round_half_even (num e : Z) : Z :=
  if (0 <=? e)%Z then (num * 2 ^ e)%Z
  else
    let d := (2 ^ (- e))%Z in
    let q := (num / d)%Z in
    let r := (num mod d)%Z in
    match (2 * r ?= d)%Z with
    | Lt => q
    | Gt => (q + 1)%Z
    | Eq => if Z.even q then q else (q + 1)%Z
    end.

(** [round(x, 2)] on a float, as CPython computes it: the exact binary
    value of [x] is rounded to two decimals, ties to even, and the
    decimal obtained is converted back to the nearest float.  Infinities
    and NaN round to themselves; the sign of [x] is kept. *)
Definition round2 (x : float) : float :=
  match Prim2SF x with
  | S754_finite s m e =>
      match round_half_even (Zpos m * 100) e with
      | Zpos n =>
          SF2Prim (SFdiv prec emax (S754_finite s n 0) (S754_finite false 100 0))
      | _ => SF2Prim (S754_zero s)
      end
  | _ => x
  end.

(** [round(v, 2)] on a number: an integer is returned unchanged. *)
Definition round_2 (v : pyval) : pyval :=
  match v with
  | VFloat f => VFloat (round2 f)
  | _ => v
  end.

(** [int(x)] on a float truncates towards zero; it raises on NaN and on
    the infinities. *)
Definition int_of_float (x : float) : pystr + Z :=
  match Prim2SF x with
  | S754_nan => inl (Str.lit "cannot convert float NaN to integer")
  | S754_infinity _ => inl (Str.lit "cannot convert float infinity to integer")
  | S754_zero _ => inr 0%Z
  | S754_finite s m e =>
      let mag := if (0 <=? e)%Z then (Zpos m * 2 ^ e)%Z
                 else (Zpos m / 2 ^ (- e))%Z in
      inr (if s then (- mag)%Z else mag)
  end.

End Py.

(* ================================================================== *)
(** ** [class TestBundle(ABC)]: the plugin contract *)

Module TestBundle.
Section WithHost.
Context `{Host}.

(** A bundle: its attributes and its three abstract methods.  The
    schema and the test cases are values; [execute_test] is awaited, acts
    on the world, and returns a result or raises.  [truth] is the truth
    value of the object, which [if not bundle] tests: [true] unless the
    class of the bundle defines [__bool__] or [__len__]; the classes of
    the program define neither. *)
Record t := mk {
  name : pystr;
  description : pystr;
  category : pystr;
  icon : pystr;
  version : pystr;
  get_config_schema : Dict.t ConfigField.t;
  get_test_cases : list TestCase.t;
  execute_test : TestCase.t -> Dict.t pyval -> IO executed;
  truth : bool
}.

(** The attribute values set by [TestBundle.__init__]. *)
Definition default_version : pystr := Str.lit "1.0.0".

(** The [except Exception as e] branch of [execute_bundle]: the result
    built for a case whose executor raised.  [url] keeps its default
    [None]; the timestamp is taken when the result is constructed. *)
Definition error_result (test_case : TestCase.t) (e : pystr)
  : IO TestResult.t :=
  now <- datetime_now_isoformat ;;
  ret (TestResult.mk (TestCase.name test_case)
                     (TestCase.description test_case)
                     FAILED
                     0
                     (TestCase.failure_message test_case)
                     None
                     now
                     (Some e)).

(** One turn of the loop of [execute_bundle]: the [try] statement.  It
    gives the result to append, or the exception that [except Exception]
    does not catch and that leaves the loop. *)
Definition execute_guarded (b : t) (test_case : TestCase.t)
  (config : Dict.t pyval) : IO (outcome TestResult.t) :=
  r <- execute_test b test_case config ;;
  match r with
  | Returned result => ret (Ok result)
  | Raised e =>
      result <- error_result test_case e ;;
      ret (Ok result)
  | Escaping cls text => ret (Raise (BaseException cls text))
  end.

(** The loop [for test_case in test_cases], appending to [results]; an
    exception that leaves a turn leaves the loop, and the results
    collected so far are lost. *)
Fixpoint execute_loop (b : t) (config : Dict.t pyval)
  (test_cases : list TestCase.t) (results : list TestResult.t)
  : IO (outcome (list TestResult.t)) :=
  match test_cases with
  | [] => ret (Ok results)
  | test_case :: rest =>
      r <- execute_guarded b test_case config ;;
      match r with
      | Ok result => execute_loop b config rest (results ++ [result])
      | Raise e => ret (Raise e)
      end
  end.

(** [TestBundle.execute_bundle] *)
Definition execute_bundle (b : t) (config : Dict.t pyval)
  : IO (outcome (list TestResult.t)) :=
  execute_loop b config (get_test_cases b) [].

(** The message of a failed validation. *)
Definition required_missing (label : pystr) : pystr :=
  Str.lit "Required field '" ++ label ++ Str.lit "' is missing".

(** The loop of [validate_config] over [schema.items()]: it returns at
    the first required field whose value is missing or false. *)
Fixpoint validate_items (items : Dict.t ConfigField.t)
  (config : Dict.t pyval) : bool * option pystr :=
  match items with
  | [] => (true, None)
  | (field_name, field_schema) :: rest =>
      if ConfigField.required field_schema
         && Value.falsy_opt (Dict.get field_name config)
      then (false, Some (required_missing (ConfigField.label field_schema)))
      else validate_items rest config
  end.

(** [TestBundle.validate_config] *)
Definition validate_config (b : t) (config : Dict.t pyval)
  : bool * option pystr :=
  validate_items (get_config_schema b) config.

(** [TestBundle.get_bundle_info] *)
Definition get_bundle_info (b : t) : Dict.t pyval :=
  [ (Str.lit "name", VStr (name b));
    (Str.lit "description", VStr (description b));
    (Str.lit "category", VStr (category b));
    (Str.lit "icon", VStr (icon b));
    (Str.lit "version", VStr (version b));
    (Str.lit "test_count", VInt (Z.of_nat (length (get_test_cases b)))) ].

End WithHost.
End TestBundle.

(* ================================================================== *)
(** ** Test bundles: the implementations *)

(** The three bundles shipped with the platform.  Their executors only
    simulate a check. *)

Module EcommerceBundle.
Section WithHost.
Context `{Host}.

Definition name : pystr := (Str.lit "E-commerce Checkout Flow").
Definition description : pystr :=
  (Str.lit "Complete checkout process testing including cart, payment, and confirmation").
Definition category : pystr := (Str.lit "ecommerce").
Definition icon : pystr := (Str.lit "shopping-cart").

Definition get_config_schema : Dict.t ConfigField.t :=
  [ ((Str.lit "base_url"),
     ConfigField.mk (Str.lit "url") (Str.lit "Website URL") true
       (VStr (Str.lit "https://example-shop.com")) None
       (Some (Str.lit "The base URL of the e-commerce website to test")));
    ((Str.lit "test_user_email"),
     ConfigField.mk (Str.lit "text") (Str.lit "Test User Email") false
       (VStr (Str.lit "test@example.com")) None
       (Some (Str.lit "Email address for test user account")));
    ((Str.lit "test_product_id"),
     ConfigField.mk (Str.lit "text") (Str.lit "Test Product ID") false
       (VStr (Str.lit "PROD-123")) None
       (Some (Str.lit "Product ID to use in tests"))) ].

Definition get_test_cases : list TestCase.t :=
  [ TestCase.make (Str.lit "Homepage Load")
      (Str.lit "Verify homepage loads correctly with all critical elements")
      (Str.lit "test_homepage")
      (Str.lit "Homepage loaded successfully with navigation, search, and featured products visible")
      (Str.lit "Homepage failed to load within timeout or critical elements missing");
    TestCase.make (Str.lit "Product Search")
      (Str.lit "Search functionality returns relevant results")
      (Str.lit "test_search")
      (Str.lit "Search executed successfully and returned relevant product results")
      (Str.lit "Search functionality not responding or returned no results");
    TestCase.make (Str.lit "Add to Cart")
      (Str.lit "Product can be added to shopping cart")
      (Str.lit "test_add_to_cart")
      (Str.lit "Product added to cart successfully with correct quantity and price")
      (Str.lit "Add to cart button not functioning or cart not updating");
    TestCase.make (Str.lit "Cart View")
      (Str.lit "Shopping cart displays items correctly with accurate totals")
      (Str.lit "test_cart_view")
      (Str.lit "Cart displays correct items, quantities, and calculates totals accurately")
      (Str.lit "Cart totals incorrect, items missing, or display errors");
    TestCase.make (Str.lit "Checkout Process")
      (Str.lit "Checkout flow accepts valid customer information")
      (Str.lit "test_checkout")
      (Str.lit "Checkout form accepts and validates customer information correctly")
      (Str.lit "Checkout form validation errors or form not submitting");
    TestCase.make (Str.lit "Payment Integration")
      (Str.lit "Payment gateway integration is functional")
      (Str.lit "test_payment")
      (Str.lit "Payment gateway responds correctly and processes test transaction")
      (Str.lit "Payment gateway connection failed or timeout");
    TestCase.make (Str.lit "Order Confirmation")
      (Str.lit "Order confirmation page displays with valid order details")
      (Str.lit "test_confirmation")
      (Str.lit "Order confirmation displayed with valid order ID and customer details")
      (Str.lit "Order confirmation page not displayed or missing order information") ].

(** [execute_test]: a simulated check.  It sleeps for a random time,
    passes with a fixed probability, and reports the elapsed time. *)
Definition execute_test (test_case : TestCase.t) (config : Dict.t pyval)
  : IO executed :=
  start_time <- time_time ;;
  delay <- random_uniform 0.5 2 ;;
  _ <- asyncio_sleep delay ;;
  draw <- random_random ;;
  let should_pass := PrimFloat.ltb 0.15 draw in
  stop_time <- time_time ;;
  match Py.int_of_float
          (PrimFloat.mul (PrimFloat.sub stop_time start_time) 1000%float) with
  | inl e => ret (Raised e)
  | inr duration_ms =>
      let base_url :=
        Dict.get_default (Str.lit "base_url") config
                         (VStr (Str.lit "https://example-shop.com")) in
      now <- datetime_now_isoformat ;;
      ret (Returned
             (TestResult.mk
                (TestCase.name test_case)
                (TestCase.description test_case)
                (if should_pass then PASSED else FAILED)
                duration_ms
                (if should_pass then TestCase.success_message test_case
                 else TestCase.failure_message test_case)
                (Some (Py.str base_url ++ Str.lit "/" ++ TestCase.test_function test_case))
                now
                None))
  end.

Definition bundle : TestBundle.t :=
  TestBundle.mk name description category icon TestBundle.default_version
                get_config_schema get_test_cases execute_test true.

End WithHost.
End EcommerceBundle.

Module FormValidationBundle.
Section WithHost.
Context `{Host}.

Definition name : pystr := (Str.lit "Form Validation Suite").
Definition description : pystr :=
  (Str.lit "Comprehensive form field validation testing for web applications").
Definition category : pystr := (Str.lit "forms").
Definition icon : pystr := (Str.lit "clipboard-list").

Definition get_config_schema : Dict.t ConfigField.t :=
  [ ((Str.lit "base_url"),
     ConfigField.mk (Str.lit "url") (Str.lit "Website URL") true
       (VStr (Str.lit "https://example.com")) None
       (Some (Str.lit "The base URL of the website with forms to test")));
    ((Str.lit "form_path"),
     ConfigField.mk (Str.lit "text") (Str.lit "Form Path") false
       (VStr (Str.lit "/contact")) None
       (Some (Str.lit "Path to the form page (e.g., /contact, /signup)"))) ].

Definition get_test_cases : list TestCase.t :=
  [ TestCase.make (Str.lit "Email Validation")
      (Str.lit "Email field accepts valid formats and rejects invalid ones")
      (Str.lit "test_email_validation")
      (Str.lit "Email validation working correctly - accepts valid formats, rejects invalid")
      (Str.lit "Email validation not functioning properly");
    TestCase.make (Str.lit "Phone Number Validation")
      (Str.lit "Phone field validates international formats correctly")
      (Str.lit "test_phone_validation")
      (Str.lit "Phone validation accepts valid international formats")
      (Str.lit "Phone validation issues detected with format checking");
    TestCase.make (Str.lit "Required Fields")
      (Str.lit "Required field validation prevents empty submission")
      (Str.lit "test_required_fields")
      (Str.lit "Required field validation working - prevents empty submission")
      (Str.lit "Required fields can be bypassed or validation missing");
    TestCase.make (Str.lit "Password Strength")
      (Str.lit "Password requirements enforced (length, complexity)")
      (Str.lit "test_password_strength")
      (Str.lit "Password strength requirements properly enforced")
      (Str.lit "Weak passwords accepted or requirements not enforced");
    TestCase.make (Str.lit "Date Picker Validation")
      (Str.lit "Date fields accept valid dates only")
      (Str.lit "test_date_validation")
      (Str.lit "Date validation working correctly with proper format checking")
      (Str.lit "Invalid dates accepted or date picker malfunction");
    TestCase.make (Str.lit "Form Submission")
      (Str.lit "Form submits successfully with valid data")
      (Str.lit "test_form_submission")
      (Str.lit "Form submitted successfully with confirmation message")
      (Str.lit "Form submission failed or no confirmation received") ].

(** [execute_test]: a simulated check.  It sleeps for a random time,
    passes with a fixed probability, and reports the elapsed time. *)
Definition execute_test (test_case : TestCase.t) (config : Dict.t pyval)
  : IO executed :=
  start_time <- time_time ;;
  delay <- random_uniform 0.3 1.5 ;;
  _ <- asyncio_sleep delay ;;
  draw <- random_random ;;
  let should_pass := PrimFloat.ltb 0.12 draw in
  stop_time <- time_time ;;
  match Py.int_of_float
          (PrimFloat.mul (PrimFloat.sub stop_time start_time) 1000%float) with
  | inl e => ret (Raised e)
  | inr duration_ms =>
      let base_url :=
        Dict.get_default (Str.lit "base_url") config
                         (VStr (Str.lit "https://example.com")) in
      let form_path :=
        Dict.get_default (Str.lit "form_path") config
                         (VStr (Str.lit "/contact")) in
      now <- datetime_now_isoformat ;;
      ret (Returned
             (TestResult.mk
                (TestCase.name test_case)
                (TestCase.description test_case)
                (if should_pass then PASSED else FAILED)
                duration_ms
                (if should_pass then TestCase.success_message test_case
                 else TestCase.failure_message test_case)
                (Some (Py.str base_url ++ Py.str form_path))
                now
                None))
  end.

Definition bundle : TestBundle.t :=
  TestBundle.mk name description category icon TestBundle.default_version
                get_config_schema get_test_cases execute_test true.

End WithHost.
End FormValidationBundle.

Module APIHealthBundle.
Section WithHost.
Context `{Host}.

Definition name : pystr := (Str.lit "API Health Checks").
Definition description : pystr :=
  (Str.lit "Monitor API endpoint availability, response times, and status codes").
Definition category : pystr := (Str.lit "api").
Definition icon : pystr := (Str.lit "activity").

Definition get_config_schema : Dict.t ConfigField.t :=
  [ ((Str.lit "base_url"),
     ConfigField.mk (Str.lit "url") (Str.lit "API Base URL") true
       (VStr (Str.lit "https://api.example.com")) None
       (Some (Str.lit "The base URL of the API to test")));
    ((Str.lit "api_key"),
     ConfigField.mk (Str.lit "password") (Str.lit "API Key") false
       (VStr []) None
       (Some (Str.lit "Optional API key for authentication")));
    ((Str.lit "timeout_seconds"),
     ConfigField.mk (Str.lit "number") (Str.lit "Timeout (seconds)") false
       (VStr (Str.lit "5")) None
       (Some (Str.lit "Maximum response time threshold"))) ].

Definition get_test_cases : list TestCase.t :=
  [ TestCase.make (Str.lit "API Availability")
      (Str.lit "Check if API endpoint is accessible and responding")
      (Str.lit "test_availability")
      (Str.lit "API is accessible and responding to requests")
      (Str.lit "API endpoint not reachable or connection timeout");
    TestCase.make (Str.lit "Response Time Check")
      (Str.lit "Verify API responds within acceptable timeframe")
      (Str.lit "test_response_time")
      (Str.lit "Response time within acceptable threshold")
      (Str.lit "Response time exceeds configured threshold");
    TestCase.make (Str.lit "Authentication Test")
      (Str.lit "API authentication mechanism working correctly")
      (Str.lit "test_authentication")
      (Str.lit "Authentication successful with valid credentials")
      (Str.lit "Authentication failed or invalid response");
    TestCase.make (Str.lit "Data Endpoint Validation")
      (Str.lit "Data retrieval endpoints returning valid JSON responses")
      (Str.lit "test_data_endpoints")
      (Str.lit "Data endpoints returning valid, well-formed JSON")
      (Str.lit "Invalid response format or malformed JSON");
    TestCase.make (Str.lit "Error Handling Check")
      (Str.lit "API returns proper error codes for invalid requests")
      (Str.lit "test_error_handling")
      (Str.lit "Error handling working correctly with proper status codes")
      (Str.lit "Improper error responses or missing error handling");
    TestCase.make (Str.lit "Rate Limiting Test")
      (Str.lit "API rate limiting functions as expected")
      (Str.lit "test_rate_limiting")
      (Str.lit "Rate limiting working correctly with proper 429 responses")
      (Str.lit "Rate limiting not functioning or misconfigured") ].

(** [execute_test]: a simulated check.  It sleeps for a random time,
    passes with a fixed probability, and reports the elapsed time. *)
Definition execute_test (test_case : TestCase.t) (config : Dict.t pyval)
  : IO executed :=
  start_time <- time_time ;;
  delay <- random_uniform 0.2 1 ;;
  _ <- asyncio_sleep delay ;;
  draw <- random_random ;;
  let should_pass := PrimFloat.ltb 0.1 draw in
  stop_time <- time_time ;;
  match Py.int_of_float
          (PrimFloat.mul (PrimFloat.sub stop_time start_time) 1000%float) with
  | inl e => ret (Raised e)
  | inr duration_ms =>
      let base_url :=
        Dict.get_default (Str.lit "base_url") config
                         (VStr (Str.lit "https://api.example.com")) in
      now <- datetime_now_isoformat ;;
      ret (Returned
             (TestResult.mk
                (TestCase.name test_case)
                (TestCase.description test_case)
                (if should_pass then PASSED else FAILED)
                duration_ms
                (if should_pass then TestCase.success_message test_case
                 else TestCase.failure_message test_case)
                (Some (Py.str base_url ++ Str.lit "/v1/" ++ TestCase.test_function test_case))
                now
                None))
  end.

Definition bundle : TestBundle.t :=
  TestBundle.mk name description category icon TestBundle.default_version
                get_config_schema get_test_cases execute_test true.

End WithHost.
End APIHealthBundle.

(* ================================================================== *)
(** ** [class BundleRegistry] *)

Module BundleRegistry.
Section WithHost.
Context `{Host}.

(** The attribute [_bundles]. *)
Definition t := Dict.t TestBundle.t.

(** The id a bundle is stored under:
    [bundle.name.lower().replace(' ', '_')]. *)
Definition bundle_id_of (bundle_name : pystr) : pystr :=
  Str.replace_char 32%N 95%N (Py.lower bundle_name).

(** [BundleRegistry.register_bundle] *)
Definition register_bundle (bundle : TestBundle.t) (self : t) : t :=
  Dict.set (bundle_id_of (TestBundle.name bundle)) bundle self.

(** [BundleRegistry._load_default_bundles] *)
Definition _load_default_bundles (self : t) : t :=
  register_bundle APIHealthBundle.bundle
    (register_bundle FormValidationBundle.bundle
       (register_bundle EcommerceBundle.bundle self)).

(** [BundleRegistry.__init__] *)
Definition init : t := _load_default_bundles [].

(** [BundleRegistry.get_bundle] *)
Definition get_bundle (self : t) (bundle_id : pystr) : option TestBundle.t :=
  Dict.get bundle_id self.

(** [BundleRegistry.list_bundles] *)
Definition list_bundles (self : t) : list (Dict.t pyval) :=
  map TestBundle.get_bundle_info (Dict.values self).

(** [BundleRegistry.get_bundle_ids] *)
Definition get_bundle_ids (self : t) : list pystr := Dict.keys self.

End WithHost.
End BundleRegistry.

(* ================================================================== *)
(** ** [class TestRunner]: the execution engine *)

Module TestRunner.
Section WithHost.
Context `{Host}.

(** [sum(1 for r in results if r.status == s)] *)
Definition count_status (s : TestStatus) (results : list TestResult.t) : nat :=
  length (filter (fun r => Status.eqb (TestResult.status r) s) results).

(** [sum(r.duration_ms for r in results)] *)
Definition sum_durations (results : list TestResult.t) : Z :=
  fold_left (fun acc r => (acc + TestResult.duration_ms r)%Z) results 0%Z.

(** [(passed / total * 100) if total > 0 else 0] *)
Definition pass_rate_of (passed total : nat) : pyval :=
  if (0 <? total)%nat
  then VFloat (PrimFloat.mul (Py.int_truediv (Z.of_nat passed) (Z.of_nat total))
                             100%float)
  else VInt 0.

(** [TestRunner._calculate_statistics] *)
Definition _calculate_statistics (results : list TestResult.t)
  (execution_time : float) : Dict.t pyval :=
  let total := length results in
  let passed := count_status PASSED results in
  let failed := count_status FAILED results in
  let skipped := count_status SKIPPED results in
  let pass_rate := pass_rate_of passed total in
  [ (Str.lit "total_tests", VInt (Z.of_nat total));
    (Str.lit "passed", VInt (Z.of_nat passed));
    (Str.lit "failed", VInt (Z.of_nat failed));
    (Str.lit "skipped", VInt (Z.of_nat skipped));
    (Str.lit "pass_rate", Py.round_2 pass_rate);
    (Str.lit "total_duration_ms", VInt (sum_durations results));
    (Str.lit "execution_time_seconds", VFloat (Py.round2 execution_time)) ].

(** The dictionary [run_bundle] returns. *)
Definition run_outcome (bundle : TestBundle.t) (config : Dict.t pyval)
  (results : list TestResult.t) (execution_time : float) : Dict.t pyval :=
  [ (Str.lit "bundle_info", VDict (TestBundle.get_bundle_info bundle));
    (Str.lit "config", VDict config);
    (Str.lit "results",
       VList (map (fun r => VDict (TestResult.to_dict r)) results));
    (Str.lit "statistics",
       VDict (_calculate_statistics results execution_time));
    (Str.lit "execution_time", VFloat execution_time) ].

Definition bundle_not_found (bundle_id : pystr) : pystr :=
  Str.lit "Bundle '" ++ bundle_id ++ Str.lit "' not found".

Definition invalid_configuration (error_msg : option pystr) : pystr :=
  Str.lit "Invalid configuration: " ++ Py.str_opt error_msg.

(** [TestRunner.run_bundle]; the runner's only attribute is its
    registry.  The progress callback of the source is never called.
    [if not bundle] holds for [None] and for a bundle whose truth value
    is false.  An exception that leaves [execute_bundle] leaves
    [run_bundle] as it is: the call is in no [try] statement. *)
Definition run_bundle (registry : BundleRegistry.t) (bundle_id : pystr)
  (config : Dict.t pyval) : IO (outcome (Dict.t pyval)) :=
  match BundleRegistry.get_bundle registry bundle_id with
  | None => ret (Raise (ValueError (bundle_not_found bundle_id)))
  | Some bundle =>
      if negb (TestBundle.truth bundle)
      then ret (Raise (ValueError (bundle_not_found bundle_id)))
      else
        let (is_valid, error_msg) := TestBundle.validate_config bundle config in
        if negb is_valid
        then ret (Raise (ValueError (invalid_configuration error_msg)))
        else
          start_time <- time_time ;;
          ran <- TestBundle.execute_bundle bundle config ;;
          match ran with
          | Raise e => ret (Raise e)
          | Ok results =>
              end_time <- time_time ;;
              let execution_time := PrimFloat.sub end_time start_time in
              ret (Ok (run_outcome bundle config results execution_time))
          end
  end.

End WithHost.
End TestRunner.

(* ================================================================== *)
(** ** [textwrap.wrap] *)

(** The library function behind the canvas, with the options
    [textwrap.wrap(text, width)] leaves at their defaults: tabs are
    expanded, whitespace is replaced and dropped at line ends, long words
    are broken, and words may break after hyphens. *)
Module Textwrap.
Section WithHost.
Context `{Host}.

(** The characters of [_whitespace]: tab, newline, vertical tab, form
    feed, carriage return and space. *)
Definition is_whitespace (c : pychar) : bool :=
  (((9 <=? c) && (c <=? 13)) || (c =? 32))%N.

Definition hyphen : pychar := 45%N.

(** [text.expandtabs(8)]: a tab advances to the next multiple of eight
    columns; the column restarts after a newline or a carriage return. *)
Fixpoint expandtabs (line_pos : nat) (text : pystr) : pystr :=
  match text with
  | [] => []
  | c :: rest =>
      if (c =? 9)%N then
        let incr := 8 - line_pos mod 8 in
        Str.rep Str.space incr ++ expandtabs (line_pos + incr) rest
      else
        c :: expandtabs (if ((c =? 10) || (c =? 13))%N then 0 else S line_pos)
                        rest
  end.

(** [TextWrapper._munge_whitespace] *)
Definition _munge_whitespace (text : pystr) : pystr :=
  map (fun c => if is_whitespace c then Str.space else c) (expandtabs 0 text).

(** The character classes of [wordsep_re]: [\w], [\d], the letters
    (word characters that are no digits) and the word punctuation (word
    characters, exclamation mark, both quotes, ampersand, full stop,
    comma and question mark). *)
Definition is_digit (c : pychar) : bool :=
  if Str.is_ascii c then ((48 <=? c) && (c <=? 57))%N else unicode_isdecimal c.

Definition is_word (c : pychar) : bool :=
  if Str.is_ascii c
  then (((48 <=? c) && (c <=? 57)) || ((65 <=? c) && (c <=? 90))
        || ((97 <=? c) && (c <=? 122)) || (c =? 95))%N
  else unicode_isalnum c.

Definition is_letter (c : pychar) : bool := is_word c && negb (is_digit c).

Definition is_word_punct (c : pychar) : bool :=
  is_word c
  || ((c =? 33) || (c =? 34) || (c =? 39) || (c =? 38) || (c =? 46)
      || (c =? 44) || (c =? 63))%N.

(** [p] holds of the [i]-th character of [l]; false past the end. *)
Definition at_is (p : pychar -> bool) (l : pystr) (i : nat) : bool :=
  match nth_error l i with
  | Some c => p c
  | None => false
  end.

Definition is_hyphen (c : pychar) : bool := (c =? hyphen)%N.

Fixpoint leading (p : pychar -> bool) (l : pystr) : nat :=
  match l with
  | c :: rest => if p c then S (leading p rest) else 0
  | [] => 0
  end.

(** [-{2,}(?=\w)] matches at the start of [rest]: a run of two hyphens
    or more, followed by a word character. *)
Definition em_dash_ahead (rest : pystr) : bool :=
  let n := leading is_hyphen rest in
  (2 <=? n) && at_is is_word rest n.

(** The hyphenated-word alternative at a hyphen: [back] is the text before
    the hyphen, nearest character first, and [after] the text behind it.
    Lookbehind: two letters, or letter-hyphen-letter; lookahead: a letter,
    an optional hyphen, a letter. *)
Definition hyphen_break (back after : pystr) : bool :=
  ((at_is is_letter back 1 && at_is is_letter back 0)
   || (at_is is_letter back 2 && at_is is_hyphen back 1
       && at_is is_letter back 0))
  && at_is is_letter after 0
  && ((at_is is_hyphen after 1 && at_is is_letter after 2)
      || at_is is_letter after 1).

(** The lazy [[^ws]+?] of the word alternative, one character already
    taken: how many more characters the chunk takes.  The three ways to
    end are tried in the order of the pattern at each length. *)
Fixpoint word_more (back rest : pystr) : nat :=
  match rest with
  | [] => 0
  | c :: after =>
      if is_hyphen c && hyphen_break back after then 1
      else if is_whitespace c then 0
      else if at_is is_word_punct back 0 && em_dash_ahead rest then 0
      else S (word_more (c :: back) after)
  end.

(** The length of the match of [wordsep_re] that starts where [rest]
    starts: whitespace, an em-dash between words, or a word. *)
Definition chunk_len (back rest : pystr) : nat :=
  match rest with
  | [] => 0
  | c :: after =>
      if is_whitespace c then leading is_whitespace rest
      else if at_is is_word_punct back 0 && em_dash_ahead rest
           then leading is_hyphen rest
           else S (word_more (c :: back) after)
  end.

(** [TextWrapper._split]: the matches of [wordsep_re] in order.  A match
    starts at every position, so the pieces [re.split] returns between
    the matches are empty, and [_split] filters them out. *)
Fixpoint split_from (fuel : nat) (back rest : pystr) : list pystr :=
  match fuel with
  | O => []
  | S fuel' =>
      match rest with
      | [] => []
      | _ =>
          let n := chunk_len back rest in
          let chunk := firstn n rest in
          chunk :: split_from fuel' (rev chunk ++ back) (skipn n rest)
      end
  end.

Definition _split (text : pystr) : list pystr :=
  split_from (length text) [] text.

(** The inner loop of [_wrap_chunks]: chunks go on the current line as
    long as they fit. *)
Fixpoint take_fitting (width : nat) (cur_line : list pystr) (cur_len : nat)
  (chunks : list pystr) : list pystr * nat * list pystr :=
  match chunks with
  | [] => (cur_line, cur_len, [])
  | chunk :: rest =>
      let l := length chunk in
      if cur_len + l <=? width
      then take_fitting width (cur_line ++ [chunk]) (cur_len + l) rest
      else (cur_line, cur_len, chunks)
  end.

(** [chunk.rfind('-', 0, stop)] *)
Fixpoint rfind_hyphen (chunk : pystr) (stop : nat) : option nat :=
  match stop with
  | O => None
  | S i => if at_is is_hyphen chunk i then Some i else rfind_hyphen chunk i
  end.

(** [TextWrapper._handle_long_word], for a width of one or more: the
    head of [chunks] is cut to what is left of the line, after the last
    hyphen that has a non-hyphen before it if there is one. *)
Definition _handle_long_word (chunk : pystr) (cur_len width : nat) : nat :=
  let space_left := width - cur_len in
  if space_left <? length chunk then
    match rfind_hyphen chunk space_left with
    | Some hy =>
        if (0 <? hy) && existsb (fun c => negb (is_hyphen c)) (firstn hy chunk)
        then S hy else space_left
    | None => space_left
    end
  else space_left.

(** The line under construction loses a last chunk that is blank. *)
Definition drop_trailing_blank (cur_line : list pystr) : list pystr :=
  match rev cur_line with
  | last :: _ => if Str.is_blank last then removelast cur_line else cur_line
  | [] => cur_line
  end.

(** One turn of the outer loop of [_wrap_chunks]: the chunks left and
    the lines so far, after one more line. *)
Definition wrap_step (width : nat) (chunks lines : list pystr)
  : list pystr * list pystr :=
  let chunks1 :=
    match chunks, lines with
    | chunk :: rest, _ :: _ => if Str.is_blank chunk then rest else chunks
    | _, _ => chunks
    end in
  let '(cur_line, cur_len, chunks2) := take_fitting width [] 0 chunks1 in
  let '(cur_line3, chunks3) :=
    match chunks2 with
    | chunk :: rest =>
        if width <? length chunk then
          let cut := _handle_long_word chunk cur_len width in
          (cur_line ++ [firstn cut chunk], skipn cut chunk :: rest)
        else (cur_line, chunks2)
    | [] => (cur_line, chunks2)
    end in
  let cur_line4 := drop_trailing_blank cur_line3 in
  match cur_line4 with
  | [] => (chunks3, lines)
  | _ => (chunks3, lines ++ [concat cur_line4])
  end.

(** The loop [while chunks]; [None] if [fuel] turns do not empty
    [chunks]. *)
Fixpoint wrap_loop (fuel width : nat) (chunks lines : list pystr)
  : option (list pystr) :=
  match chunks with
  | [] => Some lines
  | _ =>
      match fuel with
      | O => None
      | S fuel' =>
          let (chunks', lines') := wrap_step width chunks lines in
          wrap_loop fuel' width chunks' lines'
      end
  end.

(** Every turn removes a chunk or at least a character of one. *)
Definition chunks_measure (chunks : list pystr) : nat :=
  fold_right (fun c acc => S (length c) + acc) 0 chunks.

(** [TextWrapper._wrap_chunks] *)
Definition _wrap_chunks (width : Z) (chunks : list pystr)
  : outcome (list pystr) :=
  if (width <=? 0)%Z
  then Raise (ValueError (Str.lit "invalid width " ++ Str.of_Z width
                          ++ Str.lit " (must be > 0)"))
  else
    match wrap_loop (chunks_measure chunks) (Z.to_nat width) chunks [] with
    | Some lines => Ok lines
    | None => Raise (ValueError (Str.lit "wrap: out of fuel"))
    end.

(** [textwrap.wrap(text, width)] *)
Definition wrap (text : pystr) (width : Z) : outcome (list pystr) :=
  _wrap_chunks width (_split (_munge_whitespace text)).

End WithHost.
End Textwrap.

(* ================================================================== *)
(** ** Operations on dynamically typed values *)

Definition obind {A B} (m : outcome A) (k : A -> outcome B) : outcome B :=
  match m with
  | Ok a => k a
  | Raise e => Raise e
  end.

Notation "'let*' x ':=' m 'in' k" := (obind m (fun x => k))
  (at level 10, x name, m at level 100, k at level 200).

(** [for x in xs] with a body that may raise. *)
Fixpoint omap {A B} (f : A -> outcome B) (l : list A) : outcome (list B) :=
  match l with
  | [] => Ok []
  | x :: rest =>
      let* y := f x in
      let* ys := omap f rest in
      Ok (y :: ys)
  end.

Module Dyn.

Definition type_name (v : pyval) : pystr :=
  match v with
  | VNone => Str.lit "NoneType"
  | VBool _ => Str.lit "bool"
  | VInt _ => Str.lit "int"
  | VFloat _ => Str.lit "float"
  | VStr _ => Str.lit "str"
  | VList _ => Str.lit "list"
  | VDict _ => Str.lit "dict"
  end.

Definition no_attribute (v : pyval) (attr : pystr) : exn :=
  AttributeError (Str.lit "'" ++ type_name v
                  ++ Str.lit "' object has no attribute '" ++ attr
                  ++ Str.lit "'").

(** [d[k]] on a dictionary *)
Definition item (d : Dict.t pyval) (k : pystr) : outcome pyval :=
  match Dict.get k d with
  | Some v => Ok v
  | None => Raise (KeyError k)
  end.

(** [v[k]] for a text key [k]: only a dictionary can be subscripted so. *)
Definition getitem (v : pyval) (k : pystr) : outcome pyval :=
  match v with
  | VDict d => item d k
  | _ => Raise (TypeError (Str.lit "'" ++ type_name v
                           ++ Str.lit "' object cannot be subscripted by str"))
  end.

(** [v.get(k, default)] *)
Definition get (v : pyval) (k : pystr) (default : pyval) : outcome pyval :=
  match v with
  | VDict d => Ok (Dict.get_default k d default)
  | _ => Raise (no_attribute v (Str.lit "get"))
  end.

(** The elements [for x in v] visits. *)
Definition iter (v : pyval) : outcome (list pyval) :=
  match v with
  | VList l => Ok l
  | VDict d => Ok (map VStr (Dict.keys d))
  | VStr s => Ok (map (fun c => VStr [c]) s)
  | _ => Raise (TypeError (Str.lit "'" ++ type_name v
                           ++ Str.lit "' object is not iterable"))
  end.

(** [v == text] *)
Definition eq_str (v : pyval) (text : pystr) : bool :=
  match v with
  | VStr s => Str.eqb s text
  | _ => false
  end.

End Dyn.

(* ================================================================== *)
(** ** [json.dumps(obj, indent=2)] and [json.loads] *)

(** The encoder with its defaults and an indent of two: non-ASCII text
    is escaped, items are separated by a comma and a new line, keys from
    values by a colon and a space.  The decoder is the scanner of the
    library, with its strict reading of text. *)
Module Json.
Section WithHost.
Context `{Host}.

(** *** Encoding *)

(** One digit of [format(n, '04x')]. *)
Definition hex_digit (d : N) : pychar :=
  if (d <? 10)%N then (48 + d)%N else (87 + d)%N.

(** The escape [\uXXXX] of a number below [0x10000]. *)
Definition u_escape (n : N) : pystr :=
  [ 92%N; 117%N;
    hex_digit (n / 4096 mod 16); hex_digit (n / 256 mod 16);
    hex_digit (n / 16 mod 16); hex_digit (n mod 16) ].

(** The replacement of one character by [encode_basestring_ascii]:
    the short escapes, the printable ASCII characters as they are, and
    [\uXXXX] for the rest, a surrogate pair above the basic plane. *)
Definition escape_char (c : pychar) : pystr :=
  if (c =? 34)%N then [92%N; 34%N]
  else if (c =? 92)%N then [92%N; 92%N]
  else if (c =? 10)%N then [92%N; 110%N]
  else if (c =? 13)%N then [92%N; 114%N]
  else if (c =? 9)%N then [92%N; 116%N]
  else if (c =? 8)%N then [92%N; 98%N]
  else if (c =? 12)%N then [92%N; 102%N]
  else if ((32 <=? c) && (c <=? 126))%N then [c]
  else if (c <? 65536)%N then u_escape c
  else
    let n := (c - 65536)%N in
    u_escape (N.lor 55296 (N.land (N.shiftr n 10) 1023))
    ++ u_escape (N.lor 56320 (N.land n 1023)).

Definition encode_basestring_ascii (text : pystr) : pystr :=
  [34%N] ++ flat_map escape_char text ++ [34%N].

(** [floatstr]: the three constants, [float.__repr__] otherwise. *)
Definition floatstr (f : float) : pystr :=
  if PrimFloat.is_nan f then Str.lit "NaN"
  else if PrimFloat.is_infinity f then
    (if PrimFloat.ltb f PrimFloat.zero then Str.lit "-Infinity"
     else Str.lit "Infinity")
  else float_repr f.

(** A new line and the indent of a nesting level. *)
Definition newline_indent (level : nat) : pystr :=
  10%N :: Str.rep Str.space (2 * level).

(** The text of a value at a nesting level. *)
Fixpoint encode (level : nat) (v : pyval) : pystr :=
  match v with
  | VNone => Str.lit "null"
  | VBool true => Str.lit "true"
  | VBool false => Str.lit "false"
  | VInt z => Str.of_Z z
  | VFloat f => floatstr f
  | VStr text => encode_basestring_ascii text
  | VList [] => Str.lit "[]"
  | VList items =>
      Str.lit "[" ++ newline_indent (S level)
      ++ Str.join (Str.lit "," ++ newline_indent (S level))
                  (map (encode (S level)) items)
      ++ newline_indent level ++ Str.lit "]"
  | VDict [] => Str.lit "{}"
  | VDict items =>
      Str.lit "{" ++ newline_indent (S level)
      ++ Str.join (Str.lit "," ++ newline_indent (S level))
                  (map (fun kv => encode_basestring_ascii (fst kv)
                                  ++ Str.lit ": " ++ encode (S level) (snd kv))
                       items)
      ++ newline_indent level ++ Str.lit "}"
  end.

(** [json.dumps(obj, indent=2)] *)
Definition dumps (obj : pyval) : pystr := encode 0 obj.

(** *** Decoding *)

Definition JSONDecodeError (msg : string) : exn := ValueError (Str.lit msg).

Definition is_ws (c : pychar) : bool :=
  ((c =? 32) || (c =? 9) || (c =? 10) || (c =? 13))%N.

(** [WHITESPACE.match(s, end).end()] *)
Fixpoint skip_ws (s : pystr) : pystr :=
  match s with
  | c :: rest => if is_ws c then skip_ws rest else s
  | [] => []
  end.

Definition hex_value (c : pychar) : option N :=
  if ((48 <=? c) && (c <=? 57))%N then Some (c - 48)%N
  else if ((97 <=? c) && (c <=? 102))%N then Some (c - 87)%N
  else if ((65 <=? c) && (c <=? 70))%N then Some (c - 55)%N
  else None.

(** Four hexadecimal digits. *)
Definition hex4 (a b c d : pychar) : option N :=
  match hex_value a, hex_value b, hex_value c, hex_value d with
  | Some x, Some y, Some z, Some w =>
      Some (((x * 16 + y) * 16 + z) * 16 + w)%N
  | _, _, _, _ => None
  end.

(** The character of a short escape. *)
Definition backslash (c : pychar) : option pychar :=
  if (c =? 34)%N then Some 34%N
  else if (c =? 92)%N then Some 92%N
  else if (c =? 47)%N then Some 47%N
  else if (c =? 98)%N then Some 8%N
  else if (c =? 102)%N then Some 12%N
  else if (c =? 110)%N then Some 10%N
  else if (c =? 114)%N then Some 13%N
  else if (c =? 116)%N then Some 9%N
  else None.

Definition is_high_surrogate (n : N) : bool :=
  ((55296 <=? n) && (n <=? 56319))%N.

Definition is_low_surrogate (n : N) : bool :=
  ((56320 <=? n) && (n <=? 57343))%N.

(** [scanstring], strict: the text after an opening quote, up to the
    closing one.  A high surrogate escape followed by a low surrogate
    escape is one character. *)
Fixpoint scanstring (s : pystr) (acc : pystr) : outcome (pystr * pystr) :=
  match s with
  | [] => Raise (JSONDecodeError "Unterminated string starting at")
  | c :: rest =>
      if (c =? 34)%N then Ok (acc, rest)
      else if (c =? 92)%N then
        match rest with
        | [] => Raise (JSONDecodeError "Unterminated string starting at")
        | esc :: rest1 =>
            if (esc =? 117)%N then
              match rest1 with
              | h1 :: h2 :: h3 :: h4 :: rest2 =>
                  match hex4 h1 h2 h3 h4 with
                  | None => Raise (JSONDecodeError "Invalid \uXXXX escape")
                  | Some uni =>
                      match rest2 with
                      | b :: u :: g1 :: g2 :: g3 :: g4 :: ((_ :: _) as tail) =>
                          if is_high_surrogate uni && (b =? 92)%N
                             && (u =? 117)%N
                          then
                            match hex4 g1 g2 g3 g4 with
                            | None =>
                                Raise (JSONDecodeError "Invalid \uXXXX escape")
                            | Some uni2 =>
                                if is_low_surrogate uni2
                                then scanstring tail
                                       (acc ++ [65536
                                                + N.lor
                                                    (N.shiftl (uni - 55296) 10)
                                                    (uni2 - 56320)])%N
                                else scanstring rest2 (acc ++ [uni])
                            end
                          else scanstring rest2 (acc ++ [uni])
                      | _ => scanstring rest2 (acc ++ [uni])
                      end
                  end
              | _ => Raise (JSONDecodeError "Invalid \uXXXX escape")
              end
            else
              match backslash esc with
              | Some char => scanstring rest1 (acc ++ [char])
              | None => Raise (JSONDecodeError "Invalid \escape")
              end
        end
      else if (c <? 32)%N
           then Raise (JSONDecodeError "Invalid control character at")
           else scanstring rest (acc ++ [c])
  end.

Definition is_digit (c : pychar) : bool := ((48 <=? c) && (c <=? 57))%N.

(** The longest run of digits at the start of a text, and the rest. *)
Fixpoint span_digits (s : pystr) : pystr * pystr :=
  match s with
  | c :: rest =>
      if is_digit c
      then let (ds, rest') := span_digits rest in (c :: ds, rest')
      else ([], s)
  | [] => ([], [])
  end.

(** The integer part of [NUMBER_RE]: an optional minus, then a zero or
    a digit from one to nine followed by digits. *)
Definition match_integer (s : pystr) : option (pystr * pystr) :=
  let (sign, body) :=
    match s with
    | c :: rest => if (c =? 45)%N then ([45%N], rest) else ([], s)
    | [] => ([], s)
    end in
  match body with
  | c :: rest =>
      if (c =? 48)%N then Some (sign ++ [48%N], rest)
      else if is_digit c then
        let (ds, rest') := span_digits rest in Some (sign ++ c :: ds, rest')
      else None
  | [] => None
  end.

(** The optional fraction: a full stop and at least one digit. *)
Definition match_frac (s : pystr) : pystr * pystr :=
  match s with
  | c :: rest =>
      if (c =? 46)%N then
        match span_digits rest with
        | ([], _) => ([], s)
        | (ds, rest') => (c :: ds, rest')
        end
      else ([], s)
  | [] => ([], s)
  end.

(** The optional exponent: [e] or [E], an optional sign, at least one
    digit. *)
Definition match_exp (s : pystr) : pystr * pystr :=
  match s with
  | c :: rest =>
      if ((c =? 101) || (c =? 69))%N then
        let (sign, body) :=
          match rest with
          | d :: rest1 =>
              if ((d =? 45) || (d =? 43))%N then ([d], rest1) else ([], rest)
          | [] => ([], rest)
          end in
        match span_digits body with
        | ([], _) => ([], s)
        | (ds, rest') => (c :: sign ++ ds, rest')
        end
      else ([], s)
  | [] => ([], s)
  end.

(** [int(text)] for the integer part of a number. *)
Definition int_of_text (text : pystr) : Z :=
  let value digits :=
    fold_left (fun acc c => (10 * acc + (Z.of_N c - 48))%Z) digits 0%Z in
  match text with
  | c :: digits => if (c =? 45)%N then (- value digits)%Z else value text
  | [] => 0%Z
  end.

(** A number: an integer, or a float when it has a fraction or an
    exponent. *)
Definition match_number (s : pystr) : option (pyval * pystr) :=
  match match_integer s with
  | None => None
  | Some (integer, rest) =>
      let (frac, rest1) := match_frac rest in
      let (exp, rest2) := match_exp rest1 in
      match frac, exp with
      | [], [] => Some (VInt (int_of_text integer), rest2)
      | _, _ => Some (VFloat (float_of_str (integer ++ frac ++ exp)), rest2)
      end
  end.

(** [s[idx:idx + len(word)] == word], and the rest of the text. *)
Fixpoint starts_with (word s : pystr) : option pystr :=
  match word, s with
  | [], _ => Some s
  | w :: word', c :: rest => if (w =? c)%N then starts_with word' rest else None
  | _ :: _, [] => None
  end.

(** What is not a text, an object or an array. *)
Definition scan_atom (s : pystr) : outcome (pyval * pystr) :=
  match starts_with (Str.lit "null") s with
  | Some rest => Ok (VNone, rest)
  | None =>
  match starts_with (Str.lit "true") s with
  | Some rest => Ok (VBool true, rest)
  | None =>
  match starts_with (Str.lit "false") s with
  | Some rest => Ok (VBool false, rest)
  | None =>
  match match_number s with
  | Some found => Ok found
  | None =>
  match starts_with (Str.lit "NaN") s with
  | Some rest => Ok (VFloat PrimFloat.nan, rest)
  | None =>
  match starts_with (Str.lit "Infinity") s with
  | Some rest => Ok (VFloat PrimFloat.infinity, rest)
  | None =>
  match starts_with (Str.lit "-Infinity") s with
  | Some rest => Ok (VFloat PrimFloat.neg_infinity, rest)
  | None => Raise (JSONDecodeError "Expecting value")
  end end end end end end end.

(** [scan_once], [JSONObject] and [JSONArray].  Every call reads at
    least one character, so the length of the text is fuel enough. *)
Fixpoint scan_once (fuel : nat) (s : pystr) : outcome (pyval * pystr) :=
  match fuel with
  | O => Raise (JSONDecodeError "out of fuel")
  | S fuel' =>
      match s with
      | [] => Raise (JSONDecodeError "Expecting value")
      | c :: rest =>
          if (c =? 34)%N then
            let* found := scanstring rest [] in
            Ok (VStr (fst found), snd found)
          else if (c =? 123)%N then
            match skip_ws rest with
            | c1 :: rest1 =>
                if (c1 =? 125)%N then Ok (VDict [], rest1)
                else if (c1 =? 34)%N then scan_members fuel' rest1 []
                else Raise (JSONDecodeError
                  "Expecting property name enclosed in double quotes")
            | [] => Raise (JSONDecodeError
                  "Expecting property name enclosed in double quotes")
            end
          else if (c =? 91)%N then
            match skip_ws rest with
            | c1 :: rest1 =>
                if (c1 =? 93)%N then Ok (VList [], rest1)
                else scan_elements fuel' (c1 :: rest1) []
            | [] => Raise (JSONDecodeError "Expecting value")
            end
          else scan_atom s
      end
  end

(** The members of an object, from behind the opening quote of a key;
    [pairs] is the dictionary built so far. *)
with scan_members (fuel : nat) (s : pystr) (pairs : Dict.t pyval)
  : outcome (pyval * pystr) :=
  match fuel with
  | O => Raise (JSONDecodeError "out of fuel")
  | S fuel' =>
      let* key := scanstring s [] in
      match skip_ws (snd key) with
      | colon :: rest =>
          if (colon =? 58)%N then
            let* value := scan_once fuel' (skip_ws rest) in
            let pairs' := Dict.set (fst key) (fst value) pairs in
            match skip_ws (snd value) with
            | c :: rest1 =>
                if (c =? 125)%N then Ok (VDict pairs', rest1)
                else if (c =? 44)%N then
                  match skip_ws rest1 with
                  | q :: rest2 =>
                      if (q =? 34)%N then scan_members fuel' rest2 pairs'
                      else Raise (JSONDecodeError
                        "Expecting property name enclosed in double quotes")
                  | [] => Raise (JSONDecodeError
                        "Expecting property name enclosed in double quotes")
                  end
                else Raise (JSONDecodeError "Expecting ',' delimiter")
            | [] => Raise (JSONDecodeError "Expecting ',' delimiter")
            end
          else Raise (JSONDecodeError "Expecting ':' delimiter")
      | [] => Raise (JSONDecodeError "Expecting ':' delimiter")
      end
  end

(** The elements of an array, from the start of an element. *)
with scan_elements (fuel : nat) (s : pystr) (values : list pyval)
  : outcome (pyval * pystr) :=
  match fuel with
  | O => Raise (JSONDecodeError "out of fuel")
  | S fuel' =>
      let* value := scan_once fuel' s in
      let values' := values ++ [fst value] in
      match skip_ws (snd value) with
      | c :: rest =>
          if (c =? 93)%N then Ok (VList values', rest)
          else if (c =? 44)%N then scan_elements fuel' (skip_ws rest) values'
          else Raise (JSONDecodeError "Expecting ',' delimiter")
      | [] => Raise (JSONDecodeError "Expecting ',' delimiter")
      end
  end.

(** [json.loads(s)] *)
Definition loads (s : pystr) : outcome pyval :=
  match starts_with [65279%N] s with
  | Some _ => Raise (JSONDecodeError "Unexpected UTF-8 BOM")
  | None =>
      let* found := scan_once (S (length s)) (skip_ws s) in
      match skip_ws (snd found) with
      | [] => Ok (fst found)
      | _ :: _ => Raise (JSONDecodeError "Extra data")
      end
  end.

End WithHost.
End Json.

(* ================================================================== *)
(** ** [class ReportGenerator] *)

Module ReportGenerator.
Section WithHost.
Context `{Host}.

Definition nl : pystr := [10%N].

(** The check mark and the cross of the source, as the file spells them:
    three characters each. *)
Definition pass_mark : pystr := [226%N; 339%N; 8220%N].
Definition fail_mark : pystr := [226%N; 339%N; 8212%N].

(** The separator between status and name on the canvas, three
    characters as well. *)
Definition bullet : pystr := [226%N; 8364%N; 162%N].

(** *** [generate_json_report] *)

Definition generate_json_report (test_results : Dict.t pyval) : pystr :=
  Json.dumps (VDict test_results).

(** *** [generate_html_summary] *)

Definition html_status_icon (result : pyval) : outcome pystr :=
  let* st := Dyn.getitem result (Str.lit "status") in
  Ok (if Dyn.eq_str st (Str.lit "passed") then pass_mark else fail_mark).

Definition html_result (result : pyval) : outcome pystr :=
  let* status_icon := html_status_icon result in
  let* name := Dyn.getitem result (Str.lit "name") in
  let* details := Dyn.getitem result (Str.lit "details") in
  let* duration_ms := Dyn.getitem result (Str.lit "duration_ms") in
  Ok (nl ++ Str.lit "            <div>" ++ nl
      ++ Str.lit "                <strong>" ++ status_icon ++ Str.lit " "
      ++ Py.str name ++ Str.lit "</strong>" ++ nl
      ++ Str.lit "                <p>" ++ Py.str details ++ Str.lit "</p>" ++ nl
      ++ Str.lit "                <small>Duration: " ++ Py.str duration_ms
      ++ Str.lit "ms</small>" ++ nl
      ++ Str.lit "            </div>" ++ nl
      ++ Str.lit "            ").

Definition html_head (bundle_info stats : pyval) : outcome pystr :=
  let* name := Dyn.getitem bundle_info (Str.lit "name") in
  let* description := Dyn.getitem bundle_info (Str.lit "description") in
  let* total_tests := Dyn.getitem stats (Str.lit "total_tests") in
  let* passed := Dyn.getitem stats (Str.lit "passed") in
  let* failed := Dyn.getitem stats (Str.lit "failed") in
  let* pass_rate := Dyn.getitem stats (Str.lit "pass_rate") in
  let* seconds := Dyn.getitem stats (Str.lit "execution_time_seconds") in
  Ok (nl ++ Str.lit "        <h2>Test Report: " ++ Py.str name
      ++ Str.lit "</h2>" ++ nl
      ++ Str.lit "        <p>" ++ Py.str description ++ Str.lit "</p>" ++ nl
      ++ Str.lit "        " ++ nl
      ++ Str.lit "        <h3>Summary</h3>" ++ nl
      ++ Str.lit "        <ul>" ++ nl
      ++ Str.lit "            <li>Total Tests: " ++ Py.str total_tests
      ++ Str.lit "</li>" ++ nl
      ++ Str.lit "            <li>Passed: " ++ Py.str passed ++ Str.lit " "
      ++ pass_mark ++ Str.lit "</li>" ++ nl
      ++ Str.lit "            <li>Failed: " ++ Py.str failed ++ Str.lit " "
      ++ fail_mark ++ Str.lit "</li>" ++ nl
      ++ Str.lit "            <li>Pass Rate: " ++ Py.str pass_rate
      ++ Str.lit "%</li>" ++ nl
      ++ Str.lit "            <li>Execution Time: " ++ Py.str seconds
      ++ Str.lit "s</li>" ++ nl
      ++ Str.lit "        </ul>" ++ nl
      ++ Str.lit "        " ++ nl
      ++ Str.lit "        <h3>Test Results</h3>" ++ nl
      ++ Str.lit "        ").

Definition generate_html_summary (test_results : Dict.t pyval)
  : outcome pystr :=
  let* stats := Dyn.item test_results (Str.lit "statistics") in
  let* bundle_info := Dyn.item test_results (Str.lit "bundle_info") in
  let* html := html_head bundle_info stats in
  let* results := Dyn.item test_results (Str.lit "results") in
  let* items := Dyn.iter results in
  let* blocks := omap html_result items in
  Ok (html ++ concat blocks).

(** *** [generate_text_report] *)

Definition text_status (result : pyval) : outcome pystr :=
  let* st := Dyn.getitem result (Str.lit "status") in
  Ok (if Dyn.eq_str st (Str.lit "passed")
      then pass_mark ++ Str.lit " PASS"
      else fail_mark ++ Str.lit " FAIL").

(** The three lines appended for one result. *)
Definition text_result (result : pyval) : outcome (list pystr) :=
  let* status := text_status result in
  let* name := Dyn.getitem result (Str.lit "name") in
  let* details := Dyn.getitem result (Str.lit "details") in
  let* duration_ms := Dyn.getitem result (Str.lit "duration_ms") in
  Ok [ nl ++ Str.lit "  " ++ status ++ Str.lit " - " ++ Py.str name;
       Str.lit "    " ++ Py.str details;
       Str.lit "    Duration: " ++ Py.str duration_ms ++ Str.lit "ms" ].

Definition banner : pystr := Str.rep 61%N 60.

Definition text_head (bundle_info stats : pyval) : outcome (list pystr) :=
  let* name := Dyn.getitem bundle_info (Str.lit "name") in
  let* description := Dyn.getitem bundle_info (Str.lit "description") in
  let* total_tests := Dyn.getitem stats (Str.lit "total_tests") in
  let* passed := Dyn.getitem stats (Str.lit "passed") in
  let* failed := Dyn.getitem stats (Str.lit "failed") in
  let* pass_rate := Dyn.getitem stats (Str.lit "pass_rate") in
  let* seconds := Dyn.getitem stats (Str.lit "execution_time_seconds") in
  Ok [ banner;
       Str.lit "TEST REPORT: " ++ Py.str name;
       banner;
       nl ++ Py.str description ++ nl;
       Str.lit "SUMMARY:";
       Str.lit "  Total Tests: " ++ Py.str total_tests;
       Str.lit "  Passed: " ++ Py.str passed;
       Str.lit "  Failed: " ++ Py.str failed;
       Str.lit "  Pass Rate: " ++ Py.str pass_rate ++ Str.lit "%";
       Str.lit "  Execution Time: " ++ Py.str seconds ++ Str.lit "s" ++ nl;
       Str.lit "TEST RESULTS:" ].

Definition generate_text_report (test_results : Dict.t pyval)
  : outcome pystr :=
  let* stats := Dyn.item test_results (Str.lit "statistics") in
  let* bundle_info := Dyn.item test_results (Str.lit "bundle_info") in
  let* head := text_head bundle_info stats in
  let* results := Dyn.item test_results (Str.lit "results") in
  let* items := Dyn.iter results in
  let* blocks := omap text_result items in
  Ok (Str.join nl (head ++ concat blocks ++ [nl ++ banner])).

(** *** [generate_canvas_report] *)

Definition width : Z := 70.

Definition border : pystr :=
  Str.lit "+" ++ Str.rep Textwrap.hyphen (Z.to_nat (width - 2)) ++ Str.lit "+".

Definition center_line (text : pystr) : pystr :=
  Str.lit "|" ++ Str.center text (width - 2) ++ Str.lit "|".

(** [textwrap.wrap] is handed whatever the dictionary holds; it starts
    with [text.expandtabs], which only text has. *)
Definition wrap_value (v : pyval) (w : Z) : outcome (list pystr) :=
  match v with
  | VStr text => Textwrap.wrap text w
  | _ => Raise (Dyn.no_attribute v (Str.lit "expandtabs"))
  end.

(** [if not wrapped: wrapped = [""]] *)
Definition or_blank (wrapped : list pystr) : list pystr :=
  match wrapped with
  | [] => [[]]
  | _ => wrapped
  end.

Definition wrap_block (text : pyval) : outcome (list pystr) :=
  let* wrapped := wrap_value text (width - 4) in
  Ok (map (fun line => Str.lit "| " ++ Str.ljust line (width - 4) ++ Str.lit " |")
          (or_blank wrapped)).

Definition wrap_lines (prefix : pystr) (content : pyval)
  : outcome (list pystr) :=
  let inner := (width - Z.of_nat (length prefix) - 3)%Z in
  let* wrapped := wrap_value content inner in
  match or_blank wrapped with
  | [] => Ok []
  | first :: more =>
      Ok ((Str.lit "| " ++ prefix ++ Str.ljust first inner ++ Str.lit "|")
          :: map (fun line =>
                    Str.lit "| " ++ Str.rep Str.space (length prefix)
                    ++ Str.ljust line inner ++ Str.lit "|")
                 more)
  end.

Definition canvas_status (result : pyval) : outcome pystr :=
  let* st := Dyn.getitem result (Str.lit "status") in
  Ok (if Dyn.eq_str st (Str.lit "passed") then Str.lit "PASS"
      else if Dyn.eq_str st (Str.lit "failed") then Str.lit "FAIL"
      else Str.lit "SKIP").

(** The lines the loop adds for one result. *)
Definition canvas_result (result : pyval) : outcome (list pystr) :=
  let* status := canvas_status result in
  let* name := Dyn.getitem result (Str.lit "name") in
  let header := center_line (status ++ Str.lit " " ++ bullet ++ Str.lit " "
                             ++ Py.str name) in
  let* details := Dyn.getitem result (Str.lit "details") in
  let* detail_lines := wrap_lines (Str.lit "Detail: ") details in
  let* url := Dyn.get result (Str.lit "url") (VStr (Str.lit "n/a")) in
  let* link_lines := wrap_lines (Str.lit "Link: ") url in
  Ok (header :: detail_lines ++ link_lines ++ [border]).

Definition summary_text (stats : pyval) : outcome pystr :=
  let* total_tests := Dyn.getitem stats (Str.lit "total_tests") in
  let* passed := Dyn.getitem stats (Str.lit "passed") in
  let* failed := Dyn.getitem stats (Str.lit "failed") in
  let* skipped := Dyn.getitem stats (Str.lit "skipped") in
  let* pass_rate := Dyn.getitem stats (Str.lit "pass_rate") in
  Ok (Str.lit "Total=" ++ Py.str total_tests
      ++ Str.lit " Passed=" ++ Py.str passed
      ++ Str.lit " Failed=" ++ Py.str failed
      ++ Str.lit " Skipped=" ++ Py.str skipped
      ++ Str.lit " PassRate=" ++ Py.str pass_rate ++ Str.lit "%").

Definition duration_text (stats : pyval) : outcome pystr :=
  let* seconds := Dyn.getitem stats (Str.lit "execution_time_seconds") in
  let* total_ms := Dyn.getitem stats (Str.lit "total_duration_ms") in
  Ok (Str.lit "Bundle execution " ++ Py.str seconds
      ++ Str.lit "s / " ++ Py.str total_ms ++ Str.lit "ms cumulative").

(** The list [canvas] before it is joined. *)
Definition canvas_lines (test_results : Dict.t pyval)
  : outcome (list pystr) :=
  let* stats := Dyn.item test_results (Str.lit "statistics") in
  let* bundle_info := Dyn.item test_results (Str.lit "bundle_info") in
  let* name := Dyn.getitem bundle_info (Str.lit "name") in
  let title := center_line (Str.lit "Test Canvas: " ++ Py.str name) in
  let* description := Dyn.getitem bundle_info (Str.lit "description") in
  let* block := wrap_block description in
  let* summary := summary_text stats in
  let* summary_lines := wrap_lines (Str.lit "Summary: ") (VStr summary) in
  let* duration := duration_text stats in
  let* duration_lines := wrap_lines (Str.lit "Duration: ") (VStr duration) in
  let* results := Dyn.item test_results (Str.lit "results") in
  let* items := Dyn.iter results in
  let* blocks := omap canvas_result items in
  Ok ([border; title] ++ block ++ [border] ++ summary_lines
      ++ duration_lines ++ [border] ++ concat blocks).

Definition generate_canvas_report (test_results : Dict.t pyval)
  : outcome pystr :=
  let* canvas := canvas_lines test_results in
  Ok (Str.join nl canvas).

End WithHost.
End ReportGenerator.

(* ================================================================== *)
(** ** [async def demo()] *)

(** The demonstration prints to the standard output, which is modelled
    as the text printed so far, and returns nothing or raises. *)
Module Demo.
Section WithHost.
Context `{Host}.

(** [print(text)] *)
Definition print (text : pystr) (stdout : pystr) : pystr :=
  stdout ++ text ++ ReportGenerator.nl.

(** The pictures in front of the headings, as the file spells them. *)
Definition rocket : pystr := [240%N; 376%N; 353%N; 8364%N].
Definition package : pystr := [240%N; 376%N; 8220%N; 166%N].
Definition trolley : pystr := [240%N; 376%N; 8250%N; 8217%N].
Definition disk : pystr := [240%N; 376%N; 8217%N; 190%N].
Definition chart : pystr := [240%N; 376%N; 8220%N; 352%N].
Definition tick : pystr := [226%N; 339%N; 8230%N].
Definition wrench : pystr := [240%N; 376%N; 8221%N; 167%N].

Definition ecommerce_config : Dict.t pyval :=
  [ (Str.lit "base_url", VStr (Str.lit "https://demo-shop.example.com"));
    (Str.lit "test_user_email", VStr (Str.lit "tester@example.com"));
    (Str.lit "test_product_id", VStr (Str.lit "PROD-001")) ].

(** The line printed for a bundle. *)
Definition bundle_line (bundle_info : Dict.t pyval) : outcome pystr :=
  let* name := Dyn.item bundle_info (Str.lit "name") in
  let* test_count := Dyn.item bundle_info (Str.lit "test_count") in
  Ok (Str.lit "  " ++ ReportGenerator.bullet ++ Str.lit " " ++ Py.str name
      ++ Str.lit " (" ++ Py.str test_count ++ Str.lit " tests)").

(** [for bundle_info in registry.list_bundles(): print(...)] *)
Fixpoint print_bundles (infos : list (Dict.t pyval)) (stdout : pystr)
  : pystr * outcome unit :=
  match infos with
  | [] => (stdout, Ok tt)
  | bundle_info :: rest =>
      match bundle_line bundle_info with
      | Ok line => print_bundles rest (print line stdout)
      | Raise e => (stdout, Raise e)
      end
  end.

(** Several calls of [print], one after the other. *)
Definition prints (texts : list pystr) (stdout : pystr) : pystr :=
  fold_left (fun out text => print text out) texts stdout.

(** A line of the two lists at the end. *)
Definition point (text : string) : pystr :=
  Str.lit "  " ++ ReportGenerator.bullet ++ Str.lit text.

(** The lines printed after the reports. *)
Definition closing : list pystr :=
  [ ReportGenerator.nl ++ disk
    ++ Str.lit " JSON Report available for CI/CD integration";
    chart ++ Str.lit " HTML Report can be generated for web display";
    ReportGenerator.nl ++ tick ++ Str.lit " Demo completed!";
    ReportGenerator.nl ++ wrench ++ Str.lit " Architecture Highlights:";
    point " Plugin-based test bundle system";
    point " Async test execution";
    point " Extensible configuration schema";
    point " Multiple report formats";
    point " Type-safe with dataclasses";
    ReportGenerator.nl ++ rocket ++ Str.lit " Ready to add:";
    point " Flask/FastAPI web interface";
    point " Real Selenium/Playwright integration";
    point " Database for result history";
    point " CI/CD integration" ].

(** [demo]: what it has printed, and whether it returned or raised. *)
Definition demo : IO (pystr * outcome unit) :=
  fun w =>
  let stdout :=
    print (rocket
           ++ Str.lit " Test Automation Platform - Python Implementation"
           ++ ReportGenerator.nl) [] in
  let registry := BundleRegistry.init in
  let stdout := print (package ++ Str.lit " Available Test Bundles:") stdout in
  match print_bundles (BundleRegistry.list_bundles registry) stdout with
  | (stdout, Raise e) => ((stdout, Raise e), w)
  | (stdout, Ok _) =>
      let stdout := print [] stdout in
      let stdout :=
        print (trolley ++ Str.lit " Running E-commerce Checkout Flow Tests...")
              stdout in
      let (ran, w') :=
        TestRunner.run_bundle registry (Str.lit "e-commerce_checkout_flow")
                              ecommerce_config w in
      match ran with
      | Raise e => ((stdout, Raise e), w')
      | Ok results =>
          match ReportGenerator.generate_text_report results with
          | Raise e => ((stdout, Raise e), w')
          | Ok text =>
              let stdout := print (ReportGenerator.nl ++ text) stdout in
              match ReportGenerator.generate_canvas_report results with
              | Raise e => ((stdout, Raise e), w')
              | Ok canvas =>
                  let stdout := print (ReportGenerator.nl ++ canvas) stdout in
                  ((prints closing stdout, Ok tt), w')
              end
          end
      end
  end.

End WithHost.
End Demo.

(* ================================================================== *)
(** ** Reading a run outcome *)

Module Outcome.

(** [[r[key] for r in out['results']]] *)
Definition result_fields (out : Dict.t pyval) (key : pystr)
  : outcome (list pyval) :=
  let* results := Dyn.item out (Str.lit "results") in
  let* items := Dyn.iter results in
  omap (fun r => Dyn.getitem r key) items.

(** [out['statistics'][key]] *)
Definition statistic (out : Dict.t pyval) (key : pystr) : outcome pyval :=
  let* stats := Dyn.item out (Str.lit "statistics") in
  Dyn.getitem stats key.

End Outcome.

(* ================================================================== *)
(** ** A simulated host and sample bundles *)

(** A host for examples: the world is the reading of the clock, in
    seconds; sleeping advances it; the random draws are fixed. *)
Module Sim.

(** Floats with at most two decimals, as Python writes them: [50.0],
    [33.33], [3.5]; the simulated host knows no other. *)
Definition two_decimals (f : float) : pystr :=
  match Prim2SF f with
  | S754_finite s m e =>
      let n := Py.round_half_even (Zpos m * 100) e in
      let whole := Str.of_Z (n / 100) in
      let tenths := Str.of_Z (n mod 100 / 10) in
      let hundredths := Str.of_Z (n mod 10) in
      (if s then Str.lit "-" else [])
      ++ whole ++ Str.lit "." ++ tenths
      ++ (if (n mod 10 =? 0)%Z then [] else hundredths)
  | S754_zero true => Str.lit "-0.0"
  | _ => Str.lit "0.0"
  end.

(** The value of a text made of digits. *)
Definition digits_value (text : pystr) : Z :=
  fold_left (fun acc c => (10 * acc + (Z.of_N c - 48))%Z) text 0%Z.

(** The float written as [whole.fraction], with an optional sign. *)
Definition read_decimal (text : pystr) : float :=
  let negative := match text with c :: _ => (c =? 45)%N | [] => false end in
  let digits := filter (fun c => (48 <=? c) && (c <=? 57))%N text in
  let fraction :=
    match Str.split_on 46%N text with
    | _ :: frac :: _ => length frac
    | _ => 0
    end in
  let magnitude := Py.SF_of_Z (digits_value digits) in
  let scale := Py.SF_of_Z (10 ^ Z.of_nat fraction) in
  let q := SFdiv prec emax magnitude scale in
  SF2Prim (if negative then SFopp q else q).

Definition host : Host := {|
  World := float;
  time_time := fun w => (w, w);
  datetime_now_isoformat := fun w => (Str.lit "2024-01-01T00:00:00", w);
  random_random := fun w => (0.5%float, w);
  random_uniform := fun a _ w => (a, w);
  asyncio_sleep := fun seconds w => (tt, PrimFloat.add w seconds);
  float_repr := two_decimals;
  float_of_str := read_decimal;
  container_str := fun _ => Str.lit "[]";
  unicode_lower := fun s => s;
  unicode_isalnum := fun _ => false;
  unicode_isdecimal := fun _ => false
|}.

#[local] Existing Instance host.

Definition sample_cases : list TestCase.t :=
  [ TestCase.make (Str.lit "Check A") (Str.lit "first") (Str.lit "check_a")
                  (Str.lit "A holds") (Str.lit "A fails");
    TestCase.make (Str.lit "Check B") (Str.lit "second") (Str.lit "check_b")
                  (Str.lit "B holds") (Str.lit "B fails") ].

(** "Sample Suite": [Check A] passes, the executor of [Check B] raises. *)
Definition sample_execute (test_case : TestCase.t) (config : Dict.t pyval)
  : IO executed :=
  if Str.eqb (TestCase.name test_case) (Str.lit "Check A")
  then ret (Returned (TestResult.mk (TestCase.name test_case)
                        (TestCase.description test_case) PASSED 12
                        (TestCase.success_message test_case)
                        (Some (Str.lit "https://example.com/a"))
                        (Str.lit "2024-01-01T00:00:00") None))
  else ret (Raised (Str.lit "connection refused")).

Definition sample_schema : Dict.t ConfigField.t :=
  [ (Str.lit "base_url",
     ConfigField.mk (Str.lit "url") (Str.lit "Website URL") true VNone
                    None None) ].

Definition sample_suite : TestBundle.t :=
  TestBundle.mk (Str.lit "Sample Suite") (Str.lit "Two checks")
                (Str.lit "general") (Str.lit "test") TestBundle.default_version
                sample_schema sample_cases sample_execute true.

(** A bundle registered later whose name gives the same id. *)
Definition sample_suite_2 : TestBundle.t :=
  TestBundle.mk (Str.lit "sample suite") (Str.lit "Replacement")
                (Str.lit "general") (Str.lit "test") (Str.lit "2.0.0")
                [] [] sample_execute true.

Definition sample_config : Dict.t pyval :=
  [ (Str.lit "base_url", VStr (Str.lit "https://example.com")) ].

(** A bundle whose executor reports every check under one fixed name. *)
Definition renaming_execute (test_case : TestCase.t) (config : Dict.t pyval)
  : IO executed :=
  ret (Returned (TestResult.mk (Str.lit "probe")
                   (TestCase.description test_case) PASSED 1
                   (TestCase.success_message test_case) None
                   (Str.lit "2024-01-01T00:00:00") None)).

Definition renaming_suite : TestBundle.t :=
  TestBundle.mk (Str.lit "Renaming Suite") (Str.lit "One check")
                (Str.lit "general") (Str.lit "test") TestBundle.default_version
                [] [ TestCase.make (Str.lit "Check A") (Str.lit "first")
                       (Str.lit "check_a") (Str.lit "A holds")
                       (Str.lit "A fails") ]
                renaming_execute true.

(** A bundle whose only check takes a hundred seconds and then passes;
    its time budget is the default thirty seconds. *)
Definition slow_execute (test_case : TestCase.t) (config : Dict.t pyval)
  : IO executed :=
  _ <- asyncio_sleep 100%float ;;
  ret (Returned (TestResult.mk (TestCase.name test_case)
                   (TestCase.description test_case) PASSED 100000
                   (TestCase.success_message test_case) None
                   (Str.lit "2024-01-01T00:01:40") None)).

Definition slow_suite : TestBundle.t :=
  TestBundle.mk (Str.lit "Slow Suite") (Str.lit "One slow check")
                (Str.lit "general") (Str.lit "test") TestBundle.default_version
                [] [ TestCase.make (Str.lit "Slow check") (Str.lit "slow")
                       (Str.lit "check_slow") (Str.lit "done")
                       (Str.lit "not done") ]
                slow_execute true.

(** The same bundle with a budget of one second for its check. *)
Definition hurried_suite : TestBundle.t :=
  TestBundle.mk (Str.lit "Slow Suite") (Str.lit "One slow check")
                (Str.lit "general") (Str.lit "test") TestBundle.default_version
                [] [ TestCase.mk (Str.lit "Slow check") (Str.lit "slow")
                       (Str.lit "check_slow") (Str.lit "done")
                       (Str.lit "not done") 1 ]
                slow_execute true.

(** A bundle whose name has sixty characters and whose description is
    sixty-seven spaces. *)
Definition long_name_suite : TestBundle.t :=
  TestBundle.mk (Str.rep 120%N 60) (Str.rep Str.space 67)
                (Str.lit "general") (Str.lit "test") TestBundle.default_version
                [] [] sample_execute true.

(** A bundle whose name is the two halves of a surrogate pair. *)
Definition paired_name_suite : TestBundle.t :=
  TestBundle.mk [55357; 56832]%N (Str.lit "Named by two halves")
                (Str.lit "general") (Str.lit "test") TestBundle.default_version
                [] sample_cases sample_execute true.

Definition registry : BundleRegistry.t :=
  BundleRegistry.register_bundle slow_suite
    (BundleRegistry.register_bundle renaming_suite
       (BundleRegistry.register_bundle sample_suite BundleRegistry.init)).

(** "Interrupted Suite": [Check A] passes; during [Check B] the executor
    raises [KeyboardInterrupt], which is no [Exception]. *)
Definition interrupted_execute (test_case : TestCase.t)
  (config : Dict.t pyval) : IO executed :=
  if Str.eqb (TestCase.name test_case) (Str.lit "Check A")
  then ret (Returned (TestResult.mk (TestCase.name test_case)
                        (TestCase.description test_case) PASSED 12
                        (TestCase.success_message test_case)
                        (Some (Str.lit "https://example.com/a"))
                        (Str.lit "2024-01-01T00:00:00") None))
  else ret (Escaping (Str.lit "KeyboardInterrupt") []).

Definition interrupted_suite : TestBundle.t :=
  TestBundle.mk (Str.lit "Interrupted Suite") (Str.lit "Two checks")
                (Str.lit "general") (Str.lit "test") TestBundle.default_version
                [] sample_cases interrupted_execute true.

(** "Exiting Suite": the executor of its only check calls [sys.exit(2)],
    which raises [SystemExit]. *)
Definition exiting_execute (test_case : TestCase.t) (config : Dict.t pyval)
  : IO executed :=
  ret (Escaping (Str.lit "SystemExit") (Str.lit "2")).

Definition exiting_suite : TestBundle.t :=
  TestBundle.mk (Str.lit "Exiting Suite") (Str.lit "One check")
                (Str.lit "general") (Str.lit "test") TestBundle.default_version
                [] [ TestCase.make (Str.lit "Check A") (Str.lit "first")
                       (Str.lit "check_a") (Str.lit "A holds")
                       (Str.lit "A fails") ]
                exiting_execute true.

(** "Timeout Suite": the executor of its only check raises
    [TimeoutError("timeout")], an [Exception]. *)
Definition timeout_execute (test_case : TestCase.t) (config : Dict.t pyval)
  : IO executed :=
  ret (Raised (Str.lit "timeout")).

Definition timeout_suite : TestBundle.t :=
  TestBundle.mk (Str.lit "Timeout Suite") (Str.lit "One check")
                (Str.lit "general") (Str.lit "test") TestBundle.default_version
                [] [ TestCase.make (Str.lit "Check A") (Str.lit "first")
                       (Str.lit "check_a") (Str.lit "A holds")
                       (Str.lit "A fails") ]
                timeout_execute true.

(** The results of a call of [execute_bundle] that returned. *)
Definition results_of (ran : outcome (list TestResult.t) * World)
  : list TestResult.t :=
  match fst ran with
  | Ok results => results
  | Raise _ => []
  end.

(** The registry with these plugins added. *)
Definition plugin_registry : BundleRegistry.t :=
  BundleRegistry.register_bundle timeout_suite
    (BundleRegistry.register_bundle exiting_suite
       (BundleRegistry.register_bundle interrupted_suite registry)).

End Sim.

(* ================================================================== *)
(** ** The vocabulary of the properties *)

Section Vocabulary.
Context `{Host}.

(** *** Runs *)

(** An executor names its results after the cases it is given. *)
Definition names_its_results (b : TestBundle.t) (config : Dict.t pyval)
  : Prop :=
  forall tc w r w1,
    In tc (TestBundle.get_test_cases b) ->
    TestBundle.execute_test b tc config w = (Returned r, w1) ->
    TestResult.name r = TestCase.name tc.

(** What the executor did is a return or an [Exception]: nothing that
    [except Exception] lets through. *)
Definition caught (ex : executed) : Prop :=
  match ex with
  | Returned _ | Raised _ => True
  | Escaping _ _ => False
  end.

(** On the cases listed, whatever the executor raises is an
    [Exception], in every world. *)
Definition contained (b : TestBundle.t) (config : Dict.t pyval)
  (cases : list TestCase.t) : Prop :=
  forall tc w, In tc cases ->
    caught (fst (TestBundle.execute_test b tc config w)).

(** The entry of the results list for a case whose executor raised the
    [Exception] with text [e], the result being made at the time [now]. *)
Definition failed_entry (tc : TestCase.t) (e now : pystr) : Dict.t pyval :=
  [ (Str.lit "name", VStr (TestCase.name tc));
    (Str.lit "description", VStr (TestCase.description tc));
    (Str.lit "status", VStr (Str.lit "failed"));
    (Str.lit "duration_ms", VInt 0);
    (Str.lit "details", VStr (TestCase.failure_message tc));
    (Str.lit "url", VNone);
    (Str.lit "timestamp", VStr now);
    (Str.lit "error_message", VStr e) ].

(** An entry of the results list with its eight keys. *)
Definition result_entry (item : pyval) : Prop :=
  exists d,
    item = VDict d
    /\ Dict.keys d
       = [ Str.lit "name"; Str.lit "description"; Str.lit "status";
           Str.lit "duration_ms"; Str.lit "details"; Str.lit "url";
           Str.lit "timestamp"; Str.lit "error_message" ].

(** A complete run outcome of a bundle, as a reader of the dictionary
    finds it: the five parts in order; the bundle's metadata with its
    name and the number of its cases; the configuration as it was passed;
    one entry of eight keys per case; the seven statistics, which count
    as many tests; the execution time, a float. *)
Definition complete_outcome (b : TestBundle.t) (config : Dict.t pyval)
  (out : Dict.t pyval) : Prop :=
  let n := Z.of_nat (length (TestBundle.get_test_cases b)) in
  Dict.keys out
  = [ Str.lit "bundle_info"; Str.lit "config"; Str.lit "results";
      Str.lit "statistics"; Str.lit "execution_time" ]
  /\ (exists info,
        Dyn.item out (Str.lit "bundle_info") = Ok (VDict info)
        /\ Dict.keys info
           = [ Str.lit "name"; Str.lit "description"; Str.lit "category";
               Str.lit "icon"; Str.lit "version"; Str.lit "test_count" ]
        /\ Dyn.item info (Str.lit "name") = Ok (VStr (TestBundle.name b))
        /\ Dyn.item info (Str.lit "test_count") = Ok (VInt n))
  /\ Dyn.item out (Str.lit "config") = Ok (VDict config)
  /\ (exists items,
        Dyn.item out (Str.lit "results") = Ok (VList items)
        /\ length items = length (TestBundle.get_test_cases b)
        /\ Forall result_entry items)
  /\ (exists stats,
        Dyn.item out (Str.lit "statistics") = Ok (VDict stats)
        /\ Dict.keys stats
           = [ Str.lit "total_tests"; Str.lit "passed"; Str.lit "failed";
               Str.lit "skipped"; Str.lit "pass_rate";
               Str.lit "total_duration_ms";
               Str.lit "execution_time_seconds" ]
        /\ Dyn.item stats (Str.lit "total_tests") = Ok (VInt n))
  /\ exists t, Dyn.item out (Str.lit "execution_time") = Ok (VFloat t).

(** The case with another time budget. *)
Definition with_timeout (seconds : Z) (tc : TestCase.t) : TestCase.t :=
  TestCase.mk (TestCase.name tc) (TestCase.description tc)
              (TestCase.test_function tc) (TestCase.success_message tc)
              (TestCase.failure_message tc) seconds.

(** The executor does not read the time budget of the case. *)
Definition ignores_timeout (b : TestBundle.t) (config : Dict.t pyval)
  : Prop :=
  forall tc seconds w,
    TestBundle.execute_test b (with_timeout seconds tc) config w
    = TestBundle.execute_test b tc config w.

(** A field the validation rejects. *)
Definition unmet (config : Dict.t pyval) (item : pystr * ConfigField.t) : bool :=
  ConfigField.required (snd item)
  && Value.falsy_opt (Dict.get (fst item) config).

(** The statuses the calculator counts. *)
Definition counted (r : TestResult.t) : bool :=
  match TestResult.status r with
  | PASSED | FAILED | SKIPPED => true
  | PENDING | RUNNING => false
  end.

(** *** Wrapped text *)

(** The characters of a text that are not white space. *)
Definition visible (text : pystr) : pystr :=
  filter (fun c => negb (Str.isspace c)) text.

(** [s.lstrip()] and [s.rstrip()] *)
Fixpoint lstrip (text : pystr) : pystr :=
  match text with
  | c :: rest => if Str.isspace c then lstrip rest else text
  | [] => []
  end.

Definition rstrip (text : pystr) : pystr := rev (lstrip (rev text)).

(** [s.strip()] *)
Definition strip (text : pystr) : pystr := lstrip (rstrip text).

(** The extent of a text on the page: its length once the tabs are
    expanded and the white space at its two ends is left out. *)
Definition extent (text : pystr) : nat :=
  length (strip (Textwrap._munge_whitespace text)).

(** What the lines of a wrapped text are: each fits the width, their
    characters are characters of the chunks, and the visible characters
    of the chunks are all there, in order. *)
Definition wrap_inv (width : nat) (P : pychar -> Prop) (all : pystr)
  (chunks lines : list pystr) : Prop :=
  Forall (fun line => length line <= width) lines
  /\ Forall P (concat lines) /\ Forall P (concat chunks)
  /\ visible all = visible (concat lines) ++ visible (concat chunks).

(** Where the text read so far lies while it has given no line or one:
    it is blank, or it is the line between blanks. *)
Definition wrap_placed (all : pystr) (chunks lines : list pystr) : Prop :=
  exists read,
    all = read ++ concat chunks
    /\ match lines with
       | [] => Str.is_blank read = true
       | [line] =>
           exists before after,
             read = before ++ line ++ after
             /\ Str.is_blank before = true /\ Str.is_blank after = true
       | _ => True
       end.

(** *** The canvas *)

Definition no_newline (s : pystr) : Prop := Forall (fun c => c <> 10%N) s.

(** A line of the canvas as it should be: 70 characters, no line break
    inside. *)
Definition canvas_line (line : pystr) : Prop :=
  Z.of_nat (length line) = ReportGenerator.width /\ no_newline line.

(** The word the canvas shows for a status. *)
Definition canvas_word (st : TestStatus) : pystr :=
  match st with
  | PASSED => Str.lit "PASS"
  | FAILED => Str.lit "FAIL"
  | _ => Str.lit "SKIP"
  end.

Definition canvas_heading (r : TestResult.t) : pystr :=
  canvas_word (TestResult.status r) ++ Str.lit " " ++ ReportGenerator.bullet
  ++ Str.lit " " ++ TestResult.name r.

(** A result the canvas can show: its url is set, and its heading fits
    between the two bars. *)
Definition showable (r : TestResult.t) : Prop :=
  TestResult.url r <> None
  /\ (Z.of_nat (length (TestResult.name r)) <= 59)%Z
  /\ no_newline (TestResult.name r).

(** *** The text report and the HTML summary *)

(** The marker of a status in the plain-text report and in the HTML
    summary. *)
Definition text_marker (st : TestStatus) : pystr :=
  match st with
  | PASSED => ReportGenerator.pass_mark ++ Str.lit " PASS"
  | _ => ReportGenerator.fail_mark ++ Str.lit " FAIL"
  end.


(** The lines of a result in the plain-text report, and its block in the
    HTML summary. *)
Definition text_block (r : TestResult.t) : list pystr :=
  [ ReportGenerator.nl ++ Str.lit "  " ++ text_marker (TestResult.status r)
    ++ Str.lit " - " ++ TestResult.name r;
    Str.lit "    " ++ TestResult.details r;
    Str.lit "    Duration: " ++ Str.of_Z (TestResult.duration_ms r)
    ++ Str.lit "ms" ].


(** *** The JSON report *)

(** A Unicode scalar value: a code point that is no surrogate.  Text
    that can be encoded in UTF-8 is made of these. *)
Definition scalar_char (c : pychar) : bool :=
  ((c <? 55296) || ((57344 <=? c) && (c <=? 1114111)))%N.

Definition scalar_text (text : pystr) : Prop :=
  forallb scalar_char text = true.

Definition optional_text (o : option pystr) : Prop :=
  match o with
  | Some text => scalar_text text
  | None => True
  end.

(** What may follow a value in the text the encoder writes: nothing, a
    comma, or a new line. *)
Definition ends_value (rest : pystr) : bool :=
  match rest with
  | [] => true
  | c :: _ => ((c =? 44) || (c =? 10))%N
  end.

(** The first character of a value in the text: no white space, no
    closing bracket, no byte order mark. *)
Definition starts_value (c : pychar) : bool :=
  negb (Json.is_ws c) && negb (c =? 93)%N && negb (c =? 65279)%N.

(** The value of a run of digits, as [int] reads it. *)
Definition digits_value (digits : pystr) : Z :=
  fold_left (fun acc c => (10 * acc + (Z.of_N c - 48))%Z) digits 0%Z.

(** A float the decoder reads back from what the encoder writes for
    it. *)
Definition float_ok (f : float) : Prop :=
  Json.scan_atom (Json.floatstr f) = Ok (VFloat f, []).

(** The values of the round trip: text of scalar values, floats that are
    read back, dictionaries without a repeated key. *)
Inductive clean : pyval -> Prop :=
| clean_none : clean VNone
| clean_bool b : clean (VBool b)
| clean_int z : clean (VInt z)
| clean_float f : float_ok f -> clean (VFloat f)
| clean_str text : scalar_text text -> clean (VStr text)
| clean_list items : Forall clean items -> clean (VList items)
| clean_dict d :
    NoDup (Dict.keys d) ->
    Forall (fun kv => scalar_text (fst kv) /\ clean (snd kv)) d ->
    clean (VDict d).

(** The text of the items of an array and of the members of an object,
    as [encode] joins them. *)
Definition elements_text (level : nat) (items : list pyval) : pystr :=
  Str.join (Str.lit "," ++ Json.newline_indent (S level))
           (map (Json.encode (S level)) items).

Definition members_text (level : nat) (d : Dict.t pyval) : pystr :=
  Str.join (Str.lit "," ++ Json.newline_indent (S level))
           (map (fun kv => Json.encode_basestring_ascii (fst kv)
                           ++ Str.lit ": " ++ Json.encode (S level) (snd kv))
                d).

(** The text a bundle brings into its outcome, and a result into its
    dictionary. *)
Definition bundle_text (b : TestBundle.t) : Prop :=
  Forall scalar_text
    [ TestBundle.name b; TestBundle.description b; TestBundle.category b;
      TestBundle.icon b; TestBundle.version b ].

Definition result_text (r : TestResult.t) : Prop :=
  Forall scalar_text
    [ TestResult.name r; TestResult.description r; TestResult.details r;
      TestResult.timestamp r ]
  /\ optional_text (TestResult.url r)
  /\ optional_text (TestResult.error_message r).

(** No key twice. *)
Fixpoint distinct (keys : list pystr) : bool :=
  match keys with
  | [] => true
  | k :: rest => negb (existsb (Str.eqb k) rest) && distinct rest
  end.

(** *** Registries, simulated checks, the demonstration *)

(** The registries a program can build: the one [BundleRegistry()]
    makes, and those obtained from it by registering bundles. *)
Inductive built : BundleRegistry.t -> Prop :=
| built_init : built BundleRegistry.init
| built_register b reg :
    built reg -> built (BundleRegistry.register_bundle b reg).

(** What a simulated check reports for a case: the case's name and
    description, passed with the success message or failed with the
    failure message, a link, no error. *)
Definition simulated_result (tc : TestCase.t) (r : TestResult.t) : Prop :=
  TestResult.name r = TestCase.name tc
  /\ TestResult.description r = TestCase.description tc
  /\ ((TestResult.status r = PASSED
       /\ TestResult.details r = TestCase.success_message tc)
      \/ (TestResult.status r = FAILED
          /\ TestResult.details r = TestCase.failure_message tc))
  /\ TestResult.url r <> None
  /\ TestResult.error_message r = None.

(** The three bundles of [_load_default_bundles]. *)
Definition default_bundles : list TestBundle.t :=
  [ EcommerceBundle.bundle; FormValidationBundle.bundle;
    APIHealthBundle.bundle ].

(** What awaiting a simulated check gives: a result of the simulated
    kind with the given link, or one of the two errors of [int]. *)
Definition simulated_check (tc : TestCase.t) (link : pystr) (ex : executed)
  : Prop :=
  match ex with
  | Returned r => simulated_result tc r /\ TestResult.url r = Some link
  | Raised e =>
      e = Str.lit "cannot convert float NaN to integer"
      \/ e = Str.lit "cannot convert float infinity to integer"
  | Escaping _ _ => False
  end.

(** A character of a JSON report: printable ASCII, or the new line of
    the indentation. *)
Definition json_char (c : pychar) : bool :=
  ((c =? 10) || ((32 <=? c) && (c <=? 126)))%N.

(** What the demonstration has printed when it starts the run. *)
Definition demo_preamble : pystr :=
  Demo.prints
    [ Demo.rocket
      ++ Str.lit " Test Automation Platform - Python Implementation"
      ++ ReportGenerator.nl;
      Demo.package ++ Str.lit " Available Test Bundles:";
      Demo.point " E-commerce Checkout Flow (7 tests)";
      Demo.point " Form Validation Suite (6 tests)";
      Demo.point " API Health Checks (6 tests)";
      [];
      Demo.trolley ++ Str.lit " Running E-commerce Checkout Flow Tests..." ]
    [].

End Vocabulary.

(** Induction on a value, with the items of a list and of a dictionary
    as smaller values. *)
Section PyvalInduction.
Variable P : pyval -> Prop.
Hypothesis Hnone : P VNone.
Hypothesis Hbool : forall b, P (VBool b).
Hypothesis Hint : forall z, P (VInt z).
Hypothesis Hfloat : forall f, P (VFloat f).
Hypothesis Hstr : forall s, P (VStr s).
Hypothesis Hlist : forall l, Forall P l -> P (VList l).
Hypothesis Hdict : forall d, Forall (fun kv => P (snd kv)) d -> P (VDict d).

(** Induction on a value, with the items of a list and of a dictionary
    as smaller values. *)
Fixpoint pyval_nested_ind (v : pyval) : P v :=
  match v with
  | VNone => Hnone
  | VBool b => Hbool b
  | VInt z => Hint z
  | VFloat f => Hfloat f
  | VStr s => Hstr s
  | VList l =>
      Hlist ((fix items (l : list pyval) : Forall P l :=
                match l with
                | [] => Forall_nil P
                | x :: rest => Forall_cons x (pyval_nested_ind x) (items rest)
                end) l)
  | VDict d =>
      Hdict ((fix items (d : list (pystr * pyval))
                : Forall (fun kv => P (snd kv)) d :=
                match d with
                | [] => Forall_nil _
                | kv :: rest =>
                    Forall_cons kv (pyval_nested_ind (snd kv)) (items rest)
                end) d)
  end.

End PyvalInduction.

(* ================================================================== *)
(** * Properties *)

(** ** Text and dictionaries *)

Lemma Str_eqb_spec (a b : pystr) : reflect (a = b) (Str.eqb a b).
Proof.
  revert b; induction a as [|x a IH]; intros [|y b]; simpl;
    try (constructor; congruence).
  destruct (N.eqb_spec x y) as [->|Hne]; simpl.
  - destruct (IH b) as [->|Hne]; constructor; congruence.
  - constructor; congruence.
Qed.

Lemma Str_eqb_refl (a : pystr) : Str.eqb a a = true.
Proof. destruct (Str_eqb_spec a a); congruence. Qed.

Lemma Str_eqb_neq (a b : pystr) : a <> b -> Str.eqb a b = false.
Proof. intros Hne; destruct (Str_eqb_spec a b); congruence. Qed.

Lemma length_rep (c : pychar) (n : nat) : length (Str.rep c n) = n.
Proof. apply repeat_length. Qed.

Section DictFacts.
Variable V : Type.
Implicit Types (d : Dict.t V) (k : pystr) (v : V).

Lemma Dict_get_set_same d k v : Dict.get k (Dict.set k v d) = Some v.
Proof.
  induction d as [|[k' v'] d IH]; simpl.
  - now rewrite Str_eqb_refl.
  - destruct (Str_eqb_spec k k') as [->|Hne]; simpl.
    + now rewrite Str_eqb_refl.
    + now rewrite (Str_eqb_neq Hne).
Qed.

Lemma Dict_get_set_other d k k' v :
  k' <> k -> Dict.get k' (Dict.set k v d) = Dict.get k' d.
Proof.
  intros Hne; induction d as [|[k0 v0] d IH]; simpl.
  - now rewrite (Str_eqb_neq Hne).
  - destruct (Str_eqb_spec k k0) as [->|Hk]; simpl.
    + now rewrite (Str_eqb_neq Hne).
    + now rewrite IH.
Qed.

(** Storing under a key that is present replaces in place: the number of
    entries and the order of the keys stay. *)
Lemma Dict_set_present_keys d k v v0 :
  Dict.get k d = Some v0 -> Dict.keys (Dict.set k v d) = Dict.keys d.
Proof.
  induction d as [|[k' v'] d IH]; simpl; [discriminate|].
  destruct (Str_eqb_spec k k') as [->|Hne]; simpl; intros Hg.
  - reflexivity.
  - now rewrite (IH Hg).
Qed.

Lemma Dict_set_absent d k v :
  Dict.get k d = None -> Dict.set k v d = d ++ [(k, v)].
Proof.
  induction d as [|[k' v'] d IH]; simpl; [reflexivity|].
  destruct (Str_eqb_spec k k') as [->|Hne]; [discriminate|].
  intros Hg; now rewrite (IH Hg).
Qed.

End DictFacts.

(* ================================================================== *)
(** ** The registry *)

Section RegistryFacts.
Context `{Host}.
Implicit Types (reg : BundleRegistry.t) (b : TestBundle.t).

(** On an ASCII name the id is computed character by character. *)
Lemma bundle_id_of_ascii (n : pystr) :
  forallb Str.is_ascii n = true ->
  BundleRegistry.bundle_id_of n
  = map (fun c => if (c =? 32)%N then 95%N else Str.ascii_lower c) n.
Proof.
  intros Hascii. unfold BundleRegistry.bundle_id_of, Py.lower.
  rewrite Hascii. unfold Str.replace_char. rewrite map_map.
  apply map_ext; intros c. unfold Str.ascii_lower.
  destruct (N.eqb_spec c 32) as [->|Hc]; [reflexivity|].
  destruct ((65 <=? c) && (c <=? 90))%N eqn:Hup.
  - apply andb_true_iff in Hup as [H1 H2].
    apply N.leb_le in H1. destruct (N.eqb_spec (c + 32) 32); [lia|reflexivity].
  - destruct (N.eqb_spec c 32); [contradiction|reflexivity].
Qed.

(** No id contains a space. *)
Lemma bundle_id_of_no_space (n : pystr) :
  forallb (fun c => negb (c =? 32)%N) (BundleRegistry.bundle_id_of n) = true.
Proof.
  unfold BundleRegistry.bundle_id_of, Str.replace_char.
  apply forallb_forall; intros c Hin. apply in_map_iff in Hin as [c0 [<- _]].
  destruct (N.eqb_spec c0 32); reflexivity || (apply negb_true_iff; now apply N.eqb_neq).
Qed.

Lemma get_register_same reg b :
  BundleRegistry.get_bundle (BundleRegistry.register_bundle b reg)
                            (BundleRegistry.bundle_id_of (TestBundle.name b))
  = Some b.
Proof. apply Dict_get_set_same. Qed.

Lemma get_register_other reg b (other : pystr) :
  other <> BundleRegistry.bundle_id_of (TestBundle.name b) ->
  BundleRegistry.get_bundle (BundleRegistry.register_bundle b reg) other
  = BundleRegistry.get_bundle reg other.
Proof. intros Hne. now apply Dict_get_set_other. Qed.

(** C8.  [register_bundle] stores a bundle under the id obtained from its
    name by lower-casing and replacing every space with an underscore.
    A bundle registered earlier under the same id is overwritten without
    any error: looking the id up returns the later bundle, the list of
    ids is the same as before the second registration, and the other
    ids keep their bundles. *)
Theorem register_bundle_overwrites reg (earlier later : TestBundle.t) :
  let id := BundleRegistry.bundle_id_of (TestBundle.name later) in
  id = Str.replace_char 32%N 95%N (Py.lower (TestBundle.name later))
  /\ BundleRegistry.get_bundle (BundleRegistry.register_bundle later reg) id
     = Some later
  /\ (BundleRegistry.bundle_id_of (TestBundle.name earlier) = id ->
      let reg1 := BundleRegistry.register_bundle earlier reg in
      let reg2 := BundleRegistry.register_bundle later reg1 in
      BundleRegistry.get_bundle reg1 id = Some earlier
      /\ BundleRegistry.get_bundle reg2 id = Some later
      /\ BundleRegistry.get_bundle_ids reg2 = BundleRegistry.get_bundle_ids reg1)
  /\ (forall other, other <> id ->
      BundleRegistry.get_bundle (BundleRegistry.register_bundle later reg) other
      = BundleRegistry.get_bundle reg other).
Proof.
  intros id. split; [reflexivity|]. split; [apply get_register_same|].
  split.
  - intros Hsame reg1 reg2.
    assert (Hfirst : BundleRegistry.get_bundle reg1 id = Some earlier).
    { subst reg1. rewrite <- Hsame. apply get_register_same. }
    split; [exact Hfirst|]. split; [apply get_register_same|].
    unfold reg2, BundleRegistry.register_bundle, BundleRegistry.get_bundle_ids.
    fold id. now apply Dict_set_present_keys with (v0 := earlier).
  - intros other Hne. now apply get_register_other.
Qed.

End RegistryFacts.

(* ================================================================== *)
(** ** Orchestration: [execute_bundle] and [run_bundle] *)

Section RunnerFacts.
Context `{Host}.
Implicit Types (b : TestBundle.t) (config : Dict.t pyval) (w : World).

(** The outcome of a turn of the loop, from what the executor did. *)
Lemma execute_guarded_returned b tc config w r w1 :
  TestBundle.execute_test b tc config w = (Returned r, w1) ->
  TestBundle.execute_guarded b tc config w = (Ok r, w1).
Proof.
  intros Hex. unfold TestBundle.execute_guarded, bind. now rewrite Hex.
Qed.

Lemma execute_guarded_raised b tc config w e w1 :
  TestBundle.execute_test b tc config w = (Raised e, w1) ->
  TestBundle.execute_guarded b tc config w
  = (Ok (TestResult.mk (TestCase.name tc) (TestCase.description tc) FAILED 0
                       (TestCase.failure_message tc) None
                       (fst (datetime_now_isoformat w1)) (Some e)),
     snd (datetime_now_isoformat w1)).
Proof.
  intros Hex. unfold TestBundle.execute_guarded, TestBundle.error_result, bind.
  rewrite Hex. now destruct (datetime_now_isoformat w1).
Qed.

Lemma execute_guarded_escaping b tc config w cls text w1 :
  TestBundle.execute_test b tc config w = (Escaping cls text, w1) ->
  TestBundle.execute_guarded b tc config w
  = (Raise (BaseException cls text), w1).
Proof.
  intros Hex. unfold TestBundle.execute_guarded, bind. now rewrite Hex.
Qed.

(** A turn raises only what escaped from the executor. *)
Lemma execute_guarded_raise b tc config w x w1 :
  TestBundle.execute_guarded b tc config w = (Raise x, w1) ->
  exists cls text,
    TestBundle.execute_test b tc config w = (Escaping cls text, w1)
    /\ x = BaseException cls text.
Proof.
  destruct (TestBundle.execute_test b tc config w) as [[r|e|cls text] w0] eqn:Hex.
  - rewrite (execute_guarded_returned _ _ _ _ Hex). discriminate.
  - rewrite (execute_guarded_raised _ _ _ _ Hex). discriminate.
  - rewrite (execute_guarded_escaping _ _ _ _ Hex). intros Heq.
    inversion Heq; subst. now exists cls, text.
Qed.

Lemma execute_guarded_caught b tc config w :
  caught (fst (TestBundle.execute_test b tc config w)) ->
  exists r w1, TestBundle.execute_guarded b tc config w = (Ok r, w1).
Proof.
  destruct (TestBundle.execute_test b tc config w) as [[r|e|cls text] w0] eqn:Hex;
    simpl; intros Hcaught.
  - rewrite (execute_guarded_returned _ _ _ _ Hex). now do 2 eexists.
  - rewrite (execute_guarded_raised _ _ _ _ Hex). now do 2 eexists.
  - destruct Hcaught.
Qed.

(** The accumulator of the loop only grows at its end. *)
Lemma execute_loop_acc b config cases : forall acc w,
  TestBundle.execute_loop b config cases acc w
  = match TestBundle.execute_loop b config cases [] w with
    | (Ok rs, w') => (Ok (acc ++ rs), w')
    | (Raise x, w') => (Raise x, w')
    end.
Proof.
  induction cases as [|tc rest IH]; intros acc w; simpl.
  - unfold ret. now rewrite app_nil_r.
  - unfold bind.
    destruct (TestBundle.execute_guarded b tc config w) as [[r|x] w1];
      [|reflexivity].
    rewrite (IH (acc ++ [r])), (IH ([] ++ [r])).
    destruct (TestBundle.execute_loop b config rest [] w1) as [[rs|x] w2];
      [|reflexivity].
    simpl. now rewrite <- app_assoc.
Qed.

Lemma execute_loop_cons b config tc rest w :
  TestBundle.execute_loop b config (tc :: rest) [] w
  = match TestBundle.execute_guarded b tc config w with
    | (Ok r, w1) =>
        match TestBundle.execute_loop b config rest [] w1 with
        | (Ok rs, w2) => (Ok (r :: rs), w2)
        | (Raise x, w2) => (Raise x, w2)
        end
    | (Raise x, w1) => (Raise x, w1)
    end.
Proof.
  simpl. unfold bind.
  destruct (TestBundle.execute_guarded b tc config w) as [[r|x] w1];
    [|reflexivity].
  now rewrite execute_loop_acc.
Qed.

(** Running a list of cases is running a first part, then the rest from
    the world the first part leaves, unless the first part raised. *)
Lemma execute_loop_app b config pre : forall post w,
  TestBundle.execute_loop b config (pre ++ post) [] w
  = match TestBundle.execute_loop b config pre [] w with
    | (Ok rs1, w1) =>
        match TestBundle.execute_loop b config post [] w1 with
        | (Ok rs2, w2) => (Ok (rs1 ++ rs2), w2)
        | (Raise x, w2) => (Raise x, w2)
        end
    | (Raise x, w1) => (Raise x, w1)
    end.
Proof.
  induction pre as [|tc pre IH]; intros post w.
  - simpl. now destruct (TestBundle.execute_loop b config post [] w) as [[rs|x] w2].
  - rewrite <- app_comm_cons, !execute_loop_cons.
    destruct (TestBundle.execute_guarded b tc config w) as [[r|x] w1];
      [|reflexivity].
    rewrite IH.
    destruct (TestBundle.execute_loop b config pre [] w1) as [[rs1|x] w2];
      [|reflexivity].
    now destruct (TestBundle.execute_loop b config post [] w2) as [[rs2|x] w3].
Qed.

(** One result per case, when the loop returns. *)
Lemma execute_loop_length b config cases : forall w rs w',
  TestBundle.execute_loop b config cases [] w = (Ok rs, w') ->
  length rs = length cases.
Proof.
  induction cases as [|tc rest IH]; intros w rs w'.
  - simpl. unfold ret. intros Heq. now inversion Heq.
  - rewrite execute_loop_cons.
    destruct (TestBundle.execute_guarded b tc config w) as [[r|x] w1];
      [|discriminate].
    destruct (TestBundle.execute_loop b config rest [] w1) as [[rs1|x] w2] eqn:Hrest;
      [|discriminate].
    intros Heq. inversion Heq; subst. simpl. f_equal. now apply IH with w1 w'.
Qed.

(** The result at the position of a case is the one its turn produced,
    in the world the earlier cases left. *)
Lemma execute_loop_at b config pre tc post w rs w' :
  TestBundle.execute_loop b config (pre ++ tc :: post) [] w = (Ok rs, w') ->
  exists rs1 w1 r w2 rs2,
    TestBundle.execute_loop b config pre [] w = (Ok rs1, w1)
    /\ TestBundle.execute_guarded b tc config w1 = (Ok r, w2)
    /\ TestBundle.execute_loop b config post [] w2 = (Ok rs2, w')
    /\ rs = rs1 ++ r :: rs2
    /\ nth_error rs (length pre) = Some r.
Proof.
  rewrite execute_loop_app.
  destruct (TestBundle.execute_loop b config pre [] w) as [[rs1|x] w1] eqn:Hpre;
    [|discriminate].
  rewrite execute_loop_cons.
  destruct (TestBundle.execute_guarded b tc config w1) as [[r|x] w2] eqn:Hturn;
    [|discriminate].
  destruct (TestBundle.execute_loop b config post [] w2) as [[rs2|x] w3] eqn:Hpost;
    [|discriminate].
  intros Heq. inversion Heq; subst.
  exists rs1, w1, r, w2, rs2. repeat split; trivial.
  rewrite nth_error_app2 by (rewrite (execute_loop_length _ _ _ _ Hpre); lia).
  now rewrite (execute_loop_length _ _ _ _ Hpre), Nat.sub_diag.
Qed.

(** The loop returns when the executor lets nothing escape. *)
Lemma execute_loop_contained b config cases : forall w,
  contained b config cases ->
  exists rs w', TestBundle.execute_loop b config cases [] w = (Ok rs, w').
Proof.
  induction cases as [|tc rest IH]; intros w Hall.
  - now exists [], w.
  - rewrite execute_loop_cons.
    destruct (@execute_guarded_caught b tc config w) as (r & w1 & ->).
    { apply Hall. now left. }
    destruct (IH w1) as (rs & w' & ->).
    { intros tc' w0 Hin. apply Hall. now right. }
    now do 2 eexists.
Qed.

(** What the loop raises escaped from the executor of one case, after
    the cases before it were dealt with. *)
Lemma execute_loop_raise b config cases : forall w x w',
  TestBundle.execute_loop b config cases [] w = (Raise x, w') ->
  exists pre tc post rs w1 cls text,
    cases = pre ++ tc :: post
    /\ TestBundle.execute_loop b config pre [] w = (Ok rs, w1)
    /\ TestBundle.execute_test b tc config w1 = (Escaping cls text, w')
    /\ x = BaseException cls text.
Proof.
  induction cases as [|tc rest IH]; intros w x w'; [discriminate|].
  rewrite execute_loop_cons.
  destruct (TestBundle.execute_guarded b tc config w) as [[r|y] w1] eqn:Hturn.
  - destruct (TestBundle.execute_loop b config rest [] w1) as [[rs|y] w2] eqn:Hrest;
      [discriminate|].
    intros Heq. inversion Heq; subst.
    destruct (IH _ _ _ Hrest)
      as (pre & tc' & post & rs & w0 & cls & text & -> & Hpre & Hex & ->).
    exists (tc :: pre), tc', post, (r :: rs), w0, cls, text.
    repeat split; trivial.
    rewrite execute_loop_cons, Hturn. now rewrite Hpre.
  - intros Heq. inversion Heq; subst.
    destruct (execute_guarded_raise _ _ _ _ Hturn) as (cls & text & Hex & ->).
    exists [], tc, rest, [], w, cls, text. now repeat split.
Qed.

Lemma execute_loop_escaping b config pre tc post w rs w1 cls text w2 :
  TestBundle.execute_loop b config pre [] w = (Ok rs, w1) ->
  TestBundle.execute_test b tc config w1 = (Escaping cls text, w2) ->
  TestBundle.execute_loop b config (pre ++ tc :: post) [] w
  = (Raise (BaseException cls text), w2).
Proof.
  intros Hpre Hex. rewrite execute_loop_app, Hpre, execute_loop_cons.
  now rewrite (execute_guarded_escaping _ _ _ _ Hex).
Qed.

Lemma execute_guarded_name b tc config w r w1 :
  (forall r0 w0, TestBundle.execute_test b tc config w = (Returned r0, w0) ->
                 TestResult.name r0 = TestCase.name tc) ->
  TestBundle.execute_guarded b tc config w = (Ok r, w1) ->
  TestResult.name r = TestCase.name tc.
Proof.
  intros Hname.
  destruct (TestBundle.execute_test b tc config w) as [[r0|e|cls text] w0] eqn:Hex.
  - rewrite (execute_guarded_returned _ _ _ _ Hex). intros Heq.
    inversion Heq; subst. now apply Hname with w1.
  - rewrite (execute_guarded_raised _ _ _ _ Hex). intros Heq.
    now inversion Heq.
  - rewrite (execute_guarded_escaping _ _ _ _ Hex). discriminate.
Qed.

Lemma execute_loop_names b config cases : forall w rs w',
  (forall tc w0 r w1, In tc cases ->
     TestBundle.execute_test b tc config w0 = (Returned r, w1) ->
     TestResult.name r = TestCase.name tc) ->
  TestBundle.execute_loop b config cases [] w = (Ok rs, w') ->
  map TestResult.name rs = map TestCase.name cases.
Proof.
  induction cases as [|tc rest IH]; intros w rs w' Hname.
  - simpl. unfold ret. intros Heq. now inversion Heq.
  - rewrite execute_loop_cons.
    destruct (TestBundle.execute_guarded b tc config w) as [[r|x] w1] eqn:Hturn;
      [|discriminate].
    destruct (TestBundle.execute_loop b config rest [] w1) as [[rs1|x] w2] eqn:Hrest;
      [|discriminate].
    intros Heq. inversion Heq; subst. simpl. f_equal.
    + eapply execute_guarded_name; [|exact Hturn].
      intros r0 w0. apply Hname. now left.
    + apply IH with w1 w'; trivial.
      intros tc' w0 r' w1' Hin. apply Hname. now right.
Qed.

(** *** Validation *)


Lemma validate_items_ok items config :
  forallb (fun item => negb (unmet config item)) items = true ->
  TestBundle.validate_items items config = (true, None).
Proof.
  induction items as [|[n f] items IH]; simpl; [reflexivity|].
  intros Hall. apply andb_true_iff in Hall as [Hhead Htail].
  unfold unmet in Hhead. simpl in Hhead. apply negb_true_iff in Hhead.
  rewrite Hhead. now apply IH.
Qed.

Lemma validate_items_first pre n f post config :
  forallb (fun item => negb (unmet config item)) pre = true ->
  unmet config (n, f) = true ->
  TestBundle.validate_items (pre ++ (n, f) :: post) config
  = (false, Some (TestBundle.required_missing (ConfigField.label f))).
Proof.
  induction pre as [|[n0 f0] pre IH]; simpl; intros Hpre Hbad.
  - unfold unmet in Hbad. simpl in Hbad. now rewrite Hbad.
  - apply andb_true_iff in Hpre as [Hhead Htail].
    unfold unmet in Hhead. simpl in Hhead. apply negb_true_iff in Hhead.
    rewrite Hhead. now apply IH.
Qed.

(** Either every field is met, or the items split at the first one that
    is not. *)
Lemma first_unmet items config :
  forallb (fun item => negb (unmet config item)) items = true
  \/ exists pre n f post,
       items = pre ++ (n, f) :: post
       /\ forallb (fun item => negb (unmet config item)) pre = true
       /\ unmet config (n, f) = true.
Proof.
  induction items as [|[n f] items IH]; [now left|].
  destruct (unmet config (n, f)) eqn:Hhead.
  - right. exists [], n, f, items. now repeat split.
  - destruct IH as [Hall | (pre & n' & f' & post & -> & Hpre & Hbad)].
    + left. simpl. now rewrite Hhead.
    + right. exists ((n, f) :: pre), n', f', post. repeat split; trivial.
      simpl. now rewrite Hhead.
Qed.

(** *** The run *)

(** A run of a resolved bundle with a valid configuration: two readings
    of the clock around [execute_bundle], or the exception that left
    [execute_bundle]. *)
Lemma run_bundle_valid reg id b config w :
  BundleRegistry.get_bundle reg id = Some b ->
  TestBundle.truth b = true ->
  fst (TestBundle.validate_config b config) = true ->
  TestRunner.run_bundle reg id config w
  = match TestBundle.execute_bundle b config (snd (time_time w)) with
    | (Ok results, w1) =>
        (Ok (TestRunner.run_outcome b config results
               (PrimFloat.sub (fst (time_time w1)) (fst (time_time w)))),
         snd (time_time w1))
    | (Raise x, w1) => (Raise x, w1)
    end.
Proof.
  intros Hget Htruth Hvalid. unfold TestRunner.run_bundle.
  rewrite Hget, Htruth.
  destruct (TestBundle.validate_config b config) as [ok msg].
  simpl in Hvalid. subst ok. simpl. unfold bind, ret.
  destruct (time_time w) as [t0 w0]. simpl.
  destruct (TestBundle.execute_bundle b config w0) as [[rs|x] w1];
    [|reflexivity].
  now destruct (time_time w1).
Qed.

Lemma run_bundle_unknown reg id config w :
  BundleRegistry.get_bundle reg id = None ->
  TestRunner.run_bundle reg id config w
  = (Raise (ValueError (TestRunner.bundle_not_found id)), w).
Proof. intros Hget. unfold TestRunner.run_bundle. now rewrite Hget. Qed.

Lemma run_bundle_false reg id b config w :
  BundleRegistry.get_bundle reg id = Some b ->
  TestBundle.truth b = false ->
  TestRunner.run_bundle reg id config w
  = (Raise (ValueError (TestRunner.bundle_not_found id)), w).
Proof.
  intros Hget Htruth. unfold TestRunner.run_bundle. now rewrite Hget, Htruth.
Qed.

Lemma run_bundle_invalid reg id b config w msg :
  BundleRegistry.get_bundle reg id = Some b ->
  TestBundle.truth b = true ->
  TestBundle.validate_config b config = (false, msg) ->
  TestRunner.run_bundle reg id config w
  = (Raise (ValueError (TestRunner.invalid_configuration msg)), w).
Proof.
  intros Hget Htruth Hval. unfold TestRunner.run_bundle.
  now rewrite Hget, Htruth, Hval.
Qed.

(** A run that returns went through [execute_bundle], which returned. *)
Lemma run_bundle_returned reg id b config w out w' :
  BundleRegistry.get_bundle reg id = Some b ->
  TestBundle.truth b = true ->
  fst (TestBundle.validate_config b config) = true ->
  TestRunner.run_bundle reg id config w = (Ok out, w') ->
  exists results w1,
    TestBundle.execute_bundle b config (snd (time_time w)) = (Ok results, w1)
    /\ out = TestRunner.run_outcome b config results
               (PrimFloat.sub (fst (time_time w1)) (fst (time_time w)))
    /\ w' = snd (time_time w1).
Proof.
  intros Hget Htruth Hvalid. rewrite (run_bundle_valid _ _ _ _ Hget Htruth Hvalid).
  destruct (TestBundle.execute_bundle b config (snd (time_time w)))
    as [[rs|x] w1]; [|discriminate].
  intros Heq. inversion Heq; subst. now exists rs, w1.
Qed.

(** A run that raises from there on raises what left [execute_bundle]. *)
Lemma run_bundle_raised reg id b config w x w' :
  BundleRegistry.get_bundle reg id = Some b ->
  TestBundle.truth b = true ->
  fst (TestBundle.validate_config b config) = true ->
  TestRunner.run_bundle reg id config w = (Raise x, w') ->
  TestBundle.execute_bundle b config (snd (time_time w)) = (Raise x, w').
Proof.
  intros Hget Htruth Hvalid. rewrite (run_bundle_valid _ _ _ _ Hget Htruth Hvalid).
  destruct (TestBundle.execute_bundle b config (snd (time_time w)))
    as [[rs|x0] w1]; [discriminate|].
  intros Heq. now inversion Heq.
Qed.

(** The run returns when the executor lets nothing escape. *)
Lemma run_bundle_contained reg id b config w :
  BundleRegistry.get_bundle reg id = Some b ->
  TestBundle.truth b = true ->
  fst (TestBundle.validate_config b config) = true ->
  contained b config (TestBundle.get_test_cases b) ->
  exists out w', TestRunner.run_bundle reg id config w = (Ok out, w').
Proof.
  intros Hget Htruth Hvalid Hall.
  rewrite (run_bundle_valid _ _ _ _ Hget Htruth Hvalid).
  unfold TestBundle.execute_bundle.
  destruct (execute_loop_contained (snd (time_time w)) Hall) as (rs & w1 & ->).
  now do 2 eexists.
Qed.

End RunnerFacts.

Section RunTheorems.
Context `{Host}.
Implicit Types (b : TestBundle.t) (config : Dict.t pyval) (w : World).

(** *** Reading the outcome *)

Lemma run_outcome_results b config results t :
  Dyn.item (TestRunner.run_outcome b config results t) (Str.lit "results")
  = Ok (VList (map (fun r => VDict (TestResult.to_dict r)) results)).
Proof. reflexivity. Qed.

(** The names stored in the outcome are the names of the results. *)
Lemma result_fields_name b config results t :
  Outcome.result_fields (TestRunner.run_outcome b config results t)
                        (Str.lit "name")
  = Ok (map (fun r => VStr (TestResult.name r)) results).
Proof.
  unfold Outcome.result_fields, TestRunner.run_outcome. cbn.
  induction results as [|r rs IH]; [reflexivity|]. cbn in *.
  now rewrite IH.
Qed.

(** With one result per case, the dictionary [run_bundle] builds is a
    complete outcome. *)
Lemma run_outcome_complete b config results t :
  length results = length (TestBundle.get_test_cases b) ->
  complete_outcome b config (TestRunner.run_outcome b config results t).
Proof.
  intros Hlen. unfold complete_outcome. cbv zeta.
  split; [reflexivity|]. split.
  { exists (TestBundle.get_bundle_info b). now repeat split. }
  split; [reflexivity|]. split.
  { exists (map (fun r => VDict (TestResult.to_dict r)) results).
    split; [reflexivity|]. split; [now rewrite length_map|].
    apply Forall_forall. intros item Hin. apply in_map_iff in Hin as (r & <- & _).
    now exists (TestResult.to_dict r). }
  split.
  { exists (TestRunner._calculate_statistics results t).
    split; [reflexivity|]. split; [reflexivity|].
    rewrite <- Hlen. reflexivity. }
  now exists t.
Qed.

(** C3, amended.  [run_bundle] raises exactly when the id is unknown or
    resolves to an object that is false, when a required field of the
    schema is missing or false in the configuration, or when the
    executor of a case raises an exception that is no [Exception].  The
    first errors are raised with the world untouched, so before any
    executor ran, and no outcome is produced; the message for an invalid
    configuration names the label of the first such field in schema
    order.  An exception that is no [Exception] leaves the run as the
    executor raised it, once the cases before it have run.  With a
    resolved bundle and a valid configuration the run returns whenever
    the executor lets no such exception escape, and what it returns is a
    complete outcome: five parts, the metadata and configuration of the
    run, one entry per declared case, the statistics counting as many. *)
Theorem run_bundle_raises_iff (reg : BundleRegistry.t) (id : pystr) config w :
  (BundleRegistry.get_bundle reg id = None
   \/ (exists b, BundleRegistry.get_bundle reg id = Some b
                 /\ TestBundle.truth b = false) ->
   TestRunner.run_bundle reg id config w
   = (Raise (ValueError (Str.lit "Bundle '" ++ id ++ Str.lit "' not found")),
      w))
  /\ (forall b pre n f post,
        BundleRegistry.get_bundle reg id = Some b ->
        TestBundle.truth b = true ->
        TestBundle.get_config_schema b = pre ++ (n, f) :: post ->
        forallb (fun item => negb (unmet config item)) pre = true ->
        unmet config (n, f) = true ->
        TestRunner.run_bundle reg id config w
        = (Raise (ValueError
                    (Str.lit "Invalid configuration: "
                     ++ (Str.lit "Required field '" ++ ConfigField.label f
                         ++ Str.lit "' is missing"))),
           w))
  /\ (forall b,
        BundleRegistry.get_bundle reg id = Some b ->
        TestBundle.truth b = true ->
        forallb (fun item => negb (unmet config item))
                (TestBundle.get_config_schema b) = true ->
        (contained b config (TestBundle.get_test_cases b) ->
         exists out w', TestRunner.run_bundle reg id config w = (Ok out, w'))
        /\ (forall out w',
              TestRunner.run_bundle reg id config w = (Ok out, w') ->
              complete_outcome b config out)
        /\ (forall x w',
              TestRunner.run_bundle reg id config w = (Raise x, w') ->
              exists pre tc post rs w1 cls text,
                TestBundle.get_test_cases b = pre ++ tc :: post
                /\ TestBundle.execute_loop b config pre [] (snd (time_time w))
                   = (Ok rs, w1)
                /\ TestBundle.execute_test b tc config w1
                   = (Escaping cls text, w')
                /\ x = BaseException cls text)
        /\ (forall pre tc post rs w1 cls text w2,
              TestBundle.get_test_cases b = pre ++ tc :: post ->
              TestBundle.execute_loop b config pre [] (snd (time_time w))
              = (Ok rs, w1) ->
              TestBundle.execute_test b tc config w1
              = (Escaping cls text, w2) ->
              TestRunner.run_bundle reg id config w
              = (Raise (BaseException cls text), w2)))
  /\ ((exists x, fst (TestRunner.run_bundle reg id config w) = Raise x)
      <-> (BundleRegistry.get_bundle reg id = None
           \/ (exists b, BundleRegistry.get_bundle reg id = Some b
                         /\ TestBundle.truth b = false)
           \/ (exists b n f,
                 BundleRegistry.get_bundle reg id = Some b
                 /\ In (n, f) (TestBundle.get_config_schema b)
                 /\ ConfigField.required f = true
                 /\ Value.falsy_opt (Dict.get n config) = true)
           \/ (exists b pre tc post rs w1 cls text w2,
                 BundleRegistry.get_bundle reg id = Some b
                 /\ TestBundle.get_test_cases b = pre ++ tc :: post
                 /\ TestBundle.execute_loop b config pre []
                      (snd (time_time w)) = (Ok rs, w1)
                 /\ TestBundle.execute_test b tc config w1
                    = (Escaping cls text, w2)))).
Proof.
  assert (Hfalse :
    BundleRegistry.get_bundle reg id = None
    \/ (exists b, BundleRegistry.get_bundle reg id = Some b
                  /\ TestBundle.truth b = false) ->
    TestRunner.run_bundle reg id config w
    = (Raise (ValueError (Str.lit "Bundle '" ++ id ++ Str.lit "' not found")),
       w)).
  { intros [Hnone | (b & Hget & Htruth)].
    - now apply run_bundle_unknown.
    - now apply run_bundle_false with b. }
  assert (Hinvalid : forall b pre n f post,
    BundleRegistry.get_bundle reg id = Some b ->
    TestBundle.truth b = true ->
    TestBundle.get_config_schema b = pre ++ (n, f) :: post ->
    forallb (fun item => negb (unmet config item)) pre = true ->
    unmet config (n, f) = true ->
    TestRunner.run_bundle reg id config w
    = (Raise (ValueError
                (Str.lit "Invalid configuration: "
                 ++ (Str.lit "Required field '" ++ ConfigField.label f
                     ++ Str.lit "' is missing"))), w)).
  { intros b pre n f post Hget Htruth Hschema Hpre Hbad.
    rewrite run_bundle_invalid
      with (b := b)
           (msg := Some (TestBundle.required_missing (ConfigField.label f)));
      [reflexivity|exact Hget|exact Htruth|].
    unfold TestBundle.validate_config. rewrite Hschema.
    now apply validate_items_first. }
  assert (Hmet : forall b,
    forallb (fun item => negb (unmet config item))
            (TestBundle.get_config_schema b) = true ->
    fst (TestBundle.validate_config b config) = true).
  { intros b Hall. unfold TestBundle.validate_config.
    now rewrite validate_items_ok. }
  assert (Hraised : forall b x w',
    BundleRegistry.get_bundle reg id = Some b ->
    TestBundle.truth b = true ->
    forallb (fun item => negb (unmet config item))
            (TestBundle.get_config_schema b) = true ->
    TestRunner.run_bundle reg id config w = (Raise x, w') ->
    exists pre tc post rs w1 cls text,
      TestBundle.get_test_cases b = pre ++ tc :: post
      /\ TestBundle.execute_loop b config pre [] (snd (time_time w))
         = (Ok rs, w1)
      /\ TestBundle.execute_test b tc config w1 = (Escaping cls text, w')
      /\ x = BaseException cls text).
  { intros b x w' Hget Htruth Hall Hrun.
    apply (run_bundle_raised _ _ _ _ Hget Htruth (Hmet b Hall)) in Hrun.
    now apply execute_loop_raise. }
  assert (Hescapes : forall b pre tc post rs w1 cls text w2,
    BundleRegistry.get_bundle reg id = Some b ->
    TestBundle.truth b = true ->
    forallb (fun item => negb (unmet config item))
            (TestBundle.get_config_schema b) = true ->
    TestBundle.get_test_cases b = pre ++ tc :: post ->
    TestBundle.execute_loop b config pre [] (snd (time_time w)) = (Ok rs, w1) ->
    TestBundle.execute_test b tc config w1 = (Escaping cls text, w2) ->
    TestRunner.run_bundle reg id config w
    = (Raise (BaseException cls text), w2)).
  { intros b pre tc post rs w1 cls text w2 Hget Htruth Hall Hcases Hpre Hex.
    rewrite (run_bundle_valid _ _ _ _ Hget Htruth (Hmet b Hall)).
    unfold TestBundle.execute_bundle. rewrite Hcases.
    erewrite execute_loop_escaping; [reflexivity|exact Hpre|exact Hex]. }
  split; [exact Hfalse|]. split; [exact Hinvalid|]. split.
  { intros b Hget Htruth Hall. split; [|split; [|split]].
    - intros Hnone. eapply run_bundle_contained; eauto.
    - intros out w' Hrun.
      destruct (run_bundle_returned _ _ _ _ Hget Htruth (Hmet b Hall) Hrun)
        as (results & w1 & Hex & -> & _).
      apply run_outcome_complete.
      now apply execute_loop_length with (b := b) (config := config)
                                         (w := snd (time_time w)) (w' := w1).
    - intros x w'. now apply Hraised.
    - intros pre tc post rs w1 cls text w2. now apply Hescapes. }
  split.
  - intros [x Hx].
    destruct (BundleRegistry.get_bundle reg id) as [b|] eqn:Hget; [|now left].
    right. destruct (TestBundle.truth b) eqn:Htruth; [|left; now exists b].
    right.
    destruct (first_unmet (TestBundle.get_config_schema b) config)
      as [Hall | (pre & n & f & post & Hschema & Hpre & Hbad)].
    + right.
      pose proof (surjective_pairing (TestRunner.run_bundle reg id config w))
        as Hrun.
      rewrite Hx in Hrun.
      destruct (Hraised b x _ eq_refl Htruth Hall Hrun)
        as (pre & tc & post & rs & w1 & cls & text & Hcases & Hpre & Hex & _).
      now exists b, pre, tc, post, rs, w1, cls, text,
                 (snd (TestRunner.run_bundle reg id config w)).
    + left. exists b, n, f. split; [reflexivity|]. split.
      * rewrite Hschema. apply in_or_app. right. now left.
      * unfold unmet in Hbad. now apply andb_true_iff in Hbad.
  - intros [Hnone | [(b & Hget & Htruth) | [(b & n & f & Hget & Hin & Hreq & Hfalsy)
      | (b & pre & tc & post & rs & w1 & cls & text & w2 & Hget & Hcases & Hpre & Hex)]]].
    + eexists. now rewrite Hfalse by now left.
    + eexists. rewrite Hfalse; [reflexivity|]. right. now exists b.
    + destruct (TestBundle.truth b) eqn:Htruth.
      * destruct (first_unmet (TestBundle.get_config_schema b) config)
          as [Hall | (pre & n' & f' & post & Hschema & Hpre & Hbad)].
        -- rewrite forallb_forall in Hall. specialize (Hall _ Hin).
           unfold unmet in Hall. simpl in Hall. rewrite Hreq, Hfalsy in Hall.
           discriminate.
        -- eexists.
           now rewrite (Hinvalid b pre n' f' post Hget Htruth Hschema Hpre Hbad).
      * eexists. rewrite Hfalse; [reflexivity|]. right. now exists b.
    + destruct (TestBundle.truth b) eqn:Htruth.
      * destruct (first_unmet (TestBundle.get_config_schema b) config)
          as [Hall | (pre' & n' & f' & post' & Hschema & Hpre' & Hbad)].
        -- eexists.
           now rewrite (Hescapes b pre tc post rs w1 cls text w2).
        -- eexists.
           now rewrite (Hinvalid b pre' n' f' post' Hget Htruth Hschema Hpre' Hbad).
      * eexists. rewrite Hfalse; [reflexivity|]. right. now exists b.
Qed.

(** C1, amended.  A run of a resolved bundle with a valid configuration
    returns whenever the executor raises nothing but [Exception]s, and
    otherwise raises the exception that escaped from the executor of a
    case.  The outcome it returns holds exactly one result per declared
    case, in order, whatever the executors returned or raised.  The i-th
    result carries the name of the i-th case provided the executor names
    the results it returns after the case it was given; a result made
    for an executor that raised always does. *)
Theorem run_bundle_one_result_per_case (reg : BundleRegistry.t) (id : pystr)
  b config w :
  BundleRegistry.get_bundle reg id = Some b ->
  TestBundle.truth b = true ->
  fst (TestBundle.validate_config b config) = true ->
  (contained b config (TestBundle.get_test_cases b) ->
   exists out w', TestRunner.run_bundle reg id config w = (Ok out, w'))
  /\ (forall out w',
        TestRunner.run_bundle reg id config w = (Ok out, w') ->
        exists items names,
          Dyn.item out (Str.lit "results") = Ok (VList items)
          /\ length items = length (TestBundle.get_test_cases b)
          /\ Forall result_entry items
          /\ Outcome.result_fields out (Str.lit "name") = Ok names
          /\ length names = length (TestBundle.get_test_cases b)
          /\ (names_its_results b config ->
              names = map (fun tc => VStr (TestCase.name tc))
                          (TestBundle.get_test_cases b)))
  /\ (forall x w',
        TestRunner.run_bundle reg id config w = (Raise x, w') ->
        exists tc w0 cls text,
          In tc (TestBundle.get_test_cases b)
          /\ TestBundle.execute_test b tc config w0 = (Escaping cls text, w')
          /\ x = BaseException cls text).
Proof.
  intros Hget Htruth Hvalid. split; [|split].
  - intros Hnone. eapply run_bundle_contained; eauto.
  - intros out w' Hrun.
    destruct (run_bundle_returned _ _ _ _ Hget Htruth Hvalid Hrun)
      as (results & w1 & Hex & -> & _).
    assert (Hlen : length results = length (TestBundle.get_test_cases b))
      by exact (execute_loop_length _ _ _ _ Hex).
    exists (map (fun r => VDict (TestResult.to_dict r)) results),
           (map (fun r => VStr (TestResult.name r)) results).
    split; [reflexivity|]. split; [now rewrite length_map|].
    split.
    { apply Forall_forall. intros item Hin.
      apply in_map_iff in Hin as (r & <- & _).
      now exists (TestResult.to_dict r). }
    split; [apply result_fields_name|].
    split; [now rewrite length_map|].
    intros Hnames.
    rewrite <- (map_map TestResult.name VStr), <- (map_map TestCase.name VStr).
    f_equal. eapply execute_loop_names; [|exact Hex].
    intros tc w0 r w2 Hin. now apply Hnames.
  - intros x w' Hrun.
    apply (run_bundle_raised _ _ _ _ Hget Htruth Hvalid) in Hrun.
    destruct (execute_loop_raise _ _ _ _ Hrun)
      as (pre & tc & post & rs & w1 & cls & text & Hcases & _ & Hex & ->).
    exists tc, w1, cls, text. repeat split; trivial.
    rewrite Hcases. apply in_or_app. right. now left.
Qed.

(** C2, amended.  When the executor of a case raises an [Exception], the
    loop stores a failed result for the case and goes on with the next
    case.  The run returns whenever the executor lets no exception that
    is no [Exception] escape on the cases that follow; the outcome it
    returns has one entry per case, and the entry at the position of the
    case is a failed result with duration [0], the failure message of
    the case as details and the text of the error as error message.  A
    run that raises instead raises what escaped from the executor of a
    later case. *)
Theorem raising_case_is_failed_result (reg : BundleRegistry.t) (id : pystr)
  b config w pre tc post rs w1 e w2 :
  BundleRegistry.get_bundle reg id = Some b ->
  TestBundle.truth b = true ->
  fst (TestBundle.validate_config b config) = true ->
  TestBundle.get_test_cases b = pre ++ tc :: post ->
  TestBundle.execute_loop b config pre [] (snd (time_time w)) = (Ok rs, w1) ->
  TestBundle.execute_test b tc config w1 = (Raised e, w2) ->
  let now := fst (datetime_now_isoformat w2) in
  let failed :=
    TestResult.mk (TestCase.name tc) (TestCase.description tc) FAILED 0
                  (TestCase.failure_message tc) None now (Some e) in
  TestBundle.execute_bundle b config (snd (time_time w))
  = match TestBundle.execute_loop b config post []
            (snd (datetime_now_isoformat w2)) with
    | (Ok rest, w') => (Ok (rs ++ failed :: rest), w')
    | (Raise x, w') => (Raise x, w')
    end
  /\ (contained b config post ->
      exists out w', TestRunner.run_bundle reg id config w = (Ok out, w'))
  /\ (forall out w',
        TestRunner.run_bundle reg id config w = (Ok out, w') ->
        exists items,
          Dyn.item out (Str.lit "results") = Ok (VList items)
          /\ length items = length (TestBundle.get_test_cases b)
          /\ nth_error items (length pre) = Some (VDict (failed_entry tc e now)))
  /\ (forall x w',
        TestRunner.run_bundle reg id config w = (Raise x, w') ->
        exists tc' w0 cls text,
          In tc' post
          /\ TestBundle.execute_test b tc' config w0 = (Escaping cls text, w')
          /\ x = BaseException cls text).
Proof.
  intros Hget Htruth Hvalid Hcases Hpre Hraise now failed.
  assert (Hbundle :
    TestBundle.execute_bundle b config (snd (time_time w))
    = match TestBundle.execute_loop b config post []
              (snd (datetime_now_isoformat w2)) with
      | (Ok rest, w') => (Ok (rs ++ failed :: rest), w')
      | (Raise x, w') => (Raise x, w')
      end).
  { unfold TestBundle.execute_bundle.
    rewrite Hcases, execute_loop_app, Hpre, execute_loop_cons.
    rewrite (execute_guarded_raised _ _ _ _ Hraise).
    now destruct (TestBundle.execute_loop b config post []
                    (snd (datetime_now_isoformat w2))) as [[rest|x] w']. }
  split; [exact Hbundle|]. split; [|split].
  - intros Hall. rewrite (run_bundle_valid _ _ _ _ Hget Htruth Hvalid), Hbundle.
    destruct (execute_loop_contained (snd (datetime_now_isoformat w2)) Hall)
      as (rest & w' & ->).
    now do 2 eexists.
  - intros out w' Hrun.
    destruct (run_bundle_returned _ _ _ _ Hget Htruth Hvalid Hrun)
      as (results & w3 & Hex & -> & _).
    exists (map (fun r => VDict (TestResult.to_dict r)) results).
    split; [reflexivity|]. split.
    { rewrite length_map. exact (execute_loop_length _ _ _ _ Hex). }
    rewrite Hbundle in Hex.
    destruct (TestBundle.execute_loop b config post []
                (snd (datetime_now_isoformat w2))) as [[rest|x] w4] eqn:Hpost;
      [|discriminate].
    inversion Hex; subst results.
    rewrite nth_error_map, nth_error_app2
      by (rewrite (execute_loop_length _ _ _ _ Hpre); lia).
    now rewrite (execute_loop_length _ _ _ _ Hpre), Nat.sub_diag.
  - intros x w' Hrun.
    apply (run_bundle_raised _ _ _ _ Hget Htruth Hvalid) in Hrun.
    rewrite Hbundle in Hrun.
    destruct (TestBundle.execute_loop b config post []
                (snd (datetime_now_isoformat w2))) as [[rest|y] w4] eqn:Hpost;
      [discriminate|].
    inversion Hrun; subst.
    destruct (execute_loop_raise _ _ _ _ Hpost)
      as (pre' & tc' & post' & rs' & w0 & cls & text & -> & _ & Hex & ->).
    exists tc', w0, cls, text. repeat split; trivial.
    apply in_or_app. right. now left.
Qed.

(** The cases with other time budgets are dealt with in the same way by
    an executor that does not read the budget. *)
Lemma execute_loop_timeout b b' config (budget : TestCase.t -> Z) cases :
  TestBundle.execute_test b' = TestBundle.execute_test b ->
  ignores_timeout b config ->
  forall acc w,
    TestBundle.execute_loop b' config
      (map (fun tc => with_timeout (budget tc) tc) cases) acc w
    = TestBundle.execute_loop b config cases acc w.
Proof.
  intros Hsame Hignores.
  induction cases as [|tc rest IH]; intros acc w; [reflexivity|].
  cbn [map TestBundle.execute_loop]. unfold bind.
  assert (Hturn : TestBundle.execute_guarded b' (with_timeout (budget tc) tc)
                    config w
                  = TestBundle.execute_guarded b tc config w).
  { unfold TestBundle.execute_guarded, bind. rewrite Hsame, Hignores.
    reflexivity. }
  rewrite Hturn.
  destruct (TestBundle.execute_guarded b tc config w) as [[r|x] w1];
    [apply IH|reflexivity].
Qed.

(** C5, amended.  The orchestration sets no time limit.  Each result of
    a returned list is the result the executor returned for the case,
    whatever time that took, or the failed result made for the
    [Exception] the executor raised, whose error message is the text of
    that exception.  The time budget of the cases is not read: with an
    executor that does not read it, a bundle whose cases have other
    budgets runs in the same way.  The list is returned whenever the
    executor raises nothing but [Exception]s. *)
Theorem returned_result_is_kept b config w :
  (forall pre tc post results w',
     TestBundle.get_test_cases b = pre ++ tc :: post ->
     TestBundle.execute_bundle b config w = (Ok results, w') ->
     exists rs w1 ex w2,
       TestBundle.execute_loop b config pre [] w = (Ok rs, w1)
       /\ TestBundle.execute_test b tc config w1 = (ex, w2)
       /\ match ex with
          | Returned r => nth_error results (length pre) = Some r
          | Raised e =>
              nth_error results (length pre)
              = Some (TestResult.mk (TestCase.name tc)
                        (TestCase.description tc) FAILED 0
                        (TestCase.failure_message tc) None
                        (fst (datetime_now_isoformat w2)) (Some e))
          | Escaping _ _ => False
          end)
  /\ (forall b' (budget : TestCase.t -> Z),
        TestBundle.execute_test b' = TestBundle.execute_test b ->
        TestBundle.get_test_cases b'
        = map (fun tc => with_timeout (budget tc) tc)
              (TestBundle.get_test_cases b) ->
        ignores_timeout b config ->
        TestBundle.execute_bundle b' config w
        = TestBundle.execute_bundle b config w)
  /\ (contained b config (TestBundle.get_test_cases b) ->
      exists results w',
        TestBundle.execute_bundle b config w = (Ok results, w')).
Proof.
  split; [|split].
  - intros pre tc post results w' Hcases Hrun.
    unfold TestBundle.execute_bundle in Hrun. rewrite Hcases in Hrun.
    destruct (execute_loop_at _ _ _ _ _ _ Hrun)
      as (rs & w1 & r & w2 & rest & Hpre & Hturn & _ & _ & Hnth).
    destruct (TestBundle.execute_test b tc config w1) as [ex w3] eqn:Hex.
    exists rs, w1, ex, w3. split; [exact Hpre|]. split; [exact Hex|].
    destruct ex as [r0|e|cls text].
    + rewrite (execute_guarded_returned _ _ _ _ Hex) in Hturn.
      now inversion Hturn; subst.
    + rewrite (execute_guarded_raised _ _ _ _ Hex) in Hturn.
      now inversion Hturn; subst.
    + rewrite (execute_guarded_escaping _ _ _ _ Hex) in Hturn. discriminate.
  - intros b' budget Hsame Hcases Hignores.
    unfold TestBundle.execute_bundle. rewrite Hcases.
    now apply execute_loop_timeout.
  - intros Hall. now apply execute_loop_contained.
Qed.

End RunTheorems.

(* ================================================================== *)
(** ** The bundles shipped with the platform *)

Section BuiltinBundles.
Context `{Host}.

Ltac executor_returns Hex :=
  unfold bind, ret in Hex;
  repeat match type of Hex with
         | context [let (_, _) := ?call in _] => destruct call
         | context [match ?x with inl _ => _ | inr _ => _ end] => destruct x
         end;
  inversion Hex; subst; reflexivity.

(** Each of the three executors copies the name of the case into the
    result it returns. *)
Lemma ecommerce_names_its_results config :
  names_its_results EcommerceBundle.bundle config.
Proof.
  intros tc w r w1 _ Hex. cbn [TestBundle.execute_test EcommerceBundle.bundle] in Hex.
  unfold EcommerceBundle.execute_test in Hex. executor_returns Hex.
Qed.

Lemma form_validation_names_its_results config :
  names_its_results FormValidationBundle.bundle config.
Proof.
  intros tc w r w1 _ Hex.
  cbn [TestBundle.execute_test FormValidationBundle.bundle] in Hex.
  unfold FormValidationBundle.execute_test in Hex. executor_returns Hex.
Qed.

Lemma api_health_names_its_results config :
  names_its_results APIHealthBundle.bundle config.
Proof.
  intros tc w r w1 _ Hex.
  cbn [TestBundle.execute_test APIHealthBundle.bundle] in Hex.
  unfold APIHealthBundle.execute_test in Hex. executor_returns Hex.
Qed.

(** The ids of the default registry, as the demo uses them. *)
Lemma default_bundle_ids :
  BundleRegistry.get_bundle_ids BundleRegistry.init
  = [ Str.lit "e-commerce_checkout_flow";
      Str.lit "form_validation_suite";
      Str.lit "api_health_checks" ].
Proof. reflexivity. Qed.

(** What the default registry resolves an id to. *)
Lemma default_registry_bundles (id : pystr) b :
  BundleRegistry.get_bundle BundleRegistry.init id = Some b ->
  b = EcommerceBundle.bundle \/ b = FormValidationBundle.bundle
  \/ b = APIHealthBundle.bundle.
Proof.
  unfold BundleRegistry.get_bundle.
  change BundleRegistry.init
    with [ (Str.lit "e-commerce_checkout_flow", EcommerceBundle.bundle);
           (Str.lit "form_validation_suite", FormValidationBundle.bundle);
           (Str.lit "api_health_checks", APIHealthBundle.bundle) ].
  cbn [Dict.get].
  repeat match goal with
         | |- context [if ?c then _ else _] => destruct c
         end; intros Hget; inversion Hget; auto.
Qed.

(** On the default registry the names of the results are the names of
    the cases, in order. *)
Lemma default_registry_names_results (id : pystr) b config w results w' :
  BundleRegistry.get_bundle BundleRegistry.init id = Some b ->
  TestBundle.execute_bundle b config w = (Ok results, w') ->
  map TestResult.name results
  = map TestCase.name (TestBundle.get_test_cases b).
Proof.
  intros Hget Hrun. eapply execute_loop_names; [|exact Hrun].
  intros tc w0 r w1 Hin Hex.
  destruct (default_registry_bundles _ Hget) as [-> | [-> | ->]].
  - now apply (@ecommerce_names_its_results config tc w0 r w1).
  - now apply (@form_validation_names_its_results config tc w0 r w1).
  - now apply (@api_health_names_its_results config tc w0 r w1).
Qed.

End BuiltinBundles.

(* ================================================================== *)
(** ** Runs on the simulated host *)

(** "Sample Suite" and "sample suite" get the same id; the bundle
    registered later is the one found. *)
Lemma register_bundle_overwrites_sample :
  BundleRegistry.bundle_id_of (H := Sim.host) (Str.lit "Sample Suite")
  = Str.lit "sample_suite"
  /\ BundleRegistry.get_bundle
       (BundleRegistry.register_bundle Sim.sample_suite_2
          (BundleRegistry.register_bundle Sim.sample_suite
             (BundleRegistry.init (H := Sim.host))))
       (Str.lit "sample_suite")
     = Some Sim.sample_suite_2.
Proof.
  split; [reflexivity|].
  apply (proj1 (proj2 (proj2 (register_bundle_overwrites
                                (BundleRegistry.init (H := Sim.host))
                                Sim.sample_suite Sim.sample_suite_2)))
               eq_refl).
Defined.

(** The executor of "Sample Suite" returns or raises an [Exception]. *)
Lemma sample_suite_contained config :
  contained (H := Sim.host) Sim.sample_suite config Sim.sample_cases.
Proof.
  intros tc w Hin. cbn [TestBundle.execute_test Sim.sample_suite].
  unfold Sim.sample_execute.
  now destruct (Str.eqb (TestCase.name tc) (Str.lit "Check A")).
Qed.

(** The two fatal errors on concrete runs: an unknown id, and the
    e-commerce bundle run without its required [base_url]; and the run
    of "Sample Suite", which returns a complete outcome. *)
Lemma run_bundle_raises_examples :
  TestRunner.run_bundle (H := Sim.host) Sim.registry
    (Str.lit "does_not_exist") [] 0%float
  = (Raise (ValueError (Str.lit "Bundle 'does_not_exist' not found")), 0%float)
  /\ TestRunner.run_bundle (H := Sim.host) Sim.registry
       (Str.lit "e-commerce_checkout_flow")
       [(Str.lit "test_user_email", VStr (Str.lit "tester@example.com"));
        (Str.lit "base_url", VStr [])] 0%float
     = (Raise (ValueError
                 (Str.lit "Invalid configuration: Required field 'Website URL' is missing")),
        0%float)
  /\ exists out w',
       TestRunner.run_bundle (H := Sim.host) Sim.registry
         (Str.lit "sample_suite") Sim.sample_config 0%float = (Ok out, w')
       /\ complete_outcome Sim.sample_suite Sim.sample_config out.
Proof.
  split; [|split].
  - apply (proj1 (run_bundle_raises_iff (H := Sim.host) Sim.registry
                    (Str.lit "does_not_exist") [] 0%float)).
    left. reflexivity.
  - apply (proj1 (proj2 (run_bundle_raises_iff (H := Sim.host) Sim.registry
                           (Str.lit "e-commerce_checkout_flow") _ 0%float))
             (EcommerceBundle.bundle (H := Sim.host)) []
             (Str.lit "base_url")
             (ConfigField.mk (Str.lit "url") (Str.lit "Website URL") true
                (VStr (Str.lit "https://example-shop.com")) None
                (Some (Str.lit "The base URL of the e-commerce website to test")))
             (tl (EcommerceBundle.get_config_schema)));
      reflexivity.
  - destruct (proj1 (proj2 (proj2 (run_bundle_raises_iff (H := Sim.host)
                                     Sim.registry (Str.lit "sample_suite")
                                     Sim.sample_config 0%float)))
                Sim.sample_suite eq_refl eq_refl eq_refl)
      as (Hreturns & Hcomplete & _).
    destruct (Hreturns (sample_suite_contained Sim.sample_config))
      as (out & w' & Hrun).
    exists out, w'. split; [exact Hrun|]. now apply Hcomplete with w'.
Defined.

(** The claim C3 as stated fails on "Exiting Suite": the id is known,
    the bundle is true, the empty configuration is valid, and the run
    raises the [SystemExit] of the executor. *)
Lemma run_bundle_raises_system_exit :
  BundleRegistry.get_bundle (H := Sim.host) Sim.plugin_registry
    (Str.lit "exiting_suite") = Some Sim.exiting_suite
  /\ TestBundle.truth Sim.exiting_suite = true
  /\ TestBundle.validate_config Sim.exiting_suite [] = (true, None)
  /\ TestRunner.run_bundle (H := Sim.host) Sim.plugin_registry
       (Str.lit "exiting_suite") [] 0%float
     = (Raise (BaseException (Str.lit "SystemExit") (Str.lit "2")), 0%float).
Proof. repeat split. Qed.

(** A run of "Sample Suite": two cases, two results, in order. *)
Lemma run_sample_suite_one_result_per_case :
  exists out w' items,
    TestRunner.run_bundle (H := Sim.host) Sim.registry
      (Str.lit "sample_suite") Sim.sample_config 0%float = (Ok out, w')
    /\ Dyn.item out (Str.lit "results") = Ok (VList items)
    /\ length items = 2
    /\ Outcome.result_fields out (Str.lit "name")
       = Ok [VStr (Str.lit "Check A"); VStr (Str.lit "Check B")].
Proof.
  destruct (run_bundle_one_result_per_case (H := Sim.host) Sim.registry
              (Str.lit "sample_suite") (b := Sim.sample_suite)
              Sim.sample_config 0%float eq_refl eq_refl eq_refl)
    as (Hreturns & Hresults & _).
  destruct (Hreturns (sample_suite_contained Sim.sample_config))
    as (out & w' & Hrun).
  destruct (Hresults out w' Hrun)
    as (items & names & Hitems & Hlen & _ & Hfield & _ & Hnames).
  exists out, w', items. split; [exact Hrun|]. split; [exact Hitems|].
  split; [exact Hlen|]. rewrite Hfield. f_equal.
  apply Hnames. intros tc w r w1 Hin Hex.
  destruct Hin as [<- | [<- | []]]; vm_compute in Hex; inversion Hex;
    reflexivity.
Defined.

(** The claim C1 as stated fails on "Renaming Suite": the bundle is
    registered, the empty configuration is valid, the run succeeds, and
    the only result is named [probe] while the only case is named
    [Check A]. *)
Lemma renaming_suite_breaks_names :
  BundleRegistry.get_bundle (H := Sim.host) Sim.registry
    (Str.lit "renaming_suite") = Some Sim.renaming_suite
  /\ TestBundle.validate_config Sim.renaming_suite [] = (true, None)
  /\ map TestCase.name (TestBundle.get_test_cases Sim.renaming_suite)
     = [Str.lit "Check A"]
  /\ exists out w',
       TestRunner.run_bundle (H := Sim.host) Sim.registry
         (Str.lit "renaming_suite") [] 0%float = (Ok out, w')
       /\ Outcome.result_fields out (Str.lit "name")
          = Ok [VStr (Str.lit "probe")].
Proof.
  split; [reflexivity|]. split; [reflexivity|]. split; [reflexivity|].
  do 2 eexists. split; [vm_compute; reflexivity|]. reflexivity.
Qed.

(** In "Sample Suite" the executor of [Check B] raises; the run returns
    both results, the second one the failed result made for the error. *)
Lemma raising_case_is_failed_result_sample :
  exists out w' items,
    TestRunner.run_bundle (H := Sim.host) Sim.registry
      (Str.lit "sample_suite") Sim.sample_config 0%float = (Ok out, w')
    /\ Dyn.item out (Str.lit "results") = Ok (VList items)
    /\ length items = 2
    /\ nth_error items 1
       = Some (VDict
                 [ (Str.lit "name", VStr (Str.lit "Check B"));
                   (Str.lit "description", VStr (Str.lit "second"));
                   (Str.lit "status", VStr (Str.lit "failed"));
                   (Str.lit "duration_ms", VInt 0);
                   (Str.lit "details", VStr (Str.lit "B fails"));
                   (Str.lit "url", VNone);
                   (Str.lit "timestamp", VStr (Str.lit "2024-01-01T00:00:00"));
                   (Str.lit "error_message",
                      VStr (Str.lit "connection refused")) ]).
Proof.
  destruct (raising_case_is_failed_result (H := Sim.host) Sim.registry
              (Str.lit "sample_suite") (b := Sim.sample_suite)
              Sim.sample_config 0%float
              [TestCase.make (Str.lit "Check A") (Str.lit "first")
                 (Str.lit "check_a") (Str.lit "A holds") (Str.lit "A fails")]
              (TestCase.make (Str.lit "Check B") (Str.lit "second")
                 (Str.lit "check_b") (Str.lit "B holds") (Str.lit "B fails"))
              []
              (rs := [TestResult.mk (Str.lit "Check A") (Str.lit "first")
                        PASSED 12 (Str.lit "A holds")
                        (Some (Str.lit "https://example.com/a"))
                        (Str.lit "2024-01-01T00:00:00") None])
              (w1 := 0%float) (e := Str.lit "connection refused")
              (w2 := 0%float) eq_refl eq_refl eq_refl eq_refl eq_refl eq_refl)
    as (_ & Hreturns & Hresults & _).
  destruct Hreturns as (out & w' & Hrun); [intros tc w []|].
  destruct (Hresults out w' Hrun) as (items & Hitems & Hlen & Hnth).
  now exists out, w', items.
Defined.

(** The claim C2 as stated fails on "Interrupted Suite": the executor of
    [Check B] raises [KeyboardInterrupt]; no failed result is made for
    it, the run stops there and the exception reaches the caller. *)
Lemma interrupted_case_aborts_run :
  BundleRegistry.get_bundle (H := Sim.host) Sim.plugin_registry
    (Str.lit "interrupted_suite") = Some Sim.interrupted_suite
  /\ TestBundle.validate_config Sim.interrupted_suite [] = (true, None)
  /\ map TestCase.name (TestBundle.get_test_cases Sim.interrupted_suite)
     = [Str.lit "Check A"; Str.lit "Check B"]
  /\ TestBundle.execute_test (H := Sim.host) Sim.interrupted_suite
       (TestCase.make (Str.lit "Check B") (Str.lit "second")
          (Str.lit "check_b") (Str.lit "B holds") (Str.lit "B fails"))
       [] 0%float
     = (Escaping (Str.lit "KeyboardInterrupt") [], 0%float)
  /\ TestRunner.run_bundle (H := Sim.host) Sim.plugin_registry
       (Str.lit "interrupted_suite") [] 0%float
     = (Raise (BaseException (Str.lit "KeyboardInterrupt") []), 0%float).
Proof. repeat split. Qed.

(** The claim C5 as stated fails on "Slow Suite": the budget of the case
    is 30 seconds, its executor takes 100 seconds by the clock of the
    run, and the result is the passed result the executor returned, with
    no error message. *)
Lemma slow_case_is_not_timed_out :
  map TestCase.timeout_seconds (TestBundle.get_test_cases Sim.slow_suite)
  = [30%Z]
  /\ exists out w',
       TestRunner.run_bundle (H := Sim.host) Sim.registry
         (Str.lit "slow_suite") [] 0%float = (Ok out, w')
       /\ Dyn.item out (Str.lit "execution_time") = Ok (VFloat 100%float)
       /\ Outcome.result_fields out (Str.lit "status")
          = Ok [VStr (Str.lit "passed")]
       /\ Outcome.result_fields out (Str.lit "error_message") = Ok [VNone].
Proof.
  split; [reflexivity|].
  do 2 eexists. split; [vm_compute; reflexivity|].
  split; [reflexivity|]. split; reflexivity.
Qed.

(** On "Slow Suite" the result the executor returns after a hundred
    seconds is the one kept, and the run is the same with a budget of
    one second; on "Timeout Suite" the error message of the failed
    result is the text the executor raised. *)
Lemma returned_result_is_kept_slow :
  map TestCase.timeout_seconds (TestBundle.get_test_cases Sim.hurried_suite)
  = [1%Z]
  /\ TestBundle.execute_bundle (H := Sim.host) Sim.hurried_suite [] 0%float
     = TestBundle.execute_bundle (H := Sim.host) Sim.slow_suite [] 0%float
  /\ (exists results w',
     TestBundle.execute_bundle (H := Sim.host) Sim.slow_suite [] 0%float
     = (Ok results, w')
     /\ nth_error results 0
        = Some (TestResult.mk (Str.lit "Slow check") (Str.lit "slow") PASSED
                  100000 (Str.lit "done") None (Str.lit "2024-01-01T00:01:40")
                  None))
  /\ (exists results w',
        TestBundle.execute_bundle (H := Sim.host) Sim.timeout_suite [] 0%float
        = (Ok results, w')
        /\ nth_error results 0
           = Some (TestResult.mk (Str.lit "Check A") (Str.lit "first") FAILED
                     0 (Str.lit "A fails") None (Str.lit "2024-01-01T00:00:00")
                     (Some (Str.lit "timeout")))).
Proof.
  split; [reflexivity|]. split; [|split].
  - apply (proj1 (proj2 (returned_result_is_kept (H := Sim.host)
                           Sim.slow_suite [] 0%float))
             Sim.hurried_suite (fun _ => 1%Z));
      [reflexivity|reflexivity|intros tc seconds w; reflexivity].
  - destruct (TestBundle.execute_bundle (H := Sim.host) Sim.slow_suite []
                0%float) as [ran w'] eqn:Hrun.
    assert (Hok : exists results, ran = Ok results)
      by (vm_compute in Hrun; inversion Hrun; now eexists).
    destruct Hok as (results & ->). exists results, w'. split; [reflexivity|].
    destruct (proj1 (returned_result_is_kept (H := Sim.host) Sim.slow_suite
                       [] 0%float)
                []
                (TestCase.make (Str.lit "Slow check") (Str.lit "slow")
                   (Str.lit "check_slow") (Str.lit "done")
                   (Str.lit "not done"))
                [] results w' eq_refl Hrun)
      as (rs & w1 & ex & w2 & Hpre & Hex & Hkept).
    vm_compute in Hpre. inversion Hpre; subst rs w1.
    vm_compute in Hex. inversion Hex; subst ex w2. exact Hkept.
  - destruct (TestBundle.execute_bundle (H := Sim.host) Sim.timeout_suite []
                0%float) as [ran w'] eqn:Hrun.
    assert (Hok : exists results, ran = Ok results)
      by (vm_compute in Hrun; inversion Hrun; now eexists).
    destruct Hok as (results & ->). exists results, w'. split; [reflexivity|].
    destruct (proj1 (returned_result_is_kept (H := Sim.host) Sim.timeout_suite
                       [] 0%float)
                []
                (TestCase.make (Str.lit "Check A") (Str.lit "first")
                   (Str.lit "check_a") (Str.lit "A holds")
                   (Str.lit "A fails"))
                [] results w' eq_refl Hrun)
      as (rs & w1 & ex & w2 & Hpre & Hex & Hkept).
    vm_compute in Hpre. inversion Hpre; subst rs w1.
    vm_compute in Hex. inversion Hex; subst ex w2. exact Hkept.
Defined.

(* ================================================================== *)
(** ** Statistics *)

Section StatisticsFacts.
Context `{Host}.
Implicit Types (results : list TestResult.t).


Lemma count_status_cons s r results :
  TestRunner.count_status s (r :: results)
  = (if Status.eqb (TestResult.status r) s then 1 else 0)
    + TestRunner.count_status s results.
Proof.
  unfold TestRunner.count_status. simpl.
  now destruct (Status.eqb (TestResult.status r) s).
Qed.

(** Every result has one of the five statuses. *)
Lemma count_status_partition results :
  TestRunner.count_status PASSED results
  + TestRunner.count_status FAILED results
  + TestRunner.count_status SKIPPED results
  + TestRunner.count_status PENDING results
  + TestRunner.count_status RUNNING results
  = length results.
Proof.
  induction results as [|r results IH]; [reflexivity|].
  rewrite !count_status_cons. simpl length.
  destruct (TestResult.status r); simpl; lia.
Qed.

Lemma count_uncounted_zero results :
  forallb counted results = true ->
  TestRunner.count_status PENDING results = 0
  /\ TestRunner.count_status RUNNING results = 0.
Proof.
  induction results as [|r results IH]; [now split|].
  simpl. intros Hall. apply andb_true_iff in Hall as [Hr Hrest].
  destruct (IH Hrest) as [Hp Hq]. rewrite !count_status_cons, Hp, Hq.
  unfold counted in Hr. now destruct (TestResult.status r).
Qed.

Lemma sum_durations_from results : forall acc,
  fold_left (fun a r => (a + TestResult.duration_ms r)%Z) results acc
  = (acc + fold_right Z.add 0%Z (map TestResult.duration_ms results))%Z.
Proof.
  induction results as [|r results IH]; intros acc; simpl; [lia|].
  rewrite IH. lia.
Qed.

Lemma sum_durations_spec results :
  TestRunner.sum_durations results
  = fold_right Z.add 0%Z (map TestResult.duration_ms results).
Proof. unfold TestRunner.sum_durations. now rewrite sum_durations_from. Qed.

(** C4, amended.  In the summary computed from a list of results,
    [total_tests] is the length of the list and [passed], [failed] and
    [skipped] count the results with these statuses; together with the
    pending and running results they add up to the total, so
    [passed + failed + skipped = total] whenever no result is pending or
    running.  [pass_rate] is the integer [0] for an empty list and
    [round(passed / total * 100, 2)] otherwise, and [total_duration_ms] is
    the sum of the durations. *)
Theorem statistics_accounting results (execution_time : float) :
  let stats := TestRunner._calculate_statistics results execution_time in
  let total := length results in
  let passed := TestRunner.count_status PASSED results in
  let failed := TestRunner.count_status FAILED results in
  let skipped := TestRunner.count_status SKIPPED results in
  Dict.get (Str.lit "total_tests") stats = Some (VInt (Z.of_nat total))
  /\ Dict.get (Str.lit "passed") stats = Some (VInt (Z.of_nat passed))
  /\ Dict.get (Str.lit "failed") stats = Some (VInt (Z.of_nat failed))
  /\ Dict.get (Str.lit "skipped") stats = Some (VInt (Z.of_nat skipped))
  /\ passed + failed + skipped
     + TestRunner.count_status PENDING results
     + TestRunner.count_status RUNNING results = total
  /\ (forallb counted results = true -> passed + failed + skipped = total)
  /\ Dict.get (Str.lit "pass_rate") stats
     = Some (match total with
             | O => VInt 0
             | S _ => VFloat (Py.round2
                                (PrimFloat.mul
                                   (Py.int_truediv (Z.of_nat passed)
                                                   (Z.of_nat total))
                                   100%float))
             end)
  /\ Dict.get (Str.lit "total_duration_ms") stats
     = Some (VInt (fold_right Z.add 0%Z (map TestResult.duration_ms results))).
Proof.
  intros stats total passed failed skipped.
  pose proof (count_status_partition results) as Hpart.
  repeat split; try reflexivity.
  - exact Hpart.
  - intros Hall. destruct (count_uncounted_zero _ Hall) as [Hp Hq].
    fold total passed failed skipped in Hpart. lia.
  - subst stats total. unfold TestRunner._calculate_statistics.
    cbn [Dict.get Str.eqb Str.lit map list_ascii_of_string N_of_ascii
         N.eqb Pos.eqb andb].
    unfold TestRunner.pass_rate_of. now destruct (length results).
  - subst stats. unfold TestRunner._calculate_statistics.
    cbn [Dict.get]. rewrite sum_durations_spec. reflexivity.
Qed.

End StatisticsFacts.

(** The claim C4 as stated fails on a list holding one pending result:
    the total is [1] and the three counts are [0]. *)
Lemma pending_result_is_not_counted :
  let r := TestResult.mk (Str.lit "Check A") (Str.lit "first") PENDING 0
             [] None (Str.lit "2024-01-01T00:00:00") None in
  let stats := TestRunner._calculate_statistics [r] 0%float in
  Dict.get (Str.lit "total_tests") stats = Some (VInt 1)
  /\ Dict.get (Str.lit "passed") stats = Some (VInt 0)
  /\ Dict.get (Str.lit "failed") stats = Some (VInt 0)
  /\ Dict.get (Str.lit "skipped") stats = Some (VInt 0).
Proof. repeat split. Qed.

(** One passed result out of three: the counts add up and the pass rate
    is 33.33. *)
Lemma statistics_one_of_three :
  let mk s := TestResult.mk (Str.lit "Check") [] s 250 [] None [] None in
  let stats :=
    TestRunner._calculate_statistics [mk PASSED; mk FAILED; mk SKIPPED]
                                     0%float in
  Dict.get (Str.lit "total_tests") stats = Some (VInt 3)
  /\ Dict.get (Str.lit "pass_rate") stats = Some (VFloat 33.33%float)
  /\ Dict.get (Str.lit "total_duration_ms") stats = Some (VInt 750).
Proof.
  intros mk stats.
  pose proof (statistics_accounting [mk PASSED; mk FAILED; mk SKIPPED] 0%float)
    as (Htotal & _ & _ & _ & _ & _ & Hrate & Hsum).
  split; [exact Htotal|]. split; [|exact Hsum].
  etransitivity; [exact Hrate|]. vm_compute. reflexivity.
Defined.

(* ================================================================== *)
(** ** [textwrap.wrap]: every line fits, nothing but blanks is lost *)

Section TextwrapFacts.
Context `{Host}.
Implicit Types (chunks lines cur : list pystr) (text : pystr).


Lemma visible_app a b : visible (a ++ b) = visible a ++ visible b.
Proof. apply filter_app. Qed.

Lemma visible_blank text : Str.is_blank text = true -> visible text = [].
Proof.
  unfold Str.is_blank, visible. induction text as [|c text IH]; simpl;
    [reflexivity|].
  intros Hall. apply andb_true_iff in Hall as [Hc Hrest].
  rewrite Hc. simpl. now apply IH.
Qed.

Lemma visible_length text : length (visible text) <= length text.
Proof. apply filter_length_le. Qed.

Lemma concat_snoc (l : list pystr) (x : pystr) :
  concat (l ++ [x]) = concat l ++ x.
Proof. rewrite concat_app. simpl. now rewrite app_nil_r. Qed.

(** *** The inner loop *)

Lemma take_fitting_spec width chunks : forall cur cur_len,
  exists taken rest,
    Textwrap.take_fitting width cur cur_len chunks
    = (cur ++ taken, cur_len + length (concat taken), rest)
    /\ chunks = taken ++ rest
    /\ (cur_len <= width -> cur_len + length (concat taken) <= width)
    /\ (taken = [] ->
        match rest with
        | [] => True
        | chunk :: _ => width < cur_len + length chunk
        end).
Proof.
  induction chunks as [|chunk chunks IH]; intros cur cur_len; simpl.
  - exists [], []. rewrite app_nil_r, Nat.add_0_r. repeat split; auto.
  - destruct (Nat.leb_spec (cur_len + length chunk) width) as [Hfit|Hno].
    + destruct (IH (cur ++ [chunk]) (cur_len + length chunk))
        as (taken & rest & Heq & Hsplit & Hbound & _).
      exists (chunk :: taken), rest. rewrite Heq. simpl.
      rewrite <- app_assoc, length_app. simpl.
      repeat split.
      * f_equal. f_equal. lia.
      * now rewrite Hsplit.
      * intros _. specialize (Hbound Hfit). lia.
      * discriminate.
    + exists [], (chunk :: chunks). rewrite app_nil_r, Nat.add_0_r.
      repeat split; auto.
Qed.

(** *** Breaking a long word *)

Lemma rfind_hyphen_lt chunk stop hy :
  Textwrap.rfind_hyphen chunk stop = Some hy -> hy < stop.
Proof.
  induction stop as [|i IH]; simpl; [discriminate|].
  destruct (Textwrap.at_is Textwrap.is_hyphen chunk i).
  - intros Heq. inversion Heq. lia.
  - intros Heq. specialize (IH Heq). lia.
Qed.

Lemma handle_long_word_le chunk cur_len width :
  Textwrap._handle_long_word chunk cur_len width <= width - cur_len.
Proof.
  unfold Textwrap._handle_long_word.
  destruct (width - cur_len <? length chunk); [|lia].
  destruct (Textwrap.rfind_hyphen chunk (width - cur_len)) as [hy|] eqn:Hfind;
    [|lia].
  apply rfind_hyphen_lt in Hfind.
  destruct ((0 <? hy) && existsb _ _); lia.
Qed.

Lemma handle_long_word_pos chunk width :
  1 <= width -> 1 <= Textwrap._handle_long_word chunk 0 width.
Proof.
  intros Hw. unfold Textwrap._handle_long_word. rewrite Nat.sub_0_r.
  destruct (width <? length chunk); [|lia].
  destruct (Textwrap.rfind_hyphen chunk width) as [hy|]; [|lia].
  destruct ((0 <? hy) && existsb _ _); lia.
Qed.

(** *** Dropping the blank end of a line *)

Lemma drop_trailing_blank_spec cur :
  exists dropped,
    concat cur = concat (Textwrap.drop_trailing_blank cur) ++ dropped
    /\ Str.is_blank dropped = true.
Proof.
  unfold Textwrap.drop_trailing_blank.
  destruct (rev cur) as [|last front] eqn:Hrev.
  - exists []. now rewrite app_nil_r.
  - destruct (Str.is_blank last) eqn:Hblank.
    + exists last. split; [|exact Hblank].
      assert (Hcur : cur = rev front ++ [last]).
      { rewrite <- (rev_involutive cur), Hrev. reflexivity. }
      rewrite Hcur at 1. rewrite Hcur, removelast_last. apply concat_snoc.
    + exists []. now rewrite app_nil_r.
Qed.

(** *** One turn of the outer loop *)

(** What a turn does to the text: [concat chunks] is a blank piece, the
    new line if there is one, another blank piece, and the chunks left,
    in this order.  The line fits the width. *)
Lemma wrap_step_spec width chunks lines :
  exists lead line trail,
    concat chunks
    = lead ++ line ++ trail ++ concat (fst (Textwrap.wrap_step width chunks lines))
    /\ Str.is_blank lead = true
    /\ Str.is_blank trail = true
    /\ length line <= width
    /\ ((snd (Textwrap.wrap_step width chunks lines) = lines /\ line = [])
        \/ snd (Textwrap.wrap_step width chunks lines) = lines ++ [line]).
Proof.
  unfold Textwrap.wrap_step.
  set (chunks1 := match chunks, lines with
                  | chunk :: rest, _ :: _ =>
                      if Str.is_blank chunk then rest else chunks
                  | _, _ => chunks
                  end).
  assert (Hlead : exists lead, concat chunks = lead ++ concat chunks1
                               /\ Str.is_blank lead = true).
  { subst chunks1. destruct chunks as [|chunk rest]; [now exists []|].
    destruct lines as [|l ls]; [now exists []|].
    destruct (Str.is_blank chunk) eqn:Hb; [now exists chunk | now exists []]. }
  destruct Hlead as (lead & Hlead & Hblank).
  destruct (take_fitting_spec width chunks1 [] 0)
    as (taken & chunks2 & Htake & Hsplit & Hfit & _).
  rewrite Htake. simpl app. simpl plus. specialize (Hfit (Nat.le_0_l _)).
  simpl in Hfit.
  set (long := match chunks2 with
               | chunk :: rest =>
                   if width <? length chunk then
                     let cut := Textwrap._handle_long_word
                                  chunk (length (concat taken)) width in
                     (taken ++ [firstn cut chunk], skipn cut chunk :: rest)
                   else (taken, chunks2)
               | [] => (taken, chunks2)
               end).
  assert (Hlong : concat taken ++ concat chunks2
                  = concat (fst long) ++ concat (snd long)
                  /\ length (concat (fst long)) <= width).
  { subst long. destruct chunks2 as [|chunk rest]; [now split|].
    destruct (width <? length chunk); [|now split]. cbv zeta. simpl fst.
    simpl snd. split.
    - rewrite concat_snoc. simpl. rewrite <- !app_assoc. f_equal.
      rewrite app_assoc, firstn_skipn. reflexivity.
    - rewrite concat_snoc, length_app, length_firstn.
      pose proof (handle_long_word_le chunk (length (concat taken)) width).
      lia. }
  destruct long as [cur3 chunks3]. simpl in Hlong.
  destruct Hlong as [Hcontent Hwidth].
  destruct (drop_trailing_blank_spec cur3) as (trail & Htrail & Htblank).
  exists lead, (concat (Textwrap.drop_trailing_blank cur3)), trail.
  assert (Hfst : forall ls,
            fst (match Textwrap.drop_trailing_blank cur3 with
                 | [] => (chunks3, lines)
                 | _ :: _ => (chunks3, ls)
                 end) = chunks3).
  { intros ls. now destruct (Textwrap.drop_trailing_blank cur3). }
  rewrite Hfst. split.
  - rewrite Hlead, Hsplit, concat_app, Hcontent, Htrail.
    now rewrite <- !app_assoc.
  - split; [exact Hblank|]. split; [exact Htblank|]. split.
    + rewrite Htrail, length_app in Hwidth. lia.
    + destruct (Textwrap.drop_trailing_blank cur3); [now left | now right].
Qed.

Lemma chunks_measure_app a b :
  Textwrap.chunks_measure (a ++ b)
  = Textwrap.chunks_measure a + Textwrap.chunks_measure b.
Proof.
  induction a as [|c a IH]; simpl; [reflexivity|]. rewrite IH. lia.
Qed.

Lemma chunks_measure_taken taken :
  taken <> [] -> 1 <= Textwrap.chunks_measure taken.
Proof. destruct taken; [congruence|]. simpl. lia. Qed.

(** A turn removes a chunk, or at least one character of the first. *)
Lemma wrap_step_decreases width chunks lines :
  1 <= width -> chunks <> [] ->
  Textwrap.chunks_measure (fst (Textwrap.wrap_step width chunks lines))
  < Textwrap.chunks_measure chunks.
Proof.
  intros Hw Hne. unfold Textwrap.wrap_step.
  set (chunks1 := match chunks, lines with
                  | chunk :: rest, _ :: _ =>
                      if Str.is_blank chunk then rest else chunks
                  | _, _ => chunks
                  end).
  assert (Hlead : Textwrap.chunks_measure chunks1 < Textwrap.chunks_measure chunks
                  \/ chunks1 = chunks).
  { subst chunks1. destruct chunks as [|chunk rest]; [now right|].
    destruct lines as [|l ls]; [now right|].
    destruct (Str.is_blank chunk); [left; simpl; lia | now right]. }
  destruct (take_fitting_spec width chunks1 [] 0)
    as (taken & chunks2 & Htake & Hsplit & _ & Hstuck).
  rewrite Htake. simpl app. simpl plus.
  set (long := match chunks2 with
               | chunk :: rest =>
                   if width <? length chunk then
                     let cut := Textwrap._handle_long_word
                                  chunk (length (concat taken)) width in
                     (taken ++ [firstn cut chunk], skipn cut chunk :: rest)
                   else (taken, chunks2)
               | [] => (taken, chunks2)
               end).
  assert (Hlong : Textwrap.chunks_measure (snd long)
                  <= Textwrap.chunks_measure chunks2
                  /\ (taken = [] -> chunks2 <> [] ->
                      Textwrap.chunks_measure (snd long)
                      < Textwrap.chunks_measure chunks2)).
  { subst long. destruct chunks2 as [|chunk rest];
      [split; [simpl; lia|congruence]|].
    destruct (Nat.ltb_spec width (length chunk)) as [Hbig|Hsmall].
    - cbv zeta. simpl. rewrite length_skipn. split; [lia|].
      intros -> _. simpl.
      pose proof (handle_long_word_pos chunk Hw). lia.
    - split; [simpl; lia|]. intros Htaken _. specialize (Hstuck Htaken).
      simpl in Hstuck. lia. }
  destruct long as [cur3 chunks3]. simpl in Hlong.
  destruct Hlong as [Hle Hlt].
  assert (Hfst : forall ls,
            fst (match Textwrap.drop_trailing_blank cur3 with
                 | [] => (chunks3, lines)
                 | _ :: _ => (chunks3, ls)
                 end) = chunks3).
  { intros ls. now destruct (Textwrap.drop_trailing_blank cur3). }
  rewrite Hfst.
  assert (Hsum : Textwrap.chunks_measure chunks1
                 = Textwrap.chunks_measure taken
                   + Textwrap.chunks_measure chunks2).
  { now rewrite Hsplit, chunks_measure_app. }
  destruct Hlead as [Hdrop | Hsame]; [lia|].
  destruct taken as [|t taken'].
  - simpl in Hsplit. assert (chunks2 <> []) by congruence.
    specialize (Hlt eq_refl H0). simpl in Hsum. rewrite <- Hsame. lia.
  - pose proof (@chunks_measure_taken (t :: taken')). rewrite <- Hsame.
    assert (1 <= Textwrap.chunks_measure (t :: taken')) by (apply H0; congruence).
    lia.
Qed.

(** *** The outer loop *)

(** With fuel for every turn the loop ends, and it carries every
    property that a turn preserves to the end. *)
Lemma wrap_loop_invariant width (Inv : list pystr -> list pystr -> Prop) :
  1 <= width ->
  (forall chunks lines, chunks <> [] -> Inv chunks lines ->
     Inv (fst (Textwrap.wrap_step width chunks lines))
         (snd (Textwrap.wrap_step width chunks lines))) ->
  forall fuel chunks lines,
    Textwrap.chunks_measure chunks <= fuel ->
    Inv chunks lines ->
    exists out, Textwrap.wrap_loop fuel width chunks lines = Some out
                /\ Inv [] out.
Proof.
  intros Hw Hstep. induction fuel as [|fuel IH]; intros chunks lines Hfuel Hinv.
  - destruct chunks as [|c chunks]; [now exists lines|]. simpl in Hfuel. lia.
  - destruct chunks as [|c chunks]; [now exists lines|].
    cbn [Textwrap.wrap_loop].
    pose proof (@wrap_step_decreases width (c :: chunks) lines Hw) as Hdec.
    specialize (Hstep (c :: chunks) lines).
    destruct (Textwrap.wrap_step width (c :: chunks) lines) as [chunks' lines'].
    simpl in *. apply IH.
    + assert (c :: chunks <> []) by congruence. specialize (Hdec H0). lia.
    + apply Hstep; [congruence|exact Hinv].
Qed.


Lemma wrap_inv_step width P all chunks lines :
  wrap_inv width P all chunks lines ->
  wrap_inv width P all (fst (Textwrap.wrap_step width chunks lines))
                       (snd (Textwrap.wrap_step width chunks lines)).
Proof.
  intros (Hfit & Hlines & Hchunks & Hvis).
  destruct (wrap_step_spec width chunks lines)
    as (lead & line & trail & Hcontent & Hlead & Htrail & Hlen & Hsnd).
  rewrite Hcontent in Hchunks, Hvis.
  apply Forall_app in Hchunks as [_ Hchunks].
  apply Forall_app in Hchunks as [Hline Hchunks].
  apply Forall_app in Hchunks as [_ Hchunks].
  rewrite !visible_app, (visible_blank _ Hlead), (visible_blank _ Htrail) in Hvis.
  simpl in Hvis.
  destruct Hsnd as [[-> ->] | ->].
  - repeat split; trivial.
  - repeat split.
    + apply Forall_app. split; [exact Hfit|]. now constructor.
    + rewrite concat_snoc. apply Forall_app. now split.
    + exact Hchunks.
    + rewrite concat_snoc, visible_app, <- app_assoc. exact Hvis.
Qed.

(** *** Splitting into chunks *)

Lemma leading_pos (p : pychar -> bool) c rest :
  p c = true -> 1 <= Textwrap.leading p (c :: rest).
Proof. intros Hp. simpl. rewrite Hp. lia. Qed.

Lemma chunk_len_pos back c after : 1 <= Textwrap.chunk_len back (c :: after).
Proof.
  unfold Textwrap.chunk_len.
  destruct (Textwrap.is_whitespace c) eqn:Hws; [now apply leading_pos|].
  destruct (Textwrap.at_is Textwrap.is_word_punct back 0
            && Textwrap.em_dash_ahead (c :: after)) eqn:Hdash; [|lia].
  apply andb_true_iff in Hdash as [_ Hdash].
  unfold Textwrap.em_dash_ahead in Hdash.
  apply andb_true_iff in Hdash as [Htwo _]. apply Nat.leb_le in Htwo. lia.
Qed.

(** The chunks are the text, cut into pieces. *)
Lemma split_from_concat fuel : forall back rest,
  length rest <= fuel -> concat (Textwrap.split_from fuel back rest) = rest.
Proof.
  induction fuel as [|fuel IH]; intros back rest Hfuel.
  - destruct rest; [reflexivity|simpl in Hfuel; lia].
  - destruct rest as [|c after]; [reflexivity|].
    cbn [Textwrap.split_from concat].
    pose proof (chunk_len_pos back c after) as Hpos.
    rewrite IH; [apply firstn_skipn|].
    rewrite length_skipn. simpl length in *. lia.
Qed.

Lemma split_concat text : concat (Textwrap._split text) = text.
Proof. now apply split_from_concat. Qed.

(** *** Whitespace *)

Lemma is_whitespace_isspace c :
  Textwrap.is_whitespace c = true -> Str.isspace c = true.
Proof.
  unfold Textwrap.is_whitespace, Str.isspace. intros Hws.
  apply orb_true_iff in Hws as [Hrange | Hspace].
  - now rewrite Hrange.
  - apply N.eqb_eq in Hspace. now subst c.
Qed.

Lemma visible_rep_space n : visible (Str.rep Str.space n) = [].
Proof. induction n as [|n IH]; [reflexivity|exact IH]. Qed.

Lemma visible_expandtabs text : forall line_pos,
  visible (Textwrap.expandtabs line_pos text) = visible text.
Proof.
  induction text as [|c text IH]; intros line_pos; [reflexivity|].
  cbn [Textwrap.expandtabs]. destruct (N.eqb_spec c 9) as [->|Hc].
  - rewrite visible_app, visible_rep_space, IH. reflexivity.
  - unfold visible in *. simpl. now rewrite IH.
Qed.

Lemma visible_munge text :
  visible (Textwrap._munge_whitespace text) = visible text.
Proof.
  unfold Textwrap._munge_whitespace. rewrite <- (visible_expandtabs text 0).
  induction (Textwrap.expandtabs 0 text) as [|c rest IH]; [reflexivity|].
  unfold visible in *. simpl.
  destruct (Textwrap.is_whitespace c) eqn:Hws.
  - rewrite (is_whitespace_isspace _ Hws). simpl. exact IH.
  - now rewrite IH.
Qed.

(** After munging there is no line break left in the text. *)
Lemma munge_no_newline text :
  Forall (fun c => c <> 10%N) (Textwrap._munge_whitespace text).
Proof.
  unfold Textwrap._munge_whitespace. apply Forall_map.
  apply Forall_forall. intros c _.
  destruct (Textwrap.is_whitespace c) eqn:Hws; [discriminate|].
  intros ->. discriminate.
Qed.

(** *** [wrap] *)

(** [textwrap.wrap] with a positive width returns; every line it
    returns fits the width and holds no line break, and the lines hold
    the visible characters of the text, all of them, in order. *)
Lemma wrap_returns text (width : Z) :
  (0 < width)%Z ->
  exists lines,
    Textwrap.wrap text width = Ok lines
    /\ Forall (fun line => Z.of_nat (length line) <= width)%Z lines
    /\ Forall (fun c => c <> 10%N) (concat lines)
    /\ visible (concat lines) = visible text.
Proof.
  intros Hw. unfold Textwrap.wrap, Textwrap._wrap_chunks.
  destruct (Z.leb_spec width 0) as [Hle|_]; [lia|].
  set (chunks := Textwrap._split (Textwrap._munge_whitespace text)).
  destruct (@wrap_loop_invariant (Z.to_nat width)
              (wrap_inv (Z.to_nat width) (fun c => c <> 10%N) (concat chunks))
              ltac:(lia)
              (fun cs ls _ => @wrap_inv_step _ _ _ cs ls)
              (Textwrap.chunks_measure chunks) chunks [] (Nat.le_refl _))
    as (lines & Hloop & Hfit & Hnl & _ & Hvis).
  - repeat split; try constructor.
    subst chunks. rewrite split_concat. apply munge_no_newline.
  - rewrite Hloop. exists lines. split; [reflexivity|]. split; [|split].
    + eapply Forall_impl; [|exact Hfit]. simpl. intros line Hline. lia.
    + exact Hnl.
    + simpl in Hvis. rewrite app_nil_r in Hvis. rewrite <- Hvis.
      subst chunks. rewrite split_concat. apply visible_munge.
Qed.

(** *** Text too long for one line *)

Lemma is_blank_app a b :
  Str.is_blank (a ++ b) = Str.is_blank a && Str.is_blank b.
Proof. apply forallb_app. Qed.

Lemma wrap_placed_step width all chunks lines :
  wrap_placed all chunks lines ->
  wrap_placed all (fst (Textwrap.wrap_step width chunks lines))
                  (snd (Textwrap.wrap_step width chunks lines)).
Proof.
  intros (read & Hall & Hshape).
  destruct (wrap_step_spec width chunks lines)
    as (lead & line & trail & Hcontent & Hlead & Htrail & _ & Hsnd).
  exists (read ++ lead ++ line ++ trail). split.
  { rewrite Hall, Hcontent. now rewrite <- !app_assoc. }
  destruct Hsnd as [[-> ->] | ->].
  - destruct lines as [|l [|l' lines]]; trivial.
    + rewrite !is_blank_app, Hshape, Hlead, Htrail. reflexivity.
    + destruct Hshape as (before & after & -> & Hbefore & Hafter).
      exists before, (after ++ lead ++ trail). split; [|split; trivial].
      * now rewrite <- !app_assoc.
      * now rewrite !is_blank_app, Hafter, Hlead, Htrail.
  - destruct lines as [|l [|l' lines]]; simpl; trivial.
    exists (read ++ lead), trail. split; [|split; trivial].
    + now rewrite <- !app_assoc.
    + now rewrite is_blank_app, Hshape, Hlead.
Qed.

Lemma lstrip_blank text : Str.is_blank text = true -> lstrip text = [].
Proof.
  induction text as [|c text IH]; [reflexivity|]. simpl.
  intros Hall. apply andb_true_iff in Hall as [-> Hrest]. now apply IH.
Qed.

Lemma lstrip_blank_app a text :
  Str.is_blank a = true -> lstrip (a ++ text) = lstrip text.
Proof.
  induction a as [|c a IH]; [reflexivity|]. simpl.
  intros Hall. apply andb_true_iff in Hall as [-> Hrest]. now apply IH.
Qed.

Lemma lstrip_length text : length (lstrip text) <= length text.
Proof.
  induction text as [|c text IH]; [reflexivity|]. simpl.
  destruct (Str.isspace c); simpl; lia.
Qed.

Lemma is_blank_rev text : Str.is_blank (rev text) = Str.is_blank text.
Proof.
  induction text as [|c text IH]; [reflexivity|]. simpl.
  rewrite is_blank_app, IH. simpl. now rewrite andb_true_r, andb_comm.
Qed.

Lemma rstrip_app_blank text a :
  Str.is_blank a = true -> rstrip (text ++ a) = rstrip text.
Proof.
  intros Ha. unfold rstrip. rewrite rev_app_distr, lstrip_blank_app; trivial.
  now rewrite is_blank_rev.
Qed.

Lemma rstrip_length text : length (rstrip text) <= length text.
Proof.
  unfold rstrip. rewrite length_rev.
  pose proof (lstrip_length (rev text)) as Hle. now rewrite length_rev in Hle.
Qed.

Lemma lstrip_snoc text c :
  lstrip (text ++ [c])
  = match lstrip text with
    | [] => if Str.isspace c then [] else [c]
    | kept => kept ++ [c]
    end.
Proof.
  induction text as [|d text IH]; [reflexivity|]. simpl.
  destruct (Str.isspace d); [exact IH|reflexivity].
Qed.

Lemma rstrip_cons c text :
  rstrip (c :: text)
  = match rstrip text with
    | [] => if Str.isspace c then [] else [c]
    | kept => c :: kept
    end.
Proof.
  unfold rstrip. simpl. rewrite lstrip_snoc.
  destruct (lstrip (rev text)) as [|d kept] eqn:Hkept; simpl.
  - now destruct (Str.isspace c).
  - rewrite rev_app_distr. simpl.
    destruct (rev kept ++ [d]) eqn:Hrev; [|reflexivity].
    now destruct (rev kept).
Qed.

(** The white space in front of a text is no part of what is left. *)
Lemma strip_blank_app a text :
  Str.is_blank a = true -> length (strip (a ++ text)) <= length text.
Proof.
  unfold strip. induction a as [|c a IH]; simpl.
  - intros _. pose proof (lstrip_length (rstrip text)).
    pose proof (rstrip_length text). lia.
  - intros Hall. apply andb_true_iff in Hall as [Hc Ha].
    rewrite rstrip_cons.
    destruct (rstrip (a ++ text)) as [|d kept] eqn:Hkept.
    + rewrite Hc. simpl. lia.
    + cbn [lstrip]. rewrite Hc. now apply IH.
Qed.

(** What [lstrip] leaves is the end of the text. *)
Lemma lstrip_suffix text : exists head, text = head ++ lstrip text.
Proof.
  induction text as [|c text (head & IH)]; [now exists []|]. simpl.
  destruct (Str.isspace c); [|now exists []].
  exists (c :: head). simpl. now f_equal.
Qed.

Lemma lstrip_fixed text :
  length text <= length (lstrip text) -> lstrip text = text.
Proof.
  destruct (lstrip_suffix text) as (head & Heq). intros Hlen.
  rewrite Heq in Hlen at 1. rewrite length_app in Hlen.
  destruct head; [exact (eq_sym Heq)|simpl in Hlen; lia].
Qed.

Lemma lstrip_head c text :
  lstrip (c :: text) = c :: text -> Str.isspace c = false.
Proof.
  simpl. destruct (Str.isspace c); [|reflexivity]. intros Heq.
  pose proof (lstrip_length text) as Hle. rewrite Heq in Hle. simpl in Hle. lia.
Qed.

(** A text that [strip] leaves as it is begins and ends with a visible
    character. *)
Lemma strip_fixed text :
  strip text = text -> lstrip text = text /\ lstrip (rev text) = rev text.
Proof.
  unfold strip. intros Heq.
  pose proof (lstrip_length (rstrip text)) as Hl.
  pose proof (rstrip_length text) as Hr.
  rewrite Heq in Hl.
  assert (Hrev : lstrip (rev text) = rev text).
  { apply lstrip_fixed. unfold rstrip in Hl, Hr. rewrite length_rev in *. lia. }
  split; [|exact Hrev].
  unfold rstrip in Heq. now rewrite Hrev, rev_involutive in Heq.
Qed.

Lemma expandtabs_length text : forall line_pos,
  length text <= length (Textwrap.expandtabs line_pos text).
Proof.
  induction text as [|c text IH]; intros line_pos; [reflexivity|].
  cbn [Textwrap.expandtabs]. destruct (c =? 9)%N.
  - rewrite length_app. unfold Str.rep. rewrite repeat_length.
    specialize (IH (line_pos + (8 - line_pos mod 8))).
    pose proof (Nat.mod_upper_bound line_pos 8 ltac:(discriminate)) as Hmod.
    cbn [length]. lia.
  - specialize (IH (if ((c =? 10) || (c =? 13))%N then 0 else S line_pos)).
    cbn [length]. lia.
Qed.

Lemma expandtabs_snoc text c : forall line_pos,
  (c =? 9)%N = false ->
  Textwrap.expandtabs line_pos (text ++ [c])
  = Textwrap.expandtabs line_pos text ++ [c].
Proof.
  intros line_pos Hc. revert line_pos.
  induction text as [|d text IH]; intros line_pos; simpl.
  - now rewrite Hc.
  - destruct (d =? 9)%N; rewrite IH; [now rewrite app_assoc|reflexivity].
Qed.

Lemma visible_plain c :
  Str.isspace c = false ->
  (c =? 9)%N = false /\ Textwrap.is_whitespace c = false.
Proof.
  intros Hc. split.
  - destruct (N.eqb_spec c 9); [subst c; discriminate|reflexivity].
  - destruct (Textwrap.is_whitespace c) eqn:Hws; [|reflexivity].
    apply is_whitespace_isspace in Hws. congruence.
Qed.

(** The extent of a text that neither begins nor ends with white space
    is its length, or more when it holds tabs. *)
Lemma trimmed_extent text : strip text = text -> length text <= extent text.
Proof.
  intros Hfixed. destruct (strip_fixed Hfixed) as [Hleft Hright].
  destruct text as [|c text]; [simpl; lia|].
  pose proof (lstrip_head Hleft) as Hc.
  destruct (visible_plain c Hc) as [Hctab Hcws].
  destruct (rev (c :: text)) as [|d back] eqn:Hrev.
  { apply (f_equal (@length pychar)) in Hrev. rewrite length_rev in Hrev.
    discriminate. }
  pose proof (lstrip_head Hright) as Hd.
  destruct (visible_plain d Hd) as [Hdtab Hdws].
  assert (Hsnoc : c :: text = rev back ++ [d]).
  { rewrite <- (rev_involutive (c :: text)), Hrev. reflexivity. }
  unfold extent, strip, Textwrap._munge_whitespace.
  set (shown := map (fun c0 => if Textwrap.is_whitespace c0 then Str.space else c0)
                    (Textwrap.expandtabs 0 (c :: text))).
  assert (Hlen : length (c :: text) <= length shown).
  { subst shown. rewrite length_map. apply expandtabs_length. }
  assert (Hend : rstrip shown = shown).
  { subst shown. rewrite Hsnoc, expandtabs_snoc, map_app by exact Hdtab.
    unfold rstrip. rewrite rev_app_distr. cbn [map rev app].
    rewrite Hdws. cbn [lstrip]. rewrite Hd. cbn [rev].
    now rewrite rev_involutive. }
  rewrite Hend.
  assert (Hstart : lstrip shown = shown).
  { subst shown. cbn [Textwrap.expandtabs]. rewrite Hctab. cbn [map].
    rewrite Hcws. cbn [lstrip]. now rewrite Hc. }
  now rewrite Hstart.
Qed.

(** A text whose extent is more than the width is wrapped into two
    lines or more. *)
Lemma wrap_long_text text (width : Z) lines :
  (0 < width)%Z ->
  Z.to_nat width < extent text ->
  Textwrap.wrap text width = Ok lines ->
  2 <= length lines.
Proof.
  intros Hw Hlong. unfold Textwrap.wrap, Textwrap._wrap_chunks.
  destruct (Z.leb_spec width 0) as [Hle|_]; [lia|].
  set (chunks := Textwrap._split (Textwrap._munge_whitespace text)).
  destruct (@wrap_loop_invariant (Z.to_nat width)
              (fun cs ls =>
                 wrap_inv (Z.to_nat width) (fun _ => True) (concat chunks) cs ls
                 /\ wrap_placed (concat chunks) cs ls)
              ltac:(lia)
              (fun cs ls _ Hinv =>
                 conj (@wrap_inv_step _ _ _ cs ls (proj1 Hinv))
                      (@wrap_placed_step (Z.to_nat width) _ cs ls (proj2 Hinv)))
              (Textwrap.chunks_measure chunks) chunks [] (Nat.le_refl _))
    as (out & Hloop & (Hfit & _) & read & Hread & Hshape).
  - split.
    + repeat split; try constructor. now apply Forall_forall.
    + now exists [].
  - rewrite Hloop. intros Heq. inversion Heq; subst out. clear Heq.
    simpl in Hread. rewrite app_nil_r in Hread.
    unfold extent in Hlong. fold chunks in Hlong.
    assert (Htext : Textwrap._munge_whitespace text = read).
    { rewrite <- Hread. subst chunks. now rewrite split_concat. }
    rewrite Htext in Hlong.
    destruct lines as [|line [|line' lines]]; [| |simpl; lia].
    + unfold strip in Hlong.
      rewrite <- (app_nil_l read), rstrip_app_blank in Hlong by exact Hshape.
      simpl in Hlong. lia.
    + destruct Hshape as (before & after & -> & Hbefore & Hafter).
      rewrite app_assoc in Hlong. unfold strip in Hlong.
      rewrite rstrip_app_blank in Hlong by exact Hafter.
      pose proof (@strip_blank_app before line Hbefore) as Hle.
      unfold strip in Hle.
      inversion Hfit; subst. lia.
Qed.

End TextwrapFacts.

(* ================================================================== *)
(** ** Padding, centring and lines *)

Section PaddingFacts.
Implicit Types (s : pystr) (w : Z).

Lemma length_ljust s w :
  (Z.of_nat (length s) <= w)%Z -> Z.of_nat (length (Str.ljust s w)) = w.
Proof.
  intros Hfit. unfold Str.ljust. rewrite length_app, length_rep. lia.
Qed.

Lemma land_one_bounds (a : Z) : (0 <= Z.land a 1 <= 1)%Z.
Proof.
  change 1%Z with (Z.ones 1) at 1 2. rewrite Z.land_ones by lia.
  pose proof (Z.mod_pos_bound a (2 ^ 1) ltac:(lia)). simpl in *. lia.
Qed.

Lemma length_center s w :
  (Z.of_nat (length s) <= w)%Z -> Z.of_nat (length (Str.center s w)) = w.
Proof.
  intros Hfit. unfold Str.center.
  destruct (Z.leb_spec w (Z.of_nat (length s))) as [Hle|Hgt]; [lia|].
  cbv zeta. rewrite !length_app, !length_rep.
  pose proof (land_one_bounds (Z.land (w - Z.of_nat (length s)) w)) as Hbit.
  assert (Hhalf : (0 <= (w - Z.of_nat (length s)) / 2
                   /\ (w - Z.of_nat (length s)) / 2 + 1
                      <= w - Z.of_nat (length s))%Z).
  { split; [apply Z.div_pos; lia|].
    pose proof (Z.div_lt_upper_bound (w - Z.of_nat (length s)) 2
                  (w - Z.of_nat (length s)) ltac:(lia) ltac:(lia)). lia. }
  lia.
Qed.

(** A centred text that is too long comes back as it is. *)
Lemma center_too_long s w : (w <= Z.of_nat (length s))%Z -> Str.center s w = s.
Proof.
  intros Hlong. unfold Str.center.
  now destruct (Z.leb_spec w (Z.of_nat (length s))); [|lia].
Qed.


Lemma no_newline_app a b : no_newline a -> no_newline b -> no_newline (a ++ b).
Proof. intros Ha Hb. apply Forall_app. now split. Qed.

Lemma no_newline_rep_space n : no_newline (Str.rep Str.space n).
Proof.
  induction n as [|n IH]; constructor; [discriminate|exact IH].
Qed.

Lemma no_newline_ljust s w : no_newline s -> no_newline (Str.ljust s w).
Proof.
  intros Hs. apply Forall_app. split; [exact Hs|apply no_newline_rep_space].
Qed.

Lemma no_newline_center s w : no_newline s -> no_newline (Str.center s w).
Proof.
  intros Hs. unfold Str.center. destruct (w <=? Z.of_nat (length s))%Z; [exact Hs|].
  cbv zeta. repeat (apply Forall_app; split);
    trivial; apply no_newline_rep_space.
Qed.

(** Joining lines with newlines and splitting at newlines gives the
    lines back, if there is at least one and none holds a newline. *)
Lemma split_on_no_sep s :
  no_newline s -> Str.split_on 10%N s = [s].
Proof.
  induction s as [|c s IH]; intros Hs; [reflexivity|].
  inversion Hs as [|? ? Hc Hrest]; subst. simpl.
  destruct (N.eqb_spec c 10); [contradiction|]. now rewrite IH.
Qed.

Lemma split_on_app_sep s rest :
  no_newline s ->
  Str.split_on 10%N (s ++ 10%N :: rest) = s :: Str.split_on 10%N rest.
Proof.
  induction s as [|c s IH]; intros Hs; [reflexivity|].
  inversion Hs as [|? ? Hc Hrest]; subst. simpl.
  destruct (N.eqb_spec c 10); [contradiction|]. now rewrite IH.
Qed.

Lemma split_join_lines (lines : list pystr) :
  lines <> [] -> Forall no_newline lines ->
  Str.split_on 10%N (Str.join [10%N] lines) = lines.
Proof.
  induction lines as [|l lines IH]; [congruence|]. intros _ Hall.
  inversion Hall as [|? ? Hl Hrest]; subst.
  destruct lines as [|l2 lines].
  - simpl. now apply split_on_no_sep.
  - change (Str.join [10%N] (l :: l2 :: lines))
      with (l ++ 10%N :: Str.join [10%N] (l2 :: lines)).
    rewrite split_on_app_sep by exact Hl. f_equal. apply IH; [congruence|exact Hrest].
Qed.

End PaddingFacts.

(* ================================================================== *)
(** ** The ASCII canvas *)

Section CanvasFacts.
Context `{Host}.
Implicit Types (r : TestResult.t) (line prefix text : pystr).


Lemma no_newline_lit_bar : no_newline (Str.lit "|").
Proof. repeat constructor; discriminate. Qed.

Lemma no_newline_lit_bar_space : no_newline (Str.lit "| ").
Proof. repeat constructor; discriminate. Qed.

Lemma no_newline_lit_space_bar : no_newline (Str.lit " |").
Proof. repeat constructor; discriminate. Qed.

Create HintDb canvas.
#[local] Hint Resolve no_newline_app no_newline_rep_space no_newline_ljust
  no_newline_center no_newline_lit_bar no_newline_lit_bar_space
  no_newline_lit_space_bar : canvas.

Lemma border_canvas_line : canvas_line ReportGenerator.border.
Proof.
  split; [reflexivity|]. unfold ReportGenerator.border.
  repeat (apply Forall_app; split); repeat constructor; discriminate.
Qed.

Lemma center_line_canvas_line text :
  (Z.of_nat (length text) <= 68)%Z -> no_newline text ->
  canvas_line (ReportGenerator.center_line text).
Proof.
  intros Hfit Hnl. unfold ReportGenerator.center_line. split.
  - rewrite !length_app. change (length (Str.lit "|")) with 1.
    pose proof (length_center text (w := ReportGenerator.width - 2) Hfit).
    unfold ReportGenerator.width in *. lia.
  - auto 6 with canvas.
Qed.

(** A heading that does not fit is not cut: its line is longer than the
    canvas. *)
Lemma center_line_too_long text :
  (68 <= Z.of_nat (length text))%Z ->
  length (ReportGenerator.center_line text) = 2 + length text.
Proof.
  intros Hlong. unfold ReportGenerator.center_line.
  rewrite center_too_long by exact Hlong.
  rewrite !length_app. change (length (Str.lit "|")) with 1. lia.
Qed.

(** What [wrap] returns, blank line included. *)
Lemma or_blank_wrap text (inner : Z) :
  (0 < inner)%Z ->
  exists wrapped,
    Textwrap.wrap text inner = Ok wrapped
    /\ ReportGenerator.or_blank wrapped <> []
    /\ Forall (fun line => (Z.of_nat (length line) <= inner)%Z
                           /\ no_newline line)
              (ReportGenerator.or_blank wrapped)
    /\ (length (ReportGenerator.or_blank wrapped) <= 1 ->
        (Z.of_nat (length (visible text)) <= inner)%Z).
Proof.
  intros Hpos. destruct (wrap_returns text Hpos)
    as (wrapped & Hwrap & Hfit & Hnl & Hvis).
  exists wrapped. split; [exact Hwrap|].
  apply Forall_concat in Hnl.
  destruct wrapped as [|l ls]; simpl.
  - split; [discriminate|]. split.
    + constructor; [|constructor]. split; [simpl; lia|constructor].
    + intros _. rewrite <- Hvis. simpl. lia.
  - split; [discriminate|]. split.
    + apply Forall_forall. intros line Hin. split.
      * rewrite Forall_forall in Hfit. now apply Hfit.
      * rewrite Forall_forall in Hnl. now apply Hnl.
    + intros Hone. destruct ls; [|simpl in Hone; lia].
      rewrite <- Hvis. simpl. rewrite app_nil_r.
      inversion Hfit; subst. pose proof (visible_length l). lia.
Qed.

Lemma wrap_block_ok text :
  exists block,
    ReportGenerator.wrap_block (VStr text) = Ok block
    /\ block <> []
    /\ Forall canvas_line block
    /\ ((66 < Z.of_nat (length (visible text)))%Z -> 2 <= length block).
Proof.
  unfold ReportGenerator.wrap_block, ReportGenerator.wrap_value.
  destruct (@or_blank_wrap text (ReportGenerator.width - 4) ltac:(reflexivity))
    as (wrapped & -> & Hne & Hall & Hone).
  cbn [obind]. eexists. split; [reflexivity|]. split; [|split].
  - destruct (ReportGenerator.or_blank wrapped); [congruence|discriminate].
  - apply Forall_map. eapply Forall_impl; [|exact Hall].
    intros line [Hfit Hnl]. split.
    + rewrite !length_app.
      change (length (Str.lit "| ")) with 2.
      change (length (Str.lit " |")) with 2.
      pose proof (length_ljust line Hfit). unfold ReportGenerator.width in *.
      lia.
    + auto 6 with canvas.
  - intros Hlong. rewrite length_map.
    destruct (Nat.le_gt_cases (length (ReportGenerator.or_blank wrapped)) 1)
      as [Hle|Hgt]; [|lia].
    specialize (Hone Hle). unfold ReportGenerator.width in Hone. lia.
Qed.

(** A description whose extent is more than the 66 columns between the
    bars takes two rows or more. *)
Lemma wrap_block_long text block :
  66 < extent text ->
  ReportGenerator.wrap_block (VStr text) = Ok block ->
  2 <= length block.
Proof.
  intros Hlong. unfold ReportGenerator.wrap_block, ReportGenerator.wrap_value.
  destruct (Textwrap.wrap text (ReportGenerator.width - 4))
    as [wrapped|e] eqn:Hwrap; [|discriminate].
  cbn [obind]. intros Heq. inversion Heq; subst block. rewrite length_map.
  assert (Hrows : 2 <= length wrapped).
  { apply wrap_long_text with (text := text)
                               (width := (ReportGenerator.width - 4)%Z);
      [reflexivity|exact Hlong|exact Hwrap]. }
  destruct wrapped as [|l ls]; [simpl in Hrows; lia|exact Hrows].
Qed.

Lemma wrap_lines_ok prefix text :
  (Z.of_nat (length prefix) <= 66)%Z -> no_newline prefix ->
  exists lines,
    ReportGenerator.wrap_lines prefix (VStr text) = Ok lines
    /\ lines <> []
    /\ Forall canvas_line lines.
Proof.
  intros Hprefix Hnl. unfold ReportGenerator.wrap_lines.
  cbv zeta. unfold ReportGenerator.wrap_value.
  set (inner := (ReportGenerator.width - Z.of_nat (length prefix) - 3)%Z).
  assert (Hinner : (0 < inner)%Z)
    by (subst inner; unfold ReportGenerator.width; lia).
  destruct (or_blank_wrap text Hinner) as (wrapped & -> & Hne & Hall & _).
  cbn [obind].
  destruct (ReportGenerator.or_blank wrapped) as [|first more]; [congruence|].
  eexists. split; [reflexivity|]. split; [discriminate|].
  assert (Hline : forall lead line,
            length lead = length prefix -> no_newline lead ->
            (Z.of_nat (length line) <= inner)%Z /\ no_newline line ->
            canvas_line (Str.lit "| " ++ lead ++ Str.ljust line inner
                         ++ Str.lit "|")).
  { intros lead line Hlen Hlead [Hfit Hline]. split.
    - rewrite !length_app.
      change (length (Str.lit "| ")) with 2.
      change (length (Str.lit "|")) with 1.
      pose proof (length_ljust line Hfit). subst inner.
      unfold ReportGenerator.width in *. lia.
    - auto 6 with canvas. }
  inversion Hall as [|? ? Hfirst Hmore]; subst.
  constructor; [now apply Hline|].
  apply Forall_map. eapply Forall_impl; [|exact Hmore].
  intros line Hl. apply Hline; trivial.
  - apply length_rep.
  - apply no_newline_rep_space.
Qed.

(** Anything but text makes [wrap_lines] raise. *)
Lemma wrap_lines_none prefix :
  ReportGenerator.wrap_lines prefix VNone
  = Raise (AttributeError
             (Str.lit "'NoneType' object has no attribute 'expandtabs'")).
Proof. reflexivity. Qed.

(** *** The block of one result *)


Lemma canvas_status_to_dict r :
  ReportGenerator.canvas_status (VDict (TestResult.to_dict r))
  = Ok (canvas_word (TestResult.status r)).
Proof. destruct r as [n d st ms det u ts e]. now destruct st. Qed.

(** The block of a result read from its dictionary. *)
Lemma canvas_result_to_dict r :
  ReportGenerator.canvas_result (VDict (TestResult.to_dict r))
  = let* detail_lines :=
      ReportGenerator.wrap_lines (Str.lit "Detail: ")
                                 (VStr (TestResult.details r)) in
    let* link_lines :=
      ReportGenerator.wrap_lines (Str.lit "Link: ")
                                 (Value.of_opt_str (TestResult.url r)) in
    Ok (ReportGenerator.center_line (canvas_heading r)
        :: detail_lines ++ link_lines ++ [ReportGenerator.border]).
Proof.
  unfold ReportGenerator.canvas_result. rewrite canvas_status_to_dict.
  destruct r as [n d st ms det u ts e]. reflexivity.
Qed.

Lemma canvas_word_length st : length (canvas_word st) = 4.
Proof. now destruct st. Qed.

Lemma canvas_word_no_newline st : no_newline (canvas_word st).
Proof. destruct st; repeat constructor; discriminate. Qed.

Lemma canvas_heading_length r :
  length (canvas_heading r) = 9 + length (TestResult.name r).
Proof.
  unfold canvas_heading. rewrite !length_app, canvas_word_length. reflexivity.
Qed.

Lemma canvas_heading_no_newline r :
  no_newline (TestResult.name r) -> no_newline (canvas_heading r).
Proof.
  intros Hname. unfold canvas_heading.
  repeat apply no_newline_app; trivial using canvas_word_no_newline;
    repeat constructor; discriminate.
Qed.

(** A result whose url is set and whose heading fits gets a block of
    well-formed lines that ends with the border. *)
Lemma canvas_result_ok r u :
  TestResult.url r = Some u ->
  (Z.of_nat (length (TestResult.name r)) <= 59)%Z ->
  no_newline (TestResult.name r) ->
  exists body,
    ReportGenerator.canvas_result (VDict (TestResult.to_dict r))
    = Ok (body ++ [ReportGenerator.border])
    /\ Forall canvas_line body.
Proof.
  intros Hurl Hfit Hnl. rewrite canvas_result_to_dict, Hurl.
  destruct (@wrap_lines_ok (Str.lit "Detail: ") (TestResult.details r))
    as (dl & -> & _ & Hdl); [simpl; lia|repeat constructor; discriminate|].
  destruct (@wrap_lines_ok (Str.lit "Link: ") u)
    as (ll & Hll & _ & Hlink); [simpl; lia|repeat constructor; discriminate|].
  simpl Value.of_opt_str. rewrite Hll. cbn [obind].
  exists (ReportGenerator.center_line (canvas_heading r) :: dl ++ ll).
  split.
  - now rewrite <- app_comm_cons, <- app_assoc.
  - constructor.
    + apply center_line_canvas_line.
      * rewrite canvas_heading_length. lia.
      * now apply canvas_heading_no_newline.
    + apply Forall_app. now split.
Qed.

(** A result whose url is [None] makes the block raise: the [get] with
    default finds the key, and hands [None] to [textwrap.wrap]. *)
Lemma canvas_result_null_url r :
  TestResult.url r = None ->
  ReportGenerator.canvas_result (VDict (TestResult.to_dict r))
  = Raise (AttributeError
             (Str.lit "'NoneType' object has no attribute 'expandtabs'")).
Proof.
  intros Hurl. rewrite canvas_result_to_dict, Hurl.
  destruct (@wrap_lines_ok (Str.lit "Detail: ") (TestResult.details r))
    as (dl & -> & _); [simpl; lia|repeat constructor; discriminate|].
  reflexivity.
Qed.

(** A dictionary without the key [url] gets the line for [n/a]. *)
Lemma canvas_link_absent (result : Dict.t pyval) :
  Dict.get (Str.lit "url") result = None ->
  (let* url := Dyn.get (VDict result) (Str.lit "url") (VStr (Str.lit "n/a")) in
   ReportGenerator.wrap_lines (Str.lit "Link: ") url)
  = Ok [Str.lit "| Link: n/a" ++ Str.rep Str.space 58 ++ Str.lit "|"].
Proof.
  intros Habsent. unfold Dyn.get, Dict.get_default. rewrite Habsent.
  reflexivity.
Qed.

(** *** All the blocks *)

Lemma omap_canvas_result_ok (results : list TestResult.t) :
  Forall (fun r => TestResult.url r <> None
                   /\ (Z.of_nat (length (TestResult.name r)) <= 59)%Z
                   /\ no_newline (TestResult.name r)) results ->
  exists blocks,
    omap ReportGenerator.canvas_result
         (map (fun r => VDict (TestResult.to_dict r)) results) = Ok blocks
    /\ Forall canvas_line (concat blocks)
    /\ exists body,
         ReportGenerator.border :: concat blocks
         = body ++ [ReportGenerator.border].
Proof.
  induction results as [|r results IH]; intros Hall.
  - exists []. repeat split; [constructor|]. now exists [].
  - inversion Hall as [|? ? (Hurl & Hfit & Hnl) Hrest]; subst.
    destruct (IH Hrest) as (blocks & Hblocks & Hlines & body2 & Hbody2).
    destruct (TestResult.url r) as [u|] eqn:Hu; [|congruence].
    destruct (canvas_result_ok r Hu Hfit Hnl) as (body & Hbody & Hbodyok).
    exists ((body ++ [ReportGenerator.border]) :: blocks).
    cbn [map omap]. rewrite Hbody, Hblocks. cbn [obind].
    split; [reflexivity|]. split.
    + simpl. repeat (apply Forall_app; split); trivial.
      constructor; [apply border_canvas_line|constructor].
    + exists (ReportGenerator.border :: body ++ body2). simpl.
      rewrite <- !app_assoc. simpl. now rewrite Hbody2.
Qed.

Lemma omap_canvas_result_null_url (results : list TestResult.t) :
  Exists (fun r => TestResult.url r = None) results ->
  omap ReportGenerator.canvas_result
       (map (fun r => VDict (TestResult.to_dict r)) results)
  = Raise (AttributeError
             (Str.lit "'NoneType' object has no attribute 'expandtabs'")).
Proof.
  induction results as [|r results IH]; intros Hex; [inversion Hex|].
  cbn [map omap].
  destruct (TestResult.url r) as [u|] eqn:Hu.
  - rewrite canvas_result_to_dict, Hu.
    destruct (@wrap_lines_ok (Str.lit "Detail: ") (TestResult.details r))
      as (dl & -> & _); [simpl; lia|repeat constructor; discriminate|].
    destruct (@wrap_lines_ok (Str.lit "Link: ") u)
      as (ll & Hll & _); [simpl; lia|repeat constructor; discriminate|].
    simpl Value.of_opt_str. rewrite Hll. cbn [obind].
    rewrite IH; [reflexivity|].
    inversion Hex as [? ? Hhere|? ? Hlater]; subst; [congruence|exact Hlater].
  - now rewrite (canvas_result_null_url r Hu).
Qed.

(** *** The canvas of a run outcome *)

(** The canvas of a run outcome, its dictionary look-ups done. *)
Lemma canvas_lines_run_outcome (b : TestBundle.t) (config : Dict.t pyval)
  (results : list TestResult.t) (t : float) :
  exists summary duration : pystr,
    ReportGenerator.canvas_lines (TestRunner.run_outcome b config results t)
    = let* block := ReportGenerator.wrap_block (VStr (TestBundle.description b)) in
      let* summary_lines :=
        ReportGenerator.wrap_lines (Str.lit "Summary: ") (VStr summary) in
      let* duration_lines :=
        ReportGenerator.wrap_lines (Str.lit "Duration: ") (VStr duration) in
      let* blocks :=
        omap ReportGenerator.canvas_result
             (map (fun r => VDict (TestResult.to_dict r)) results) in
      Ok ([ReportGenerator.border;
           ReportGenerator.center_line
             (Str.lit "Test Canvas: " ++ TestBundle.name b)]
          ++ block ++ [ReportGenerator.border] ++ summary_lines
          ++ duration_lines ++ [ReportGenerator.border] ++ concat blocks).
Proof. do 2 eexists. reflexivity. Qed.


(** C6, amended.  Take the outcome of a run in which every result has a
    url, the bundle name has at most 55 characters and every result name
    at most 59, none with a line break (so that the title and the
    headings fit between the bars).  Then the canvas is rendered, every
    line of it has exactly 70 characters, and the first and the last line
    are the border of 68 dashes between two plus signs.  The description
    block follows the title; it has more than one line whenever the
    description is longer than 66 characters, its tabs expanded and the
    white space at its two ends left out: so whenever a description that
    neither begins nor ends with white space is longer than 66
    characters. *)
Theorem canvas_lines_are_70_wide (b : TestBundle.t) (config : Dict.t pyval)
  (results : list TestResult.t) (t : float) :
  (Z.of_nat (length (TestBundle.name b)) <= 55)%Z ->
  no_newline (TestBundle.name b) ->
  Forall showable results ->
  exists canvas block rest,
    ReportGenerator.generate_canvas_report
      (TestRunner.run_outcome b config results t) = Ok canvas
    /\ Forall (fun line => length line = 70) (Str.split_on 10%N canvas)
    /\ ReportGenerator.border
       = Str.lit "+" ++ Str.rep 45%N 68 ++ Str.lit "+"
    /\ hd_error (Str.split_on 10%N canvas) = Some ReportGenerator.border
    /\ last (Str.split_on 10%N canvas) [] = ReportGenerator.border
    /\ ReportGenerator.wrap_block (VStr (TestBundle.description b)) = Ok block
    /\ Str.split_on 10%N canvas
       = ReportGenerator.border
         :: ReportGenerator.center_line
              (Str.lit "Test Canvas: " ++ TestBundle.name b)
         :: block ++ ReportGenerator.border :: rest
    /\ (66 < extent (TestBundle.description b) -> 2 <= length block)
    /\ (strip (TestBundle.description b) = TestBundle.description b ->
        66 < length (TestBundle.description b) ->
        2 <= length block).
Proof.
  intros Hname Hnamenl Hresults.
  unfold ReportGenerator.generate_canvas_report.
  destruct (canvas_lines_run_outcome b config results t)
    as (summary & duration & ->).
  destruct (wrap_block_ok (TestBundle.description b))
    as (block & Hblock & _ & Hblockok & _).
  destruct (@wrap_lines_ok (Str.lit "Summary: ") summary)
    as (sl & -> & _ & Hsl); [simpl; lia|repeat constructor; discriminate|].
  destruct (@wrap_lines_ok (Str.lit "Duration: ") duration)
    as (dl & -> & _ & Hdl); [simpl; lia|repeat constructor; discriminate|].
  destruct (omap_canvas_result_ok Hresults)
    as (blocks & -> & Hblocks & body & Hbody).
  rewrite Hblock. cbn [obind].
  set (title := ReportGenerator.center_line
                  (Str.lit "Test Canvas: " ++ TestBundle.name b)).
  set (rest := sl ++ dl ++ [ReportGenerator.border] ++ concat blocks).
  set (lines := [ReportGenerator.border; title] ++ block
                ++ [ReportGenerator.border] ++ rest).
  assert (Htitle : canvas_line title).
  { subst title. apply center_line_canvas_line.
    - rewrite length_app. change (length (Str.lit "Test Canvas: ")) with 13.
      lia.
    - apply no_newline_app; [repeat constructor; discriminate|exact Hnamenl]. }
  assert (Hlines : Forall canvas_line lines).
  { subst lines rest.
    apply Forall_app; split;
      [constructor; [apply border_canvas_line|now constructor]|].
    apply Forall_app; split; [exact Hblockok|].
    apply Forall_app; split;
      [constructor; [apply border_canvas_line|constructor]|].
    apply Forall_app; split; [exact Hsl|].
    apply Forall_app; split; [exact Hdl|].
    apply Forall_app; split; [|exact Hblocks].
    constructor; [apply border_canvas_line|constructor]. }
  assert (Hsplit : Str.split_on 10%N (Str.join ReportGenerator.nl lines) = lines).
  { apply split_join_lines; [discriminate|].
    eapply Forall_impl; [|exact Hlines]. now intros line [_ Hnl]. }
  exists (Str.join ReportGenerator.nl lines), block, rest.
  split; [reflexivity|]. rewrite Hsplit.
  split; [|split; [reflexivity|split; [reflexivity|split]]].
  - eapply Forall_impl; [|exact Hlines]. intros line [Hlen _].
    unfold ReportGenerator.width in Hlen. lia.
  - assert (Hend : lines
                   = ([ReportGenerator.border; title] ++ block
                      ++ [ReportGenerator.border] ++ sl ++ dl ++ body)
                     ++ [ReportGenerator.border]).
    { subst lines rest.
      change ([ReportGenerator.border] ++ concat blocks)
        with (ReportGenerator.border :: concat blocks).
      rewrite Hbody. repeat rewrite <- app_assoc. reflexivity. }
    rewrite Hend. apply last_last.
  - split; [reflexivity|]. split; [reflexivity|].
    assert (Hrows : 66 < extent (TestBundle.description b) ->
                    2 <= length block).
    { intros Hlong. now apply wrap_block_long with (TestBundle.description b). }
    split; [exact Hrows|].
    intros Htrimmed Hlong. apply Hrows.
    pose proof (trimmed_extent Htrimmed). lia.
Qed.

(** C7.  The canvas of a run outcome cannot be rendered as soon as one
    result has no url: [result.get('url', 'n/a')] finds the key, whose
    value is [None], and [textwrap.wrap] raises on it.  Such results are
    the ones [execute_bundle] makes for executors that raised. *)
Theorem canvas_raises_on_null_url (b : TestBundle.t) (config : Dict.t pyval)
  (results : list TestResult.t) (t : float) :
  Exists (fun r => TestResult.url r = None) results ->
  ReportGenerator.generate_canvas_report
    (TestRunner.run_outcome b config results t)
  = Raise (AttributeError
             (Str.lit "'NoneType' object has no attribute 'expandtabs'")).
Proof.
  intros Hnull. unfold ReportGenerator.generate_canvas_report.
  destruct (canvas_lines_run_outcome b config results t)
    as (summary & duration & ->).
  destruct (wrap_block_ok (TestBundle.description b)) as (block & -> & _).
  destruct (@wrap_lines_ok (Str.lit "Summary: ") summary)
    as (sl & -> & _); [simpl; lia|repeat constructor; discriminate|].
  destruct (@wrap_lines_ok (Str.lit "Duration: ") duration)
    as (dl & -> & _); [simpl; lia|repeat constructor; discriminate|].
  now rewrite (omap_canvas_result_null_url Hnull).
Qed.

End CanvasFacts.

Section SimulatedCanvas.
#[local] Existing Instance Sim.host.

(** The canvas of a run of the e-commerce bundle on the simulated host:
    seven results with their links, a description of 75 characters in
    two rows or more.  The description of the API health bundle has 67
    characters, and takes two rows or more as well. *)
Lemma canvas_ecommerce_run :
  exists out w' canvas block block',
    TestRunner.run_bundle (H := Sim.host) Sim.registry
      (Str.lit "e-commerce_checkout_flow") Sim.sample_config 0%float
    = (Ok out, w')
    /\ ReportGenerator.generate_canvas_report out = Ok canvas
    /\ Forall (fun line => length line = 70) (Str.split_on 10%N canvas)
    /\ hd_error (Str.split_on 10%N canvas) = Some ReportGenerator.border
    /\ last (Str.split_on 10%N canvas) [] = ReportGenerator.border
    /\ length (TestBundle.description (EcommerceBundle.bundle (H := Sim.host)))
       = 75
    /\ ReportGenerator.wrap_block
         (VStr (TestBundle.description (EcommerceBundle.bundle (H := Sim.host))))
       = Ok block
    /\ 2 <= length block
    /\ length (TestBundle.description (APIHealthBundle.bundle (H := Sim.host)))
       = 67
    /\ ReportGenerator.wrap_block
         (VStr (TestBundle.description (APIHealthBundle.bundle (H := Sim.host))))
       = Ok block'
    /\ 2 <= length block'.
Proof.
  destruct (@canvas_lines_are_70_wide Sim.host
              (APIHealthBundle.bundle (H := Sim.host)) [] [] 0%float)
    as (_ & block' & _ & _ & _ & _ & _ & _ & Hblock' & _ & _ & Hlong');
    [vm_compute; discriminate|repeat constructor; discriminate|constructor|].
  pose (b := EcommerceBundle.bundle (H := Sim.host)).
  pose (results := Sim.results_of
                     (TestBundle.execute_bundle b Sim.sample_config 0%float)).
  destruct (@canvas_lines_are_70_wide Sim.host b Sim.sample_config results
              3.5%float)
    as (canvas & block & rest & Hcanvas & Hwide & _ & Hfirst & Hlast & Hblock
        & _ & _ & Hlong).
  - vm_compute. discriminate.
  - repeat constructor; discriminate.
  - apply Forall_forall. intros r Hin. vm_compute in Hin.
    repeat (destruct Hin as [<- | Hin];
            [split; [discriminate|split; [vm_compute; discriminate|
                                          repeat constructor; discriminate]]|]).
    contradiction.
  - exists (TestRunner.run_outcome b Sim.sample_config results 3.5%float),
           3.5%float, canvas, block, block'.
    split; [vm_compute; reflexivity|].
    split; [exact Hcanvas|]. split; [exact Hwide|]. split; [exact Hfirst|].
    split; [exact Hlast|]. split; [reflexivity|]. split; [exact Hblock|].
    split; [apply Hlong; [reflexivity|vm_compute; lia]|].
    split; [reflexivity|]. split; [exact Hblock'|].
    apply Hlong'; [reflexivity|vm_compute; lia].
Defined.

(** The claim C6 as stated fails on a bundle whose name has 60
    characters and whose description is 67 spaces: the canvas has seven
    lines, the title line is 75 characters wide, and the description
    block is the single line between the title and the second border. *)
Lemma canvas_long_name_is_wider :
  let out := TestRunner.run_outcome (H := Sim.host) Sim.long_name_suite [] []
               0%float in
  length (TestBundle.name Sim.long_name_suite) = 60
  /\ length (TestBundle.description Sim.long_name_suite) = 67
  /\ exists canvas,
       ReportGenerator.generate_canvas_report out = Ok canvas
       /\ map (@length pychar) (Str.split_on 10%N canvas)
          = [70; 75; 70; 70; 70; 70; 70]
       /\ nth_error (Str.split_on 10%N canvas) 2
          = Some (Str.lit "| " ++ Str.rep Str.space 66 ++ Str.lit " |")
       /\ nth_error (Str.split_on 10%N canvas) 3
          = Some ReportGenerator.border.
Proof.
  split; [reflexivity|]. split; [reflexivity|].
  eexists. split; [vm_compute; reflexivity|].
  split; [reflexivity|]. split; reflexivity.
Qed.

(** The run of "Sample Suite", in which the executor of [Check B]
    raises, returns an outcome that the canvas renderer cannot show. *)
Lemma canvas_raises_on_sample_run :
  exists out w',
    TestRunner.run_bundle (H := Sim.host) Sim.registry
      (Str.lit "sample_suite") Sim.sample_config 0%float = (Ok out, w')
    /\ ReportGenerator.generate_canvas_report out
       = Raise (AttributeError
                  (Str.lit "'NoneType' object has no attribute 'expandtabs'")).
Proof.
  exists (TestRunner.run_outcome (H := Sim.host) Sim.sample_suite
            Sim.sample_config
            (Sim.results_of
               (TestBundle.execute_bundle Sim.sample_suite Sim.sample_config
                  0%float))
            0%float), 0%float.
  split; [vm_compute; reflexivity|].
  apply canvas_raises_on_null_url.
  apply Exists_exists. eexists. split; [right; left; reflexivity|reflexivity].
Defined.

End SimulatedCanvas.

(* ================================================================== *)
(** ** The markers of the three reports *)

Section MarkerFacts.
Context `{Host}.
Implicit Types (r : TestResult.t).


Lemma text_result_to_dict r :
  ReportGenerator.text_result (VDict (TestResult.to_dict r))
  = Ok (text_block r).
Proof. destruct r as [n d st ms det u ts e]. now destruct st. Qed.


Lemma omap_text_result (results : list TestResult.t) :
  omap ReportGenerator.text_result
       (map (fun r => VDict (TestResult.to_dict r)) results)
  = Ok (map text_block results).
Proof.
  induction results as [|r results IH]; [reflexivity|].
  cbn [map omap]. now rewrite text_result_to_dict, IH.
Qed.


(** The plain-text report and the HTML summary of a run outcome: a head
    that depends on the bundle and the statistics, then the blocks of
    the results in order. *)
Lemma text_report_run_outcome (b : TestBundle.t) (config : Dict.t pyval)
  (results : list TestResult.t) (t : float) :
  exists head,
    ReportGenerator.generate_text_report
      (TestRunner.run_outcome b config results t)
    = Ok (Str.join ReportGenerator.nl
            (head ++ concat (map text_block results)
             ++ [ReportGenerator.nl ++ ReportGenerator.banner])).
Proof.
  eexists. unfold ReportGenerator.generate_text_report.
  change (Dyn.item (TestRunner.run_outcome b config results t)
                   (Str.lit "results"))
    with (Ok (VList (map (fun r => VDict (TestResult.to_dict r)) results))).
  cbn [obind Dyn.iter Dyn.item Dict.get]. cbn [Dyn.iter].
  rewrite omap_text_result. reflexivity.
Qed.



End MarkerFacts.


(* ================================================================== *)
(** ** JSON: what is written is read back *)

Section JsonTextFacts.
Context `{Host}.
Implicit Types (c : pychar) (text s acc rest tail : pystr).


(** *** Hexadecimal escapes *)

Lemma hex_value_digit (d : N) :
  (d < 16)%N -> Json.hex_value (Json.hex_digit d) = Some d.
Proof.
  intros Hd.
  assert (Hcases : In d [0; 1; 2; 3; 4; 5; 6; 7; 8; 9; 10; 11; 12; 13; 14; 15]%N).
  { simpl. lia. }
  simpl in Hcases.
  repeat (destruct Hcases as [<- | Hcases]; [reflexivity|]). contradiction.
Qed.

Lemma hex4_u_escape (n : N) tail :
  (n < 65536)%N ->
  exists h1 h2 h3 h4,
    Json.u_escape n ++ tail = 92%N :: 117%N :: h1 :: h2 :: h3 :: h4 :: tail
    /\ Json.hex4 h1 h2 h3 h4 = Some n.
Proof.
  intros Hn. do 4 eexists. split; [reflexivity|]. unfold Json.hex4.
  rewrite !hex_value_digit by (apply N.mod_lt; discriminate).
  f_equal.
  replace (n / 256)%N with (n / 16 / 16)%N by now rewrite N.Div0.div_div.
  replace (n / 4096)%N with (n / 16 / 16 / 16)%N
    by now rewrite !N.Div0.div_div.
  pose proof (N.div_mod n 16 ltac:(discriminate)).
  pose proof (N.div_mod (n / 16) 16 ltac:(discriminate)).
  pose proof (N.div_mod (n / 16 / 16) 16 ltac:(discriminate)).
  pose proof (N.div_mod (n / 16 / 16 / 16) 16 ltac:(discriminate)).
  pose proof (N.mod_lt n 16 ltac:(discriminate)).
  pose proof (N.mod_lt (n / 16) 16 ltac:(discriminate)).
  pose proof (N.mod_lt (n / 16 / 16) 16 ltac:(discriminate)).
  pose proof (N.mod_lt (n / 16 / 16 / 16) 16 ltac:(discriminate)).
  generalize dependent ((n / 16 / 16 / 16) mod 16)%N.
  generalize dependent (n / 16 / 16 / 16 / 16)%N.
  generalize dependent (n / 16 / 16 / 16)%N.
  generalize dependent ((n / 16 / 16) mod 16)%N.
  generalize dependent (n / 16 / 16)%N.
  generalize dependent ((n / 16) mod 16)%N.
  generalize dependent (n / 16)%N.
  generalize dependent (n mod 16)%N.
  intros. lia.
Qed.

(** *** Surrogate pairs *)

Lemma land_shiftl_small (a b k : N) :
  (b < 2 ^ k)%N -> N.land (N.shiftl a k) b = 0%N.
Proof.
  intros Hb. apply N.bits_inj_0. intros i. rewrite N.land_spec.
  destruct (N.lt_ge_cases i k) as [Hlow|Hhigh].
  - now rewrite N.shiftl_spec_low.
  - rewrite <- (N.mod_small b (2 ^ k)) by exact Hb.
    rewrite N.mod_pow2_bits_high by exact Hhigh. apply andb_false_r.
Qed.

Lemma lor_shiftl_small (a b k : N) :
  (b < 2 ^ k)%N -> N.lor (N.shiftl a k) b = (a * 2 ^ k + b)%N.
Proof.
  intros Hb. pose proof (land_shiftl_small a k Hb) as Hdisj.
  rewrite <- N.lxor_lor by exact Hdisj.
  rewrite <- N.add_nocarry_lxor by exact Hdisj.
  now rewrite N.shiftl_mul_pow2.
Qed.

(** The two halves the encoder makes of a character above the basic
    plane, and the character the decoder makes of them. *)
Lemma surrogate_pair c :
  (65536 <= c)%N -> (c <= 1114111)%N ->
  let n := (c - 65536)%N in
  let s1 := N.lor 55296 (N.land (N.shiftr n 10) 1023) in
  let s2 := N.lor 56320 (N.land n 1023) in
  (s1 < 65536)%N /\ (s2 < 65536)%N
  /\ Json.is_high_surrogate s1 = true
  /\ Json.is_low_surrogate s2 = true
  /\ (65536 + N.lor (N.shiftl (s1 - 55296) 10) (s2 - 56320))%N = c.
Proof.
  intros Hlow Hhigh n s1 s2.
  assert (Hn : (n < 1048576)%N) by (subst n; lia).
  assert (Hhi : N.land (N.shiftr n 10) 1023 = (n / 1024)%N).
  { change 1023%N with (N.ones 10). rewrite N.land_ones, N.shiftr_div_pow2.
    change (2 ^ 10)%N with 1024%N. apply N.mod_small.
    apply N.Div0.div_lt_upper_bound. lia. }
  assert (Hlo : N.land n 1023 = (n mod 1024)%N).
  { change 1023%N with (N.ones 10). now rewrite N.land_ones. }
  assert (Hhi_lt : (n / 1024 < 1024)%N)
    by (apply N.Div0.div_lt_upper_bound; lia).
  assert (Hlo_lt : (n mod 1024 < 1024)%N) by (apply N.mod_lt; discriminate).
  assert (Hs1 : s1 = (55296 + n / 1024)%N).
  { subst s1. rewrite Hhi. change 55296%N with (N.shiftl 54 10).
    rewrite lor_shiftl_small by exact Hhi_lt. reflexivity. }
  assert (Hs2 : s2 = (56320 + n mod 1024)%N).
  { subst s2. rewrite Hlo. change 56320%N with (N.shiftl 55 10).
    rewrite lor_shiftl_small by exact Hlo_lt. reflexivity. }
  rewrite Hs1, Hs2. unfold Json.is_high_surrogate, Json.is_low_surrogate.
  repeat split; try lia.
  - apply andb_true_iff. split; apply N.leb_le; lia.
  - apply andb_true_iff. split; apply N.leb_le; lia.
  - replace (55296 + n / 1024 - 55296)%N with (n / 1024)%N by lia.
    replace (56320 + n mod 1024 - 56320)%N with (n mod 1024)%N by lia.
    rewrite lor_shiftl_small by exact Hlo_lt.
    pose proof (N.div_mod n 1024 ltac:(discriminate)).
    change (2 ^ 10)%N with 1024%N. subst n. lia.
Qed.

(** *** Text *)

Lemma scalar_not_high c :
  scalar_char c = true -> Json.is_high_surrogate c = false.
Proof.
  unfold scalar_char, Json.is_high_surrogate. intros Hc.
  apply orb_true_iff in Hc as [Hlow | Hhigh].
  - apply N.ltb_lt in Hlow. apply andb_false_iff. left. apply N.leb_gt. lia.
  - apply andb_true_iff in Hhigh as [Hhigh _]. apply N.leb_le in Hhigh.
    apply andb_false_iff. right. apply N.leb_gt. lia.
Qed.

(** After a lone escape the scan goes on behind it. *)
Lemma scan_lone_escape (uni : N) h1 h2 h3 h4 tail acc :
  Json.hex4 h1 h2 h3 h4 = Some uni ->
  Json.is_high_surrogate uni = false ->
  Json.scanstring (92%N :: 117%N :: h1 :: h2 :: h3 :: h4 :: tail) acc
  = Json.scanstring tail (acc ++ [uni]).
Proof.
  intros Hhex Hnot. cbn [Json.scanstring]. simpl N.eqb. cbv iota.
  rewrite Hhex, Hnot. cbn [andb].
  destruct tail as [|b [|u [|g1 [|g2 [|g3 [|g4 [|next rest3]]]]]]]; reflexivity.
Qed.

(** What the encoder writes for one character is read as this
    character. *)
Lemma scan_escaped_char c tail acc :
  scalar_char c = true -> tail <> [] ->
  Json.scanstring (Json.escape_char c ++ tail) acc
  = Json.scanstring tail (acc ++ [c]).
Proof.
  intros Hscalar Htail. unfold Json.escape_char.
  destruct (N.eqb_spec c 34) as [->|H34]; [reflexivity|].
  destruct (N.eqb_spec c 92) as [->|H92]; [reflexivity|].
  destruct (N.eqb_spec c 10) as [->|H10]; [reflexivity|].
  destruct (N.eqb_spec c 13) as [->|H13]; [reflexivity|].
  destruct (N.eqb_spec c 9) as [->|H9]; [reflexivity|].
  destruct (N.eqb_spec c 8) as [->|H8]; [reflexivity|].
  destruct (N.eqb_spec c 12) as [->|H12]; [reflexivity|].
  destruct ((32 <=? c) && (c <=? 126))%N eqn:Hprint.
  - apply andb_true_iff in Hprint as [Hlo _]. apply N.leb_le in Hlo.
    cbn [app Json.scanstring].
    destruct (N.eqb_spec c 34); [contradiction|].
    destruct (N.eqb_spec c 92); [contradiction|].
    destruct (N.ltb_spec c 32); [lia|reflexivity].
  - destruct (N.ltb_spec c 65536) as [Hbasic|Hastral].
    + destruct (hex4_u_escape tail Hbasic) as (h1 & h2 & h3 & h4 & -> & Hhex).
      apply scan_lone_escape; [exact Hhex|now apply scalar_not_high].
    + assert (Hmax : (c <= 1114111)%N).
      { unfold scalar_char in Hscalar.
        apply orb_true_iff in Hscalar as [Hlow | Hhigh].
        - apply N.ltb_lt in Hlow. lia.
        - apply andb_true_iff in Hhigh as [_ Hhigh]. now apply N.leb_le. }
      cbv zeta.
      destruct (surrogate_pair Hastral Hmax)
        as (Hs1 & Hs2 & Hhigh & Hlow & Hjoin).
      cbv zeta in Hs1, Hs2, Hhigh, Hlow, Hjoin.
      set (s1 := N.lor 55296 (N.land (N.shiftr (c - 65536) 10) 1023)) in *.
      set (s2 := N.lor 56320 (N.land (c - 65536) 1023)) in *.
      rewrite <- app_assoc.
      destruct (hex4_u_escape (Json.u_escape s2 ++ tail) Hs1)
        as (h1 & h2 & h3 & h4 & -> & Hhex1).
      destruct (hex4_u_escape tail Hs2) as (g1 & g2 & g3 & g4 & -> & Hhex2).
      destruct tail as [|next rest3]; [congruence|].
      cbn [Json.scanstring]. simpl N.eqb. cbv iota.
      rewrite Hhex1, Hhigh. cbn [andb]. rewrite Hhex2, Hlow, Hjoin.
      reflexivity.
Qed.

(** A text of scalar values between quotes is read back as it is. *)
Lemma scanstring_escaped text : forall acc rest,
  scalar_text text ->
  Json.scanstring (flat_map Json.escape_char text ++ 34%N :: rest) acc
  = Ok (acc ++ text, rest).
Proof.
  induction text as [|c text IH]; intros acc rest Hscalar.
  - simpl. now rewrite app_nil_r.
  - unfold scalar_text in Hscalar. simpl in Hscalar.
    apply andb_true_iff in Hscalar as [Hc Hrest].
    cbn [flat_map]. rewrite <- app_assoc, scan_escaped_char; trivial.
    + rewrite IH by exact Hrest. now rewrite <- app_assoc.
    + destruct (flat_map Json.escape_char text); discriminate.
Qed.

End JsonTextFacts.

Section JsonAtomFacts.
Context `{Host}.
Implicit Types (c : pychar) (s rest word : pystr).


(** *** Extending the text behind a number or a constant *)

Lemma span_digits_extend s rest :
  ends_value rest = true ->
  Json.span_digits (s ++ rest)
  = (fst (Json.span_digits s), snd (Json.span_digits s) ++ rest).
Proof.
  intros Hend. induction s as [|c s IH].
  - destruct rest as [|c rest]; [reflexivity|]. simpl in *.
    apply orb_true_iff in Hend as [Hc | Hc]; apply N.eqb_eq in Hc; now subst c.
  - simpl. destruct (Json.is_digit c); [|reflexivity].
    rewrite IH. now destruct (Json.span_digits s).
Qed.

Lemma ends_value_head c rest :
  ends_value (c :: rest) = true ->
  Json.is_digit c = false /\ (c =? 45)%N = false /\ (c =? 46)%N = false
  /\ (c =? 101)%N = false /\ (c =? 69)%N = false.
Proof.
  simpl. intros Hend.
  apply orb_true_iff in Hend as [Hc | Hc]; apply N.eqb_eq in Hc; subst c;
    now repeat split.
Qed.

Lemma match_integer_extend s rest :
  ends_value rest = true ->
  Json.match_integer (s ++ rest)
  = match Json.match_integer s with
    | Some (integer, r) => Some (integer, r ++ rest)
    | None => None
    end.
Proof.
  intros Hend.
  assert (Hbody : forall sign body,
    match body ++ rest with
    | c :: rest0 =>
        if (c =? 48)%N then Some (sign ++ [48%N], rest0)
        else if Json.is_digit c then
          let (ds, rest') := Json.span_digits rest0 in
          Some (sign ++ c :: ds, rest')
        else None
    | [] => None
    end
    = match match body with
            | c :: rest0 =>
                if (c =? 48)%N then Some (sign ++ [48%N], rest0)
                else if Json.is_digit c then
                  let (ds, rest') := Json.span_digits rest0 in
                  Some (sign ++ c :: ds, rest')
                else None
            | [] => None
            end with
      | Some (integer, r) => Some (integer, r ++ rest)
      | None => None
      end).
  { intros sign [|c body].
    - destruct rest as [|c rest]; [reflexivity|]. cbn [app].
      destruct (ends_value_head _ _ Hend) as (Hd & _).
      destruct (N.eqb_spec c 48) as [->|_]; [discriminate|]. now rewrite Hd.
    - cbn [app]. destruct (c =? 48)%N; [reflexivity|].
      destruct (Json.is_digit c); [|reflexivity].
      rewrite span_digits_extend by exact Hend.
      now destruct (Json.span_digits body). }
  unfold Json.match_integer. destruct s as [|c s].
  - destruct rest as [|c rest]; [reflexivity|]. cbn [app].
    destruct (ends_value_head _ _ Hend) as (Hd & Hminus & _).
    rewrite Hminus. apply (Hbody [] []).
  - cbn [app]. destruct (c =? 45)%N.
    + apply (Hbody [45%N] s).
    + apply (Hbody [] (c :: s)).
Qed.

Lemma match_frac_extend s rest :
  ends_value rest = true ->
  Json.match_frac (s ++ rest)
  = (fst (Json.match_frac s), snd (Json.match_frac s) ++ rest).
Proof.
  intros Hend. unfold Json.match_frac. destruct s as [|c s].
  - destruct rest as [|c rest]; [reflexivity|]. cbn [app].
    destruct (ends_value_head _ _ Hend) as (_ & _ & Hdot & _).
    now rewrite Hdot.
  - cbn [app]. destruct (c =? 46)%N; [|reflexivity].
    rewrite span_digits_extend by exact Hend.
    destruct (Json.span_digits s) as [[|d ds] r]; reflexivity.
Qed.

Lemma match_exp_extend s rest :
  ends_value rest = true ->
  Json.match_exp (s ++ rest)
  = (fst (Json.match_exp s), snd (Json.match_exp s) ++ rest).
Proof.
  intros Hend. unfold Json.match_exp. destruct s as [|c s].
  - destruct rest as [|c rest]; [reflexivity|]. cbn [app].
    destruct (ends_value_head _ _ Hend) as (_ & _ & _ & He & HE).
    now rewrite He, HE.
  - cbn [app]. destruct ((c =? 101) || (c =? 69))%N; [|reflexivity].
    destruct s as [|d s].
    + cbn [app]. destruct rest as [|d rest]; [reflexivity|].
      destruct (ends_value_head _ _ Hend) as (Hd & Hminus & _).
      assert (Hplus : (d =? 43)%N = false).
      { simpl in Hend. apply orb_true_iff in Hend as [Hc | Hc];
          apply N.eqb_eq in Hc; now subst d. }
      rewrite Hminus, Hplus. simpl. rewrite Hd. reflexivity.
    + cbn [app]. destruct ((d =? 45) || (d =? 43))%N.
      * rewrite span_digits_extend by exact Hend.
        destruct (Json.span_digits s) as [[|x ds] r]; reflexivity.
      * change (d :: s ++ rest) with ((d :: s) ++ rest).
        rewrite (span_digits_extend (d :: s)) by exact Hend.
        destruct (Json.span_digits (d :: s)) as [[|x ds] r]; reflexivity.
Qed.

Lemma match_number_extend s rest :
  ends_value rest = true ->
  Json.match_number (s ++ rest)
  = match Json.match_number s with
    | Some (v, r) => Some (v, r ++ rest)
    | None => None
    end.
Proof.
  intros Hend. unfold Json.match_number.
  rewrite match_integer_extend by exact Hend.
  destruct (Json.match_integer s) as [[integer r0]|]; [|reflexivity].
  rewrite match_frac_extend by exact Hend.
  destruct (Json.match_frac r0) as [frac r1]. cbn [fst snd].
  rewrite match_exp_extend by exact Hend.
  destruct (Json.match_exp r1) as [exp r2]. cbn [fst snd].
  destruct frac, exp; reflexivity.
Qed.

Lemma starts_with_extend word : forall s rest r,
  Json.starts_with word s = Some r ->
  Json.starts_with word (s ++ rest) = Some (r ++ rest).
Proof.
  induction word as [|w word IH]; intros s rest r; simpl.
  - intros Heq. now inversion Heq.
  - destruct s as [|c s]; [discriminate|]. simpl.
    destruct (w =? c)%N; [apply IH|discriminate].
Qed.

(** A word without comma and new line that does not start a text does
    not start the extended text either. *)
Lemma starts_with_none_extend word : forall s rest,
  forallb (fun c => negb (c =? 44)%N && negb (c =? 10)%N) word = true ->
  ends_value rest = true ->
  Json.starts_with word s = None ->
  Json.starts_with word (s ++ rest) = None.
Proof.
  induction word as [|w word IH]; intros s rest Hword Hend; simpl;
    [discriminate|].
  simpl in Hword. apply andb_true_iff in Hword as [Hw Hword].
  destruct s as [|c s].
  - intros _. destruct rest as [|c rest]; [reflexivity|]. simpl.
    apply andb_true_iff in Hw as [Hcomma Hnl].
    simpl in Hend. apply orb_true_iff in Hend as [Hc | Hc];
      apply N.eqb_eq in Hc; subst c.
    + now destruct (w =? 44)%N.
    + now destruct (w =? 10)%N.
  - simpl. destruct (w =? c)%N; [now apply IH|reflexivity].
Qed.

(** A number or a constant read from a text is read the same way when
    the text goes on with a comma or a new line. *)
Lemma scan_atom_extend s rest v r :
  ends_value rest = true ->
  Json.scan_atom s = Ok (v, r) ->
  Json.scan_atom (s ++ rest) = Ok (v, r ++ rest).
Proof.
  intros Hend. unfold Json.scan_atom.
  repeat match goal with
  | |- context [Json.starts_with ?w s] =>
      let Hw := fresh "Hw" in
      let r0 := fresh "r0" in
      destruct (Json.starts_with w s) as [r0|] eqn:Hw;
      [rewrite (starts_with_extend _ _ rest Hw); intros Heq; inversion Heq;
       reflexivity
      |rewrite (starts_with_none_extend w s rest eq_refl Hend Hw)]
  | |- context [Json.match_number s] =>
      rewrite (match_number_extend s rest Hend);
      destruct (Json.match_number s) as [[v0 r0]|];
      [intros Heq; inversion Heq; reflexivity|]
  end.
  intros Heq. discriminate Heq.
Qed.

(** *** Integers *)


Lemma digits_fuel_acc fuel : forall n acc,
  Str.digits_fuel fuel n acc = Str.digits_fuel fuel n [] ++ acc.
Proof.
  induction fuel as [|fuel IH]; intros n acc; [reflexivity|].
  cbn [Str.digits_fuel]. destruct (n <? 10)%N; [reflexivity|].
  rewrite (IH _ (_ :: acc)), (IH _ [_]). now rewrite <- app_assoc.
Qed.

Lemma digits_value_snoc digits c :
  digits_value (digits ++ [c]) = (10 * digits_value digits + (Z.of_N c - 48))%Z.
Proof. unfold digits_value. now rewrite fold_left_app. Qed.

(** The digits of a number: all digits, no leading zero, and the
    number as value. *)
Lemma digits_fuel_spec fuel : forall n,
  0 < fuel -> (n < 2 ^ N.of_nat fuel)%N ->
  let digits := Str.digits_fuel fuel n [] in
  forallb Json.is_digit digits = true
  /\ digits_value digits = Z.of_N n
  /\ exists d more, digits = d :: more /\ ((d =? 48)%N = true -> n = 0%N).
Proof.
  induction fuel as [|fuel IH]; intros n Hfuel Hn; [lia|].
  cbv zeta. cbn [Str.digits_fuel].
  -
    pose proof (N.mod_lt n 10 ltac:(discriminate)) as Hmod.
    destruct (N.ltb_spec n 10) as [Hsmall|Hbig].
    + rewrite N.mod_small by exact Hsmall. split; [|split].
      * cbn [forallb]. unfold Json.is_digit.
        rewrite andb_true_r. apply andb_true_iff.
        split; apply N.leb_le; lia.
      * unfold digits_value. cbn [fold_left]. lia.
      * exists (48 + n)%N, []. split; [reflexivity|].
        intros Hzero. apply N.eqb_eq in Hzero. lia.
    + rewrite digits_fuel_acc.
      assert (Hdiv : (n / 10 < 2 ^ N.of_nat fuel)%N).
      { apply N.Div0.div_lt_upper_bound.
        rewrite Nat2N.inj_succ, N.pow_succ_r' in Hn. lia. }
      assert (Hpos : 0 < fuel).
      { destruct fuel; [|lia]. simpl in Hdiv.
        assert (n / 10 = 0)%N by lia.
        apply N.div_small_iff in H0; [lia|discriminate]. }
      destruct (IH (n / 10)%N Hpos Hdiv)
        as (Hall & Hval & d & more & Hds & Hzero).
      cbv zeta in Hall, Hval, Hds.
      pose proof (N.div_mod n 10 ltac:(discriminate)) as Hdm.
      assert (Hq : (n / 10 <> 0)%N).
      { intros Hq. apply N.div_small_iff in Hq; [lia|discriminate]. }
      set (q := (n / 10)%N) in *. set (m := (n mod 10)%N) in *.
      clearbody q m. split; [|split].
      * rewrite forallb_app, Hall. cbn [forallb andb]. unfold Json.is_digit.
        rewrite andb_true_r. apply andb_true_iff.
        split; apply N.leb_le; lia.
      * rewrite digits_value_snoc, Hval. lia.
      * rewrite Hds. exists d, (more ++ [(48 + m)%N]).
        split; [reflexivity|]. intros Hd. specialize (Hzero Hd).
        contradiction.
Qed.

Lemma of_N_spec (n : N) :
  forallb Json.is_digit (Str.of_N n) = true
  /\ digits_value (Str.of_N n) = Z.of_N n
  /\ exists d more, Str.of_N n = d :: more
                    /\ ((d =? 48)%N = true -> n = 0%N).
Proof.
  apply digits_fuel_spec; [lia|]. rewrite Nat2N.inj_succ, N2Nat.id.
  destruct n as [|p]; [reflexivity|]. apply N.log2_spec. reflexivity.
Qed.

Lemma span_digits_all digits :
  forallb Json.is_digit digits = true ->
  Json.span_digits digits = (digits, []).
Proof.
  induction digits as [|c digits IH]; [reflexivity|]. simpl.
  intros Hall. apply andb_true_iff in Hall as [Hc Hrest].
  now rewrite Hc, IH.
Qed.

Lemma of_N_head (n : N) :
  exists d more, Str.of_N n = d :: more
                 /\ Json.is_digit d = true /\ (d =? 45)%N = false.
Proof.
  destruct (of_N_spec n) as (Hall & _ & d & more & Hds & _).
  exists d, more. split; [exact Hds|]. rewrite Hds in Hall. simpl in Hall.
  apply andb_true_iff in Hall as [Hd _]. split; [exact Hd|].
  unfold Json.is_digit in Hd. apply andb_true_iff in Hd as [Hlo _].
  apply N.leb_le in Hlo. apply N.eqb_neq. lia.
Qed.

Lemma match_integer_of_N (n : N) :
  Json.match_integer (Str.of_N n) = Some (Str.of_N n, [])
  /\ Json.match_integer (45%N :: Str.of_N n) = Some (45%N :: Str.of_N n, []).
Proof.
  destruct (of_N_spec n) as (Hall & _ & d & more & Hds & Hzero).
  destruct (of_N_head n) as (d' & more' & Hds' & Hd & Hminus).
  rewrite Hds in Hds'. inversion Hds'; subst d' more'. clear Hds'.
  rewrite Hds in Hall. simpl in Hall.
  apply andb_true_iff in Hall as [_ Hmore].
  unfold Json.match_integer. rewrite Hds, Hminus. cbn [N.eqb Pos.eqb].
  destruct (d =? 48)%N eqn:Hd48.
  - specialize (Hzero eq_refl). subst n. inversion Hds; subst.
    now split.
  - rewrite Hd, (span_digits_all _ Hmore). now split.
Qed.

Lemma int_of_text_of_N (n : N) :
  Json.int_of_text (Str.of_N n) = Z.of_N n
  /\ Json.int_of_text (45%N :: Str.of_N n) = (- Z.of_N n)%Z.
Proof.
  destruct (of_N_spec n) as (_ & Hval & _).
  destruct (of_N_head n) as (d & more & Hds & _ & Hminus).
  unfold Json.int_of_text. cbn [N.eqb Pos.eqb]. split.
  - rewrite Hds, Hminus, <- Hds. exact Hval.
  - f_equal. exact Hval.
Qed.

(** An integer is written in digits and read back from them. *)
Lemma scan_atom_int (z : Z) : Json.scan_atom (Str.of_Z z) = Ok (VInt z, []).
Proof.
  assert (Hnum : Json.match_number (Str.of_Z z) = Some (VInt z, [])).
  { unfold Json.match_number, Str.of_Z.
    destruct z as [|p|p].
    - reflexivity.
    - destruct (match_integer_of_N (Z.to_N (Zpos p))) as [-> _].
      destruct (int_of_text_of_N (Z.to_N (Zpos p))) as [Hval _].
      cbn [Json.match_frac Json.match_exp]. now rewrite Hval.
    - destruct (match_integer_of_N (Npos p)) as [_ ->].
      destruct (int_of_text_of_N (Npos p)) as [_ Hval].
      cbn [Json.match_frac Json.match_exp]. now rewrite Hval. }
  unfold Json.scan_atom. rewrite Hnum.
  assert (Hhead : exists c more, Str.of_Z z = c :: more
                                 /\ (Json.is_digit c = true \/ c = 45%N)).
  { unfold Str.of_Z. destruct z as [|p|p].
    - exists 48%N, []. now split; [|left].
    - destruct (of_N_head (Z.to_N (Zpos p))) as (d & more & Hds & Hd & _).
      exists d, more. split; auto.
    - exists 45%N, (Str.of_N (Npos p)). split; auto. }
  destruct Hhead as (c & more & -> & Hc).
  assert (Hnot : (110 =? c)%N = false /\ (116 =? c)%N = false
                 /\ (102 =? c)%N = false).
  { destruct Hc as [Hd | ->]; [|now repeat split].
    unfold Json.is_digit in Hd. apply andb_true_iff in Hd as [_ Hhi].
    apply N.leb_le in Hhi. repeat split; apply N.eqb_neq; lia. }
  destruct Hnot as (Hn & Ht & Hf).
  cbn [Json.starts_with Str.lit map list_ascii_of_string N_of_ascii].
  cbn in Hn, Ht, Hf |- *. now rewrite Hn, Ht, Hf.
Qed.

End JsonAtomFacts.

(* ================================================================== *)
(** ** The JSON report is read back *)

Section JsonRoundTrip.
Context `{Host}.
Implicit Types (c : pychar) (s rest text : pystr) (v : pyval) (level : nat).

Lemma scan_atom_head c s found :
  Json.scan_atom (c :: s) = Ok found ->
  starts_value c = true
  /\ (c =? 34)%N = false /\ (c =? 91)%N = false /\ (c =? 123)%N = false.
Proof.
  intros Hscan.
  assert (Hbad : forall bad, In bad [32; 9; 10; 13; 93; 65279; 34; 91; 123]%N ->
                             c <> bad).
  { intros bad Hin ->. simpl in Hin.
    repeat (destruct Hin as [<- | Hin]; [discriminate Hscan|]).
    contradiction. }
  unfold starts_value, Json.is_ws.
  repeat match goal with
  | |- context [(c =? ?n)%N] =>
      destruct (N.eqb_spec c n) as [Heq|_];
      [exfalso; apply (Hbad n); [simpl; tauto|exact Heq]|]
  end.
  repeat split.
Qed.

Lemma skip_ws_start c s :
  starts_value c = true -> Json.skip_ws (c :: s) = c :: s.
Proof.
  unfold starts_value. intros Hc. simpl.
  destruct (Json.is_ws c); [discriminate|reflexivity].
Qed.

Lemma starts_value_not_ws c : starts_value c = true -> Json.is_ws c = false.
Proof. unfold starts_value. now destruct (Json.is_ws c). Qed.

Lemma skip_ws_indent level c s :
  Json.is_ws c = false ->
  Json.skip_ws (Json.newline_indent level ++ c :: s) = c :: s.
Proof.
  intros Hc. unfold Json.newline_indent, Str.rep.
  generalize (2 * level) as n. intros n. cbn [app Json.skip_ws].
  change (Json.is_ws 10%N) with true. cbv iota.
  induction n as [|n IH]; simpl.
  - now rewrite Hc.
  - exact IH.
Qed.

(** A number or a constant in front of what may follow a value. *)
Lemma scan_once_atom fuel s rest v :
  Json.scan_atom s = Ok (v, []) -> ends_value rest = true ->
  Json.scan_once (S fuel) (s ++ rest) = Ok (v, rest).
Proof.
  intros Hscan Hend. destruct s as [|c s]; [discriminate Hscan|].
  destruct (scan_atom_head c s Hscan) as (_ & H34 & H91 & H123).
  pose proof (scan_atom_extend (c :: s) rest Hend Hscan) as Hext.
  cbn [app] in *. cbn [Json.scan_once]. now rewrite H34, H123, H91.
Qed.

Lemma encode_head level v :
  clean v ->
  exists c more, Json.encode level v = c :: more /\ starts_value c = true.
Proof.
  assert (Hatom : forall s found, Json.scan_atom s = Ok found ->
            exists c more, s = c :: more /\ starts_value c = true).
  { intros [|c s] found Hscan; [discriminate Hscan|].
    exists c, s. split; [reflexivity|]. now destruct (scan_atom_head c s Hscan). }
  intros Hclean. inversion Hclean; subst.
  - now exists 110%N, (Str.lit "ull").
  - destruct b; [now exists 116%N, (Str.lit "rue")
                |now exists 102%N, (Str.lit "alse")].
  - apply (Hatom _ _ (scan_atom_int z)).
  - apply (Hatom _ _ H0).
  - now eexists 34%N, _.
  - destruct items; now eexists 91%N, _.
  - destruct d; now eexists 123%N, _.
Qed.

Lemma skip_ws_encode level v rest :
  clean v ->
  Json.skip_ws (Json.encode level v ++ rest) = Json.encode level v ++ rest.
Proof.
  intros Hclean. destruct (encode_head level Hclean) as (c & more & -> & Hc).
  now apply skip_ws_start.
Qed.

Lemma elements_head level items :
  items <> [] -> Forall clean items ->
  exists c more, elements_text level items = c :: more
                 /\ starts_value c = true.
Proof.
  intros Hne Hclean. destruct items as [|x xs]; [congruence|].
  inversion Hclean as [|? ? Hx Hxs]; subst.
  destruct (encode_head (S level) Hx) as (c & more & Henc & Hc).
  unfold elements_text. cbn [map Str.join]. rewrite Henc.
  destruct xs; cbn [map]; now eexists c, _.
Qed.

Lemma members_head level d :
  d <> [] -> exists more, members_text level d = 34%N :: more.
Proof.
  intros Hne. destruct d as [|[k v] d]; [congruence|].
  unfold members_text. cbn [map Str.join]. destruct d; cbn [map]; now eexists.
Qed.

Lemma elements_text_cons level x y ys :
  elements_text level (x :: y :: ys)
  = Json.encode (S level) x
    ++ 44%N :: Json.newline_indent (S level) ++ elements_text level (y :: ys).
Proof. reflexivity. Qed.

Lemma members_text_cons level k v kv d :
  members_text level ((k, v) :: kv :: d)
  = 34%N :: flat_map Json.escape_char k
    ++ 34%N :: 58%N :: 32%N :: Json.encode (S level) v
    ++ 44%N :: Json.newline_indent (S level) ++ members_text level (kv :: d).
Proof.
  unfold members_text, Json.encode_basestring_ascii. cbn [map Str.join fst snd].
  cbn [app Str.lit map list_ascii_of_string N_of_ascii].
  rewrite <- !app_assoc. reflexivity.
Qed.

Lemma members_text_one level k v :
  members_text level [(k, v)]
  = 34%N :: flat_map Json.escape_char k
    ++ 34%N :: 58%N :: 32%N :: Json.encode (S level) v.
Proof.
  unfold members_text, Json.encode_basestring_ascii. cbn [map Str.join fst snd].
  cbn [app Str.lit map list_ascii_of_string N_of_ascii].
  rewrite <- !app_assoc. reflexivity.
Qed.

Lemma Dict_get_absent (V : Type) (d : Dict.t V) k :
  ~ In k (Dict.keys d) -> Dict.get k d = None.
Proof.
  induction d as [|[k' v'] d IH]; simpl; [reflexivity|]. intros Hnot.
  destruct (Str_eqb_spec k k') as [->|_]; [tauto|]. apply IH. tauto.
Qed.

(** What the encoder writes for a value, for the items of an array and
    for the members of an object is read back as it was, when the fuel
    is the length of the text. *)
Lemma scan_encoded fuel :
  (forall level v rest,
     clean v -> ends_value rest = true ->
     length (Json.encode level v) <= fuel ->
     Json.scan_once fuel (Json.encode level v ++ rest) = Ok (v, rest))
  /\ (forall level items values rest,
     items <> [] -> Forall clean items ->
     length (elements_text level items) < fuel ->
     Json.scan_elements fuel
       (elements_text level items ++ Json.newline_indent level ++ 93%N :: rest)
       values
     = Ok (VList (values ++ items), rest))
  /\ (forall level d pairs rest,
     d <> [] -> NoDup (Dict.keys (pairs ++ d)) ->
     Forall (fun kv => scalar_text (fst kv) /\ clean (snd kv)) d ->
     length (members_text level d) < fuel ->
     Json.scan_members fuel
       (tl (members_text level d ++ Json.newline_indent level ++ 125%N :: rest))
       pairs
     = Ok (VDict (pairs ++ d), rest)).
Proof.
  induction fuel as [|fuel (IHonce & IHelements & IHmembers)].
  { split; [|split; intros; lia].
    intros level v rest Hclean _ Hlen.
    destruct (encode_head level Hclean) as (c & more & Henc & _).
    rewrite Henc in Hlen. simpl in Hlen. lia. }
  split; [|split].
  - intros level v rest Hclean Hend Hlen.
    inversion Hclean as [|b|z|f Hf|text Htext|items Hitems|d Hkeys Hd]; subst.
    + now apply scan_once_atom.
    + destruct b; now apply scan_once_atom.
    + apply scan_once_atom; [apply scan_atom_int|exact Hend].
    + now apply scan_once_atom.
    + cbn [Json.encode]. unfold Json.encode_basestring_ascii.
      rewrite <- !app_assoc. cbn [app Json.scan_once N.eqb Pos.eqb].
      now rewrite scanstring_escaped.
    + destruct items as [|x xs]; [reflexivity|].
      change (Json.encode level (VList (x :: xs)))
        with (91%N :: Json.newline_indent (S level)
              ++ elements_text level (x :: xs)
              ++ Json.newline_indent level ++ [93%N]) in *.
      destruct (elements_head level (items := x :: xs)) as (c & more & Htext & Hc);
        [discriminate|exact Hitems|].
      cbn [app]. rewrite <- !app_assoc. cbn [app Json.scan_once N.eqb Pos.eqb].
      pose proof (IHelements level (x :: xs) [] rest) as IH.
      rewrite Htext in IH |- *. cbn [app] in IH |- *.
      rewrite skip_ws_indent by now apply starts_value_not_ws.
      assert (H93 : (c =? 93)%N = false).
      { unfold starts_value in Hc. now destruct (c =? 93)%N, (Json.is_ws c). }
      rewrite H93. apply IH; [discriminate|exact Hitems|].
      cbn [length] in Hlen. rewrite !length_app in Hlen.
      unfold Json.newline_indent in Hlen. cbn [length] in Hlen.
      rewrite <- Htext. lia.
    + destruct d as [|kv d]; [reflexivity|].
      change (Json.encode level (VDict (kv :: d)))
        with (123%N :: Json.newline_indent (S level)
              ++ members_text level (kv :: d)
              ++ Json.newline_indent level ++ [125%N]) in *.
      destruct (members_head level (d := kv :: d)) as (more & Htext);
        [discriminate|].
      cbn [app]. rewrite <- !app_assoc. cbn [app Json.scan_once N.eqb Pos.eqb].
      pose proof (IHmembers level (kv :: d) [] rest) as IH.
      rewrite Htext in IH |- *. cbn [app tl] in IH |- *.
      rewrite skip_ws_indent by reflexivity. cbn [N.eqb Pos.eqb].
      apply IH; [discriminate|exact Hkeys|exact Hd|].
      cbn [length] in Hlen. rewrite !length_app in Hlen.
      unfold Json.newline_indent in Hlen. cbn [length] in Hlen.
      rewrite <- Htext. lia.
  - intros level items values rest Hne Hclean Hlen.
    destruct items as [|x xs]; [congruence|].
    inversion Hclean as [|? ? Hx Hxs]; subst.
    destruct xs as [|y ys].
    + change (elements_text level [x]) with (Json.encode (S level) x) in *.
      cbn [Json.scan_elements]. rewrite IHonce; [|exact Hx|reflexivity|lia].
      cbn [obind fst snd]. rewrite skip_ws_indent by reflexivity.
      reflexivity.
    + rewrite elements_text_cons in *. rewrite length_app in Hlen.
      cbn [length] in Hlen. rewrite length_app in Hlen.
      rewrite <- app_assoc. cbn [app]. rewrite <- app_assoc.
      cbn [Json.scan_elements]. rewrite IHonce; [|exact Hx|reflexivity|lia].
      cbn [obind fst snd Json.skip_ws]. change (Json.is_ws 44%N) with false.
      cbn [N.eqb Pos.eqb].
      destruct (elements_head level (items := y :: ys)) as (c & more & Htext & Hc);
        [discriminate|exact Hxs|].
      pose proof (IHelements level (y :: ys) (values ++ [x]) rest) as IH.
      rewrite Htext in IH |- *. cbn [app] in IH |- *.
      rewrite skip_ws_indent by now apply starts_value_not_ws.
      rewrite IH; [|discriminate|exact Hxs|rewrite <- Htext; lia].
      now rewrite <- app_assoc.
  - intros level d pairs rest Hne Hkeys Hclean Hlen.
    destruct d as [|[k v] d]; [congruence|].
    inversion Hclean as [|? ? [Hk Hv] Hd]; subst. cbn [fst snd] in Hk, Hv.
    assert (Habsent : Dict.get k pairs = None).
    { apply Dict_get_absent. unfold Dict.keys in *. rewrite map_app in Hkeys.
      apply NoDup_remove_2 in Hkeys. intros Hin. apply Hkeys.
      apply in_or_app. now left. }
    destruct d as [|kv d].
    + rewrite members_text_one in *. cbn [length] in Hlen.
      rewrite length_app in Hlen. cbn [length] in Hlen.
      cbn [app tl]. rewrite <- app_assoc. cbn [app Json.scan_members].
      rewrite scanstring_escaped by exact Hk.
      cbn [obind fst snd app Json.skip_ws].
      change (Json.is_ws 58%N) with false. cbn [N.eqb Pos.eqb Json.skip_ws].
      change (Json.is_ws 32%N) with true. cbv iota.
      destruct (encode_head (S level) Hv) as (c & more & Henc & Hc).
      pose proof (IHonce (S level) v
                    (Json.newline_indent level ++ 125%N :: rest)) as IH.
      rewrite Henc in IH, Hlen |- *. cbn [app] in IH |- *.
      rewrite skip_ws_start by exact Hc.
      rewrite IH; [|exact Hv|reflexivity|cbn [length] in *; lia].
      cbn [obind fst snd]. rewrite skip_ws_indent by reflexivity.
      cbn [N.eqb Pos.eqb]. now rewrite Dict_set_absent.
    + rewrite members_text_cons in *. cbn [length] in Hlen.
      rewrite length_app in Hlen. cbn [length] in Hlen.
      rewrite length_app in Hlen. cbn [length] in Hlen.
      rewrite length_app in Hlen.
      cbn [app tl]. rewrite <- app_assoc. cbn [app]. rewrite <- app_assoc.
      cbn [app Json.scan_members].
      rewrite scanstring_escaped by exact Hk.
      cbn [obind fst snd app Json.skip_ws].
      change (Json.is_ws 58%N) with false. cbn [N.eqb Pos.eqb Json.skip_ws].
      change (Json.is_ws 32%N) with true. cbv iota.
      rewrite <- app_assoc. rewrite skip_ws_encode by exact Hv.
      match goal with
      | |- context [Json.scan_once fuel (Json.encode (S level) v ++ ?R)] =>
          rewrite (IHonce (S level) v R); [|exact Hv|reflexivity|lia]
      end.
      cbn [obind fst snd Json.skip_ws]. change (Json.is_ws 44%N) with false.
      cbn [N.eqb Pos.eqb]. rewrite Dict_set_absent by exact Habsent.
      destruct (members_head level (d := kv :: d)) as (more' & Htext);
        [discriminate|].
      pose proof (IHmembers level (kv :: d) (pairs ++ [(k, v)]) rest) as IH'.
      rewrite Htext in IH' |- *. cbn [app tl] in IH' |- *.
      rewrite skip_ws_indent by reflexivity. cbn [N.eqb Pos.eqb].
      rewrite IH'; [|discriminate| |exact Hd|rewrite <- Htext; lia].
      * now rewrite <- app_assoc.
      * now rewrite <- app_assoc.
Qed.

(** A value of the round trip is read back from its text. *)
Lemma loads_dumps v : clean v -> Json.loads (Json.dumps v) = Ok v.
Proof.
  intros Hclean. unfold Json.loads, Json.dumps.
  destruct (encode_head 0 Hclean) as (c & more & Henc & Hc).
  assert (Hbom : Json.starts_with [65279%N] (Json.encode 0 v) = None).
  { rewrite Henc. cbn [Json.starts_with]. rewrite N.eqb_sym.
    unfold starts_value in Hc. now destruct (c =? 65279)%N, (Json.is_ws c),
      (c =? 93)%N. }
  rewrite Hbom.
  replace (Json.skip_ws (Json.encode 0 v)) with (Json.encode 0 v ++ []).
  2: { rewrite <- (skip_ws_encode 0 [] Hclean). now rewrite app_nil_r. }
  destruct (scan_encoded (S (length (Json.encode 0 v)))) as (Honce & _).
  rewrite Honce; [reflexivity|exact Hclean|reflexivity|lia].
Qed.

(** *** Run outcomes *)

Lemma distinct_NoDup keys : distinct keys = true -> NoDup keys.
Proof.
  induction keys as [|k keys IH]; simpl; intros Hd; constructor.
  - apply andb_true_iff in Hd as [Hk _]. intros Hin.
    apply negb_true_iff in Hk.
    assert (Hex : existsb (Str.eqb k) keys = true).
    { apply existsb_exists. exists k. split; [exact Hin|apply Str_eqb_refl]. }
    congruence.
  - apply IH. now apply andb_true_iff in Hd as [_ Hd].
Qed.

Lemma clean_of_opt_str o : optional_text o -> clean (Value.of_opt_str o).
Proof. destruct o; intros Ho; now constructor. Qed.

Lemma clean_bundle_info b :
  bundle_text b -> clean (VDict (TestBundle.get_bundle_info b)).
Proof.
  intros Hb. unfold bundle_text in Hb.
  repeat match goal with
  | Hall : Forall _ (_ :: _) |- _ =>
      let Hhead := fresh "Htext" in
      inversion Hall as [|? ? Hhead ?]; subst; clear Hall
  end.
  constructor; [apply distinct_NoDup; reflexivity|].
  repeat (constructor; [split; [reflexivity|now constructor]|]).
  constructor.
Qed.

Lemma clean_to_dict r : result_text r -> clean (VDict (TestResult.to_dict r)).
Proof.
  intros (Hr & Hurl & Herror).
  repeat match goal with
  | Hall : Forall _ (_ :: _) |- _ =>
      let Hhead := fresh "Htext" in
      inversion Hall as [|? ? Hhead ?]; subst; clear Hall
  end.
  constructor; [apply distinct_NoDup; reflexivity|].
  repeat (constructor;
          [split; [reflexivity
                  |first [now apply clean_of_opt_str
                         |constructor; first [assumption
                                             |now destruct (TestResult.status r)]]]|]).
  constructor.
Qed.

Lemma clean_statistics results (t : float) :
  clean (Py.round_2 (TestRunner.pass_rate_of
                       (TestRunner.count_status PASSED results)
                       (length results))) ->
  float_ok (Py.round2 t) ->
  clean (VDict (TestRunner._calculate_statistics results t)).
Proof.
  intros Hrate Hseconds.
  constructor; [apply distinct_NoDup; reflexivity|].
  repeat (constructor;
          [split; [reflexivity|first [exact Hrate|now constructor]]|]).
  constructor.
Qed.

Lemma clean_run_outcome (b : TestBundle.t) config results (t : float) :
  bundle_text b -> clean (VDict config) -> Forall result_text results ->
  clean (Py.round_2 (TestRunner.pass_rate_of
                       (TestRunner.count_status PASSED results)
                       (length results))) ->
  float_ok (Py.round2 t) -> float_ok t ->
  clean (VDict (TestRunner.run_outcome b config results t)).
Proof.
  intros Hb Hconfig Hresults Hrate Hseconds Htime.
  constructor; [apply distinct_NoDup; reflexivity|].
  unfold TestRunner.run_outcome.
  repeat apply Forall_cons; try apply Forall_nil;
    (split; [reflexivity|]); cbn [snd].
  - now apply clean_bundle_info.
  - exact Hconfig.
  - constructor. apply Forall_map.
    apply (Forall_impl _ clean_to_dict Hresults).
  - now apply clean_statistics.
  - now constructor.
Qed.

(** C9, amended.  Take an outcome whose text (of the bundle, of the
    results and of the configuration) is made of Unicode scalar values,
    whose configuration has no key twice, and whose floats (the
    execution time, its rounding to two decimals, the pass rate) are
    read back from the text the encoder writes for them.  Then the JSON
    report of the outcome is read back as the outcome itself: the bundle
    information, the statistics and the results read from the report
    are those of the outcome, field for field. *)
Theorem json_report_round_trip (b : TestBundle.t) config results (t : float) :
  bundle_text b -> clean (VDict config) -> Forall result_text results ->
  clean (Py.round_2 (TestRunner.pass_rate_of
                       (TestRunner.count_status PASSED results)
                       (length results))) ->
  float_ok (Py.round2 t) -> float_ok t ->
  let out := TestRunner.run_outcome b config results t in
  exists parsed,
    Json.loads (ReportGenerator.generate_json_report out) = Ok (VDict parsed)
    /\ parsed = out
    /\ Dict.get (Str.lit "bundle_info") parsed
       = Some (VDict (TestBundle.get_bundle_info b))
    /\ Dict.get (Str.lit "statistics") parsed
       = Some (VDict (TestRunner._calculate_statistics results t))
    /\ Dict.get (Str.lit "results") parsed
       = Some (VList (map (fun r => VDict (TestResult.to_dict r)) results)).
Proof.
  intros Hb Hconfig Hresults Hrate Hseconds Htime out. exists out.
  split; [|repeat split].
  unfold ReportGenerator.generate_json_report. apply loads_dumps.
  now apply clean_run_outcome.
Qed.

End JsonRoundTrip.

Section SimulatedReports.
#[local] Existing Instance Sim.host.

(** The report of the run of "Sample Suite" is read back as the outcome
    of the run. *)
Lemma json_report_of_sample_run :
  exists out w',
    TestRunner.run_bundle (H := Sim.host) Sim.registry
      (Str.lit "sample_suite") Sim.sample_config 0%float = (Ok out, w')
    /\ Json.loads (ReportGenerator.generate_json_report out) = Ok (VDict out)
    /\ Dict.get (Str.lit "statistics") out
       = Some (VDict (TestRunner._calculate_statistics
                        (Sim.results_of (TestBundle.execute_bundle Sim.sample_suite
                                Sim.sample_config 0%float))
                        0%float)).
Proof.
  pose (results := Sim.results_of (TestBundle.execute_bundle (H := Sim.host)
                          Sim.sample_suite Sim.sample_config 0%float)).
  destruct (@json_report_round_trip Sim.host Sim.sample_suite Sim.sample_config
              results 0%float)
    as (parsed & Hloads & -> & _ & Hstatistics & _).
  - repeat constructor.
  - constructor; [apply distinct_NoDup; reflexivity|].
    repeat constructor.
  - repeat constructor.
  - constructor. vm_compute. reflexivity.
  - vm_compute. reflexivity.
  - vm_compute. reflexivity.
  - exists (TestRunner.run_outcome Sim.sample_suite Sim.sample_config results
              0%float), 0%float.
    split; [vm_compute; reflexivity|]. split; [exact Hloads|exact Hstatistics].
Defined.

(** The claim C9 as stated fails on a bundle whose name is the two
    halves of a surrogate pair: the report escapes the halves one by
    one, and they are read back as one character. *)
Lemma paired_name_is_not_read_back :
  exists out w' parsed info,
    TestRunner.run_bundle (H := Sim.host)
      (BundleRegistry.register_bundle Sim.paired_name_suite BundleRegistry.init)
      [55357; 56832]%N [] 0%float = (Ok out, w')
    /\ Dict.get (Str.lit "bundle_info") out
       = Some (VDict (TestBundle.get_bundle_info Sim.paired_name_suite))
    /\ Dict.get (Str.lit "name") (TestBundle.get_bundle_info Sim.paired_name_suite)
       = Some (VStr [55357; 56832]%N)
    /\ Json.loads (ReportGenerator.generate_json_report out) = Ok (VDict parsed)
    /\ Dict.get (Str.lit "bundle_info") parsed = Some (VDict info)
    /\ Dict.get (Str.lit "name") info = Some (VStr [128512%N]).
Proof.
  do 4 eexists. split; [vm_compute; reflexivity|].
  split; [reflexivity|]. split; [reflexivity|].
  split; [vm_compute; reflexivity|]. split; reflexivity.
Qed.

End SimulatedReports.

(* ================================================================== *)
(** * Further properties of the code *)


Section MoreDictFacts.
Variable V : Type.
Implicit Types (d : Dict.t V) (k : pystr) (v : V).

Lemma Dict_in_keys d k : In k (Dict.keys d) <-> Dict.get k d <> None.
Proof.
  induction d as [|[k' v'] d IH]; simpl; [tauto|].
  destruct (Str_eqb_spec k k') as [->|Hne].
  - split; [discriminate|auto].
  - rewrite <- IH. split; [intros [Heq|Hin]; congruence|auto].
Qed.

Lemma Dict_keys_set d k v :
  Dict.keys (Dict.set k v d)
  = match Dict.get k d with
    | Some _ => Dict.keys d
    | None => Dict.keys d ++ [k]
    end.
Proof.
  destruct (Dict.get k d) as [v0|] eqn:Hget.
  - now apply Dict_set_present_keys with v0.
  - rewrite Dict_set_absent by exact Hget. unfold Dict.keys.
    now rewrite map_app.
Qed.

Lemma Dict_set_NoDup d k v :
  NoDup (Dict.keys d) -> NoDup (Dict.keys (Dict.set k v d)).
Proof.
  intros Hd. rewrite Dict_keys_set.
  destruct (Dict.get k d) eqn:Hget; [exact Hd|].
  apply NoDup_app; [exact Hd|repeat constructor; auto|].
  intros x Hx [<-|[]]. apply Dict_in_keys in Hx. congruence.
Qed.

Lemma Dict_get_in d k v : Dict.get k d = Some v -> In (k, v) d.
Proof.
  induction d as [|[k' v'] d IH]; simpl; [discriminate|].
  destruct (Str_eqb_spec k k') as [->|Hne].
  - intros Heq. inversion Heq. now left.
  - intros Hget. right. now apply IH.
Qed.

Lemma Dict_length_values d : length (Dict.values d) = length (Dict.keys d).
Proof. unfold Dict.values, Dict.keys. now rewrite !length_map. Qed.

End MoreDictFacts.

Section RegistryInvariant.
Context `{Host}.
Implicit Types (reg : BundleRegistry.t) (b : TestBundle.t).

(** X1.  A registry that was built holds every id once, lists as many
    bundles as ids, stores each bundle under the id of its name, finds
    exactly the ids it lists, and still has the three ids it started
    with. *)
Theorem built_registry_invariant reg :
  built reg ->
  NoDup (BundleRegistry.get_bundle_ids reg)
  /\ length (BundleRegistry.list_bundles reg)
     = length (BundleRegistry.get_bundle_ids reg)
  /\ (forall id b, BundleRegistry.get_bundle reg id = Some b ->
        id = BundleRegistry.bundle_id_of (TestBundle.name b))
  /\ (forall id, In id (BundleRegistry.get_bundle_ids reg)
                 <-> BundleRegistry.get_bundle reg id <> None)
  /\ (forall id, In id (BundleRegistry.get_bundle_ids BundleRegistry.init) ->
                 In id (BundleRegistry.get_bundle_ids reg))
  /\ (forall id, In id (BundleRegistry.get_bundle_ids reg) ->
                 ~ In 32%N id).
Proof.
  intros Hbuilt.
  assert (Hid : forall id b, BundleRegistry.get_bundle reg id = Some b ->
                  id = BundleRegistry.bundle_id_of (TestBundle.name b)).
  { induction Hbuilt as [|b reg _ IH]; intros id b0 Hget.
    - apply Dict_get_in in Hget.
      change BundleRegistry.init
        with [ (Str.lit "e-commerce_checkout_flow", EcommerceBundle.bundle);
               (Str.lit "form_validation_suite", FormValidationBundle.bundle);
               (Str.lit "api_health_checks", APIHealthBundle.bundle) ] in Hget.
      destruct Hget as [Heq|[Heq|[Heq|[]]]]; inversion Heq; reflexivity.
    - destruct (Str_eqb_spec id (BundleRegistry.bundle_id_of (TestBundle.name b)))
        as [->|Hne].
      + rewrite get_register_same in Hget. now inversion Hget.
      + rewrite get_register_other in Hget by exact Hne. now apply IH. }
  split; [|split; [|split; [exact Hid|split; [|split]]]].
  - clear Hid. induction Hbuilt as [|b reg _ IH].
    + apply distinct_NoDup. reflexivity.
    + now apply Dict_set_NoDup.
  - unfold BundleRegistry.list_bundles, BundleRegistry.get_bundle_ids.
    now rewrite length_map, Dict_length_values.
  - intros id. apply Dict_in_keys.
  - clear Hid. induction Hbuilt as [|b reg _ IH]; intros id Hin; [exact Hin|].
    unfold BundleRegistry.get_bundle_ids, BundleRegistry.register_bundle.
    rewrite Dict_keys_set.
    destruct (Dict.get _ reg); [now apply IH|].
    apply in_or_app. left. now apply IH.
  - intros id Hin Hspace. apply Dict_in_keys in Hin.
    destruct (Dict.get id reg) as [b|] eqn:Hget; [|congruence].
    pose proof (bundle_id_of_no_space (TestBundle.name b)) as Hno.
    rewrite <- (Hid id b Hget) in Hno.
    rewrite forallb_forall in Hno. specialize (Hno _ Hspace).
    discriminate Hno.
Qed.

(** X2.  Registering under an id that is not there yet adds the bundle
    behind the others; registering under an id that is there replaces
    the bundle at its place.  Nothing else changes. *)
Theorem register_bundle_lists reg b :
  let id := BundleRegistry.bundle_id_of (TestBundle.name b) in
  let reg' := BundleRegistry.register_bundle b reg in
  (BundleRegistry.get_bundle reg id = None ->
   BundleRegistry.get_bundle_ids reg' = BundleRegistry.get_bundle_ids reg ++ [id]
   /\ BundleRegistry.list_bundles reg'
      = BundleRegistry.list_bundles reg ++ [TestBundle.get_bundle_info b])
  /\ (forall pre old post,
        reg = pre ++ (id, old) :: post ->
        BundleRegistry.get_bundle pre id = None ->
        BundleRegistry.get_bundle_ids reg' = BundleRegistry.get_bundle_ids reg
        /\ BundleRegistry.list_bundles reg'
           = BundleRegistry.list_bundles pre
             ++ TestBundle.get_bundle_info b :: BundleRegistry.list_bundles post).
Proof.
  intros id reg'. split.
  - intros Hnew. unfold reg', BundleRegistry.register_bundle.
    fold id. rewrite Dict_set_absent by exact Hnew.
    unfold BundleRegistry.get_bundle_ids, BundleRegistry.list_bundles,
      Dict.keys, Dict.values.
    now rewrite !map_app.
  - intros pre old post -> Hpre.
    assert (Hset : Dict.set id b (pre ++ (id, old) :: post)
                   = pre ++ (id, b) :: post).
    { clear reg'. induction pre as [|[k v] pre IH]; simpl.
      - now rewrite Str_eqb_refl.
      - unfold BundleRegistry.get_bundle in Hpre. simpl in Hpre.
        destruct (Str.eqb id k); [discriminate|]. now rewrite IH. }
    unfold reg', BundleRegistry.register_bundle. fold id. rewrite Hset.
    unfold BundleRegistry.get_bundle_ids, BundleRegistry.list_bundles,
      Dict.keys, Dict.values.
    rewrite !map_app. split; reflexivity.
Qed.

End RegistryInvariant.

Section BundleIds.
Context `{Host}.

(** X3.  The id of an ASCII name: as long as the name, ASCII, without
    spaces and upper-case letters; the id of an id is the id. *)
Theorem bundle_id_of_ascii_name (n : pystr) :
  forallb Str.is_ascii n = true ->
  let id := BundleRegistry.bundle_id_of n in
  length id = length n
  /\ forallb Str.is_ascii id = true
  /\ (forall c, In c id -> c <> 32%N /\ ~ (65 <= c <= 90)%N)
  /\ BundleRegistry.bundle_id_of id = id.
Proof.
  intros Hascii id.
  set (f := fun c => if (c =? 32)%N then 95%N else Str.ascii_lower c).
  assert (Hid : id = map f n) by now apply bundle_id_of_ascii.
  assert (Hf : forall c, Str.is_ascii c = true ->
             Str.is_ascii (f c) = true /\ f c <> 32%N
             /\ ~ (65 <= f c <= 90)%N /\ f (f c) = f c).
  { intros c Hc. unfold f, Str.ascii_lower, Str.is_ascii in *.
    apply N.ltb_lt in Hc.
    destruct (N.eqb_spec c 32) as [->|H32]; [now repeat split; try lia|].
    destruct (N.leb_spec 65 c), (N.leb_spec c 90); cbn [andb].
    all: repeat match goal with
         | |- context [(?a =? ?b)%N] => destruct (N.eqb_spec a b); try lia
         | |- context [(?a <=? ?b)%N] => destruct (N.leb_spec a b); try lia
         | |- context [(?a <? ?b)%N] => destruct (N.ltb_spec a b); try lia
         end; cbn [andb]; repeat split; try lia; try reflexivity. }
  assert (Hall : forall c, In c n -> Str.is_ascii c = true)
    by now apply forallb_forall.
  assert (Hascii' : forallb Str.is_ascii id = true).
  { rewrite Hid. apply forallb_forall. intros c Hin.
    apply in_map_iff in Hin as (c0 & <- & Hin). now apply Hf, Hall. }
  split; [rewrite Hid; apply length_map|]. split; [exact Hascii'|]. split.
  - intros c Hin. rewrite Hid in Hin.
    apply in_map_iff in Hin as (c0 & <- & Hin).
    destruct (Hf c0 (Hall _ Hin)) as (_ & H32 & Hup & _). now split.
  - rewrite (bundle_id_of_ascii id Hascii'). fold f. rewrite Hid, map_map.
    apply map_ext_in. intros c Hin. now apply Hf, Hall.
Qed.

End BundleIds.

Section Validation.
Context `{Host}.
Implicit Types (b : TestBundle.t) (config : Dict.t pyval).

Lemma unmet_false_iff config (n : pystr) (f : ConfigField.t) :
  unmet config (n, f) = false
  <-> (ConfigField.required f = true ->
       exists v, Dict.get n config = Some v /\ Value.truthy v = true).
Proof.
  unfold unmet, Value.falsy_opt. cbn [fst snd].
  destruct (ConfigField.required f); cbn [andb].
  - destruct (Dict.get n config) as [v|].
    + destruct (Value.truthy v) eqn:Hv; cbn [negb]; split.
      * intros _ _. now exists v.
      * reflexivity.
      * discriminate.
      * intros Hex. destruct (Hex eq_refl) as (v' & Heq & Ht).
        inversion Heq; subst. congruence.
    + split; [discriminate|]. intros Hex.
      destruct (Hex eq_refl) as (v' & Heq & _). discriminate.
  - split; [discriminate|reflexivity].
Qed.

Lemma validate_items_accepts (items : Dict.t ConfigField.t) config :
  fst (TestBundle.validate_items items config) = true
  <-> forall n f, In (n, f) items -> ConfigField.required f = true ->
                  exists v, Dict.get n config = Some v
                            /\ Value.truthy v = true.
Proof.
  destruct (first_unmet items config)
    as [Hall | (pre & n & f & post & Hitems & Hpre & Hbad)].
  - rewrite (validate_items_ok _ _ Hall). cbn [fst].
    split; [intros _|reflexivity]. intros n f Hin.
    rewrite forallb_forall in Hall. specialize (Hall _ Hin).
    apply negb_true_iff in Hall. now apply unmet_false_iff.
  - rewrite Hitems, (validate_items_first _ _ _ _ _ Hpre Hbad). cbn [fst].
    split; [discriminate|]. intros Hall. exfalso.
    assert (Hok : unmet config (n, f) = false).
    { apply unmet_false_iff. apply Hall. apply in_or_app. right. now left. }
    congruence.
Qed.

(** X4.  [validate_config] accepts exactly the configurations that hold a
    true value for every required field; the message is there exactly
    when it rejects, and names a required field without a true value. *)
Theorem validate_config_accepts_iff b config :
  let verdict := TestBundle.validate_config b config in
  (fst verdict = true
   <-> forall n f, In (n, f) (TestBundle.get_config_schema b) ->
                   ConfigField.required f = true ->
                   exists v, Dict.get n config = Some v
                             /\ Value.truthy v = true)
  /\ (snd verdict = None <-> fst verdict = true)
  /\ (forall msg, snd verdict = Some msg ->
        exists n f, In (n, f) (TestBundle.get_config_schema b)
                    /\ ConfigField.required f = true
                    /\ Value.falsy_opt (Dict.get n config) = true
                    /\ msg = Str.lit "Required field '" ++ ConfigField.label f
                             ++ Str.lit "' is missing").
Proof.
  cbv zeta. unfold TestBundle.validate_config.
  split; [apply validate_items_accepts|].
  destruct (first_unmet (TestBundle.get_config_schema b) config)
    as [Hall | (pre & n & f & post & Hschema & Hpre & Hbad)].
  - rewrite (validate_items_ok _ _ Hall). cbn [fst snd].
    split; [tauto|discriminate].
  - rewrite Hschema, (validate_items_first _ _ _ _ _ Hpre Hbad).
    cbn [fst snd]. split; [split; discriminate|].
    intros msg Heq. inversion Heq; subst msg. exists n, f.
    unfold unmet in Hbad. cbn [fst snd] in Hbad.
    apply andb_true_iff in Hbad as [Hreq Hfalsy].
    repeat split; trivial. apply in_or_app. right. now left.
Qed.

(** X5.  [validate_config] looks at the names, the labels and the
    [required] flags of the schema and at the truth value of what the
    configuration holds under the required names, and at nothing else:
    not at the field types, not at the defaults, not at other keys. *)
Theorem validate_config_reads_only_required b b' config config' :
  map (fun item => (fst item, ConfigField.required (snd item),
                    ConfigField.label (snd item)))
      (TestBundle.get_config_schema b)
  = map (fun item => (fst item, ConfigField.required (snd item),
                      ConfigField.label (snd item)))
        (TestBundle.get_config_schema b') ->
  (forall n f, In (n, f) (TestBundle.get_config_schema b) ->
               ConfigField.required f = true ->
               Value.falsy_opt (Dict.get n config)
               = Value.falsy_opt (Dict.get n config')) ->
  TestBundle.validate_config b config = TestBundle.validate_config b' config'.
Proof.
  unfold TestBundle.validate_config.
  generalize (TestBundle.get_config_schema b') as items'.
  induction (TestBundle.get_config_schema b) as [|[n f] items IH];
    intros [|[n' f'] items'] Hsame Hconfig; try discriminate; [reflexivity|].
  cbn [map fst snd] in Hsame. inversion Hsame as [[Hn Hreq Hlabel Hrest]].
  subst n'. cbn [TestBundle.validate_items]. rewrite <- Hreq, <- Hlabel.
  destruct (ConfigField.required f) eqn:Hf; cbn [andb].
  - rewrite <- (Hconfig n f) by (trivial; now left).
    destruct (Value.falsy_opt (Dict.get n config)); [reflexivity|].
    apply IH; [exact Hrest|]. intros n0 f0 Hin. apply Hconfig. now right.
  - apply IH; [exact Hrest|]. intros n0 f0 Hin. apply Hconfig. now right.
Qed.

End Validation.

Section ValidationSamples.
#[local] Existing Instance Sim.host.

(** A key the schema does not know changes nothing. *)
Lemma validate_config_reads_only_required_sample :
  TestBundle.validate_config (H := Sim.host) Sim.sample_suite
    Sim.sample_config
  = TestBundle.validate_config (H := Sim.host) Sim.sample_suite
      ((Str.lit "colour", VInt 3) :: Sim.sample_config).
Proof.
  apply validate_config_reads_only_required; [reflexivity|].
  intros n f Hin Hreq. simpl in Hin. destruct Hin as [Heq|[]].
  inversion Heq; subst. reflexivity.
Defined.

End ValidationSamples.


Section BuiltinExecutors.
Context `{Host}.
Implicit Types (b : TestBundle.t) (config : Dict.t pyval) (w : World).

Ltac run_executor :=
  unfold bind, ret;
  repeat match goal with
         | |- context [let (_, _) := ?call in _] => destruct call
         | |- context [match ?x with inl _ => _ | inr _ => _ end] =>
             destruct x eqn:?
         end.

Lemma int_of_float_raises (x : float) (e : pystr) :
  Py.int_of_float x = inl e ->
  e = Str.lit "cannot convert float NaN to integer"
  \/ e = Str.lit "cannot convert float infinity to integer".
Proof.
  unfold Py.int_of_float. destruct (Prim2SF x); intros Heq; inversion Heq; auto.
Qed.

Ltac simulated :=
  run_executor; cbn [fst simulated_check];
  first
    [ eapply int_of_float_raises; eassumption
    | split; [|reflexivity]; unfold simulated_result; cbn;
      repeat split; try discriminate;
      match goal with
      | |- context [if ?c then _ else _] => destruct c; auto
      end ].

Lemma builtin_check (tc : TestCase.t) config w :
  simulated_check tc
    (Py.str (Dict.get_default (Str.lit "base_url") config
                              (VStr (Str.lit "https://example-shop.com")))
     ++ Str.lit "/" ++ TestCase.test_function tc)
    (fst (EcommerceBundle.execute_test tc config w))
  /\ simulated_check tc
       (Py.str (Dict.get_default (Str.lit "base_url") config
                                 (VStr (Str.lit "https://example.com")))
        ++ Py.str (Dict.get_default (Str.lit "form_path") config
                                    (VStr (Str.lit "/contact"))))
       (fst (FormValidationBundle.execute_test tc config w))
  /\ simulated_check tc
       (Py.str (Dict.get_default (Str.lit "base_url") config
                                 (VStr (Str.lit "https://api.example.com")))
        ++ Str.lit "/v1/" ++ TestCase.test_function tc)
       (fst (APIHealthBundle.execute_test tc config w)).
Proof.
  split; [|split].
  - unfold EcommerceBundle.execute_test. simulated.
  - unfold FormValidationBundle.execute_test. simulated.
  - unfold APIHealthBundle.execute_test. simulated.
Qed.

(** X6.  The executors of the three bundles return a result of the simulated
    kind, whose link is built from the [base_url] of the configuration
    (from an address of their own when the key is missing); they raise
    only when [int] cannot convert the time they measured. *)
Theorem builtin_executors_report (tc : TestCase.t) config w :
  simulated_check tc
    (Py.str (Dict.get_default (Str.lit "base_url") config
                              (VStr (Str.lit "https://example-shop.com")))
     ++ Str.lit "/" ++ TestCase.test_function tc)
    (fst (EcommerceBundle.execute_test tc config w))
  /\ simulated_check tc
       (Py.str (Dict.get_default (Str.lit "base_url") config
                                 (VStr (Str.lit "https://example.com")))
        ++ Py.str (Dict.get_default (Str.lit "form_path") config
                                    (VStr (Str.lit "/contact"))))
       (fst (FormValidationBundle.execute_test tc config w))
  /\ simulated_check tc
       (Py.str (Dict.get_default (Str.lit "base_url") config
                                 (VStr (Str.lit "https://api.example.com")))
        ++ Str.lit "/v1/" ++ TestCase.test_function tc)
       (fst (APIHealthBundle.execute_test tc config w)).
Proof.
  split; [|split].
  - unfold EcommerceBundle.execute_test. simulated.
  - unfold FormValidationBundle.execute_test. simulated.
  - unfold APIHealthBundle.execute_test. simulated.
Qed.

End BuiltinExecutors.

Section BuiltinRuns.
Context `{Host}.
Implicit Types (b : TestBundle.t) (config : Dict.t pyval) (w : World).

Lemma execute_loop_Forall2 b config (P : TestCase.t -> TestResult.t -> Prop)
  cases :
  (forall tc w r w1, In tc cases ->
     TestBundle.execute_guarded b tc config w = (Ok r, w1) -> P tc r) ->
  forall w rs w',
    TestBundle.execute_loop b config cases [] w = (Ok rs, w') ->
    Forall2 P cases rs.
Proof.
  induction cases as [|tc cases IH]; intros HP w rs w'.
  - simpl. unfold ret. intros Heq. inversion Heq. constructor.
  - rewrite execute_loop_cons.
    destruct (TestBundle.execute_guarded b tc config w) as [[r|x] w1] eqn:Hturn;
      [|discriminate].
    destruct (TestBundle.execute_loop b config cases [] w1) as [[rs1|x] w2] eqn:Hrest;
      [|discriminate].
    intros Heq. inversion Heq; subst. constructor.
    + apply (HP tc w r w1); [now left|exact Hturn].
    + apply IH with w1 w'; [|exact Hrest].
      intros tc' w0 r' w3 Hin. apply HP. now right.
Qed.

(** The executors of the three bundles raise nothing but the
    [Exception]s of [int]. *)
Lemma builtin_contained b config (cases : list TestCase.t) :
  In b default_bundles -> contained b config cases.
Proof.
  intros Hb tc w _.
  pose proof (builtin_check tc config w) as (He & Hf & Ha).
  destruct Hb as [<-|[<-|[<-|[]]]];
    cbn [TestBundle.execute_test EcommerceBundle.bundle
         FormValidationBundle.bundle APIHealthBundle.bundle];
    [destruct (fst (EcommerceBundle.execute_test tc config w))
    |destruct (fst (FormValidationBundle.execute_test tc config w))
    |destruct (fst (APIHealthBundle.execute_test tc config w))];
    simpl in *; trivial.
Qed.

Lemma builtin_truth b : In b default_bundles -> TestBundle.truth b = true.
Proof. intros [<-|[<-|[<-|[]]]]; reflexivity. Qed.

(** A turn of the loop over a case of one of the three bundles: the
    result of the simulated kind with a link that starts with the base
    address, or the failed result of the [except] branch. *)
Lemma builtin_guarded b tc config w r w' :
  In b default_bundles ->
  TestBundle.execute_guarded b tc config w = (Ok r, w') ->
  (simulated_result tc r
   /\ exists fallback suffix,
        TestResult.url r
        = Some (Py.str (Dict.get_default (Str.lit "base_url") config
                                         (VStr fallback)) ++ suffix))
  \/ (TestResult.status r = FAILED /\ TestResult.url r = None
      /\ TestResult.error_message r <> None).
Proof.
  intros Hb.
  destruct (TestBundle.execute_test b tc config w) as [[r0|e|cls text] w1] eqn:Hex.
  - rewrite (execute_guarded_returned _ _ _ _ Hex). intros Heq.
    inversion Heq; subst r0 w1. left.
    pose proof (builtin_check tc config w) as (He & Hf & Ha).
    destruct Hb as [<-|[<-|[<-|[]]]];
      cbn [TestBundle.execute_test EcommerceBundle.bundle
           FormValidationBundle.bundle APIHealthBundle.bundle] in Hex;
      [rewrite Hex in He; destruct He as [Hr Hurl]
      |rewrite Hex in Hf; destruct Hf as [Hr Hurl]
      |rewrite Hex in Ha; destruct Ha as [Hr Hurl]];
      (split; [exact Hr|]); rewrite Hurl; do 2 eexists; reflexivity.
  - rewrite (execute_guarded_raised _ _ _ _ Hex). intros Heq.
    inversion Heq; subst r. right. repeat split. discriminate.
  - rewrite (execute_guarded_escaping _ _ _ _ Hex). discriminate.
Qed.

Lemma count_status_none (s : TestStatus) (results : list TestResult.t) :
  Forall (fun r => TestResult.status r <> s) results ->
  TestRunner.count_status s results = 0.
Proof.
  induction 1 as [|r results Hr _ IH]; [reflexivity|].
  rewrite count_status_cons, IH.
  destruct (TestResult.status r), s; try reflexivity; congruence.
Qed.

Lemma default_registry_holds (id : pystr) b :
  BundleRegistry.get_bundle BundleRegistry.init id = Some b ->
  In b default_bundles.
Proof.
  intros Hget. unfold default_bundles.
  destruct (default_registry_bundles _ Hget) as [-> | [-> | ->]]; simpl; auto.
Qed.

(** X7.  A run of one of the three bundles counts every result as passed or
    as failed: nothing is skipped, and the two counts add up to the
    number of cases, seven or six. *)
Theorem builtin_run_counts (id : pystr) b config w :
  BundleRegistry.get_bundle BundleRegistry.init id = Some b ->
  fst (TestBundle.validate_config b config) = true ->
  exists out w' passed failed,
    TestRunner.run_bundle BundleRegistry.init id config w = (Ok out, w')
    /\ Outcome.statistic out (Str.lit "passed") = Ok (VInt (Z.of_nat passed))
    /\ Outcome.statistic out (Str.lit "failed") = Ok (VInt (Z.of_nat failed))
    /\ Outcome.statistic out (Str.lit "skipped") = Ok (VInt 0)
    /\ Outcome.statistic out (Str.lit "total_tests")
       = Ok (VInt (Z.of_nat (passed + failed)))
    /\ passed + failed = length (TestBundle.get_test_cases b)
    /\ (passed + failed = 7 \/ passed + failed = 6).
Proof.
  intros Hget Hvalid.
  pose proof (default_registry_holds _ Hget) as Hb.
  rewrite (run_bundle_valid _ _ _ _ Hget (builtin_truth Hb) Hvalid).
  set (w0 := snd (time_time w)).
  destruct (execute_loop_contained w0
              (builtin_contained config (TestBundle.get_test_cases b) Hb))
    as (results & w1 & Hrun).
  unfold TestBundle.execute_bundle. rewrite Hrun.
  assert (Hstatus : Forall (fun r => TestResult.status r = PASSED
                                     \/ TestResult.status r = FAILED) results).
  { assert (H2 : Forall2 (fun _ r => TestResult.status r = PASSED
                                     \/ TestResult.status r = FAILED)
                         (TestBundle.get_test_cases b) results).
    { eapply execute_loop_Forall2; [|exact Hrun]. intros tc w2 r w3 _ Hturn.
      destruct (builtin_guarded _ _ _ Hb Hturn)
        as [((_ & _ & [[-> _]|[-> _]] & _) & _) | (-> & _)]; auto. }
    clear -H2. induction H2; constructor; auto. }
  assert (Hlen : length results = length (TestBundle.get_test_cases b))
    by exact (execute_loop_length _ _ _ _ Hrun).
  pose proof (count_status_partition results) as Hpart.
  rewrite (@count_status_none SKIPPED), (@count_status_none PENDING),
    (@count_status_none RUNNING) in Hpart;
    try (eapply Forall_impl; [|exact Hstatus];
         intros r [Hr|Hr]; rewrite Hr; discriminate).
  do 2 eexists.
  exists (TestRunner.count_status PASSED results),
         (TestRunner.count_status FAILED results).
  split; [reflexivity|]. split; [reflexivity|]. split; [reflexivity|].
  split.
  - unfold Outcome.statistic, TestRunner.run_outcome,
      TestRunner._calculate_statistics. cbn.
    rewrite (@count_status_none SKIPPED); [reflexivity|].
    eapply Forall_impl; [|exact Hstatus].
    intros r [Hr|Hr]; rewrite Hr; discriminate.
  - split; [|split; [lia|]].
    + unfold Outcome.statistic, TestRunner.run_outcome,
        TestRunner._calculate_statistics. cbn. do 3 f_equal. lia.
    + rewrite Nat.add_0_r in Hpart. rewrite Nat.add_0_r in Hpart.
      rewrite Nat.add_0_r in Hpart. rewrite Hpart, Hlen.
      destruct Hb as [<-|[<-|[<-|[]]]]; cbn; auto.
Qed.

(** X8.  In a run of one of the three bundles that the validation let
    through, the configuration holds a true value under [base_url], the
    bundle is executed to its end, and every result either carries a
    link that starts with the text of this value or is the failed result
    of a check that raised, without link: the address an executor would
    fall back to is never used. *)
Theorem builtin_links_use_config (id : pystr) b config w :
  BundleRegistry.get_bundle BundleRegistry.init id = Some b ->
  fst (TestBundle.validate_config b config) = true ->
  exists base results w',
    Dict.get (Str.lit "base_url") config = Some base
    /\ Value.truthy base = true
    /\ TestBundle.execute_bundle b config w = (Ok results, w')
    /\ Forall2
         (fun tc r =>
            (simulated_result tc r
             /\ exists suffix,
                  TestResult.url r = Some (Py.str base ++ suffix))
            \/ (TestResult.status r = FAILED /\ TestResult.url r = None
                /\ TestResult.error_message r <> None))
         (TestBundle.get_test_cases b)
         results.
Proof.
  intros Hget Hvalid.
  pose proof (default_registry_holds _ Hget) as Hb.
  assert (Hbase : exists f, In (Str.lit "base_url", f)
                               (TestBundle.get_config_schema b)
                            /\ ConfigField.required f = true).
  { destruct Hb as [<-|[<-|[<-|[]]]]; eexists; split;
      try (left; reflexivity); reflexivity. }
  destruct Hbase as (f & Hin & Hreq).
  unfold TestBundle.validate_config in Hvalid.
  destruct (proj1 (validate_items_accepts _ _) Hvalid _ _ Hin Hreq)
    as (base & Hconfig & Htrue).
  destruct (execute_loop_contained w
              (builtin_contained config (TestBundle.get_test_cases b) Hb))
    as (results & w' & Hrun).
  exists base, results, w'. split; [exact Hconfig|]. split; [exact Htrue|].
  split; [exact Hrun|].
  eapply execute_loop_Forall2; [|exact Hrun]. intros tc w1 r w2 _ Hturn.
  destruct (builtin_guarded _ _ _ Hb Hturn)
    as [(Hr & fallback & suffix & Hurl) | Hfailed]; [left|now right].
  split; [exact Hr|]. exists suffix. rewrite Hurl.
  unfold Dict.get_default. now rewrite Hconfig.
Qed.

End BuiltinRuns.

Section SimulatedBuiltinRuns.
#[local] Existing Instance Sim.host.

(** The e-commerce bundle on the simulated host: seven results, none
    skipped. *)
Lemma builtin_run_counts_ecommerce :
  exists out w' passed failed,
    TestRunner.run_bundle (H := Sim.host) BundleRegistry.init
      (Str.lit "e-commerce_checkout_flow") Sim.sample_config 0%float
    = (Ok out, w')
    /\ Outcome.statistic out (Str.lit "skipped") = Ok (VInt 0)
    /\ Outcome.statistic out (Str.lit "total_tests")
       = Ok (VInt (Z.of_nat (passed + failed)))
    /\ passed + failed = 7.
Proof.
  destruct (@builtin_run_counts Sim.host (Str.lit "e-commerce_checkout_flow")
              EcommerceBundle.bundle Sim.sample_config 0%float)
    as (out & w' & passed & failed & Hrun & _ & _ & Hskipped & Htotal & Hlen & _).
  - reflexivity.
  - reflexivity.
  - exists out, w', passed, failed. repeat split; assumption.
Defined.

(** The links of the e-commerce results on the simulated host start
    with the address of the configuration. *)
Lemma builtin_links_use_config_ecommerce :
  exists base results w',
    Dict.get (Str.lit "base_url") Sim.sample_config = Some base
    /\ base = VStr (Str.lit "https://example.com")
    /\ TestBundle.execute_bundle (H := Sim.host) EcommerceBundle.bundle
         Sim.sample_config 0%float = (Ok results, w')
    /\ length results = 7
    /\ Forall (fun r => exists suffix,
                 TestResult.url r
                 = Some (Str.lit "https://example.com" ++ suffix))
         results.
Proof.
  destruct (@builtin_links_use_config Sim.host
              (Str.lit "e-commerce_checkout_flow") EcommerceBundle.bundle
              Sim.sample_config 0%float)
    as (base & results & w' & Hbase & _ & Hrun & Hall).
  - reflexivity.
  - reflexivity.
  - exists base, results, w'. split; [exact Hbase|].
    inversion Hbase; subst base.
    split; [reflexivity|]. split; [exact Hrun|].
    assert (Hresults :
      TestBundle.execute_bundle (H := Sim.host) EcommerceBundle.bundle
        Sim.sample_config 0%float
      = (Ok (Sim.results_of
               (TestBundle.execute_bundle (H := Sim.host)
                  EcommerceBundle.bundle Sim.sample_config 0%float)),
         3.5%float))
      by (vm_compute; reflexivity).
    rewrite Hresults in Hrun. inversion Hrun; subst results.
    split; [reflexivity|].
    vm_compute. repeat constructor; eexists; reflexivity.
Defined.

End SimulatedBuiltinRuns.

Section ResultDictionaries.
Context `{Host}.

Lemma Status_value_injective (s1 s2 : TestStatus) :
  Status.value s1 = Status.value s2 -> s1 = s2.
Proof. destruct s1, s2; intros Heq; try reflexivity; discriminate Heq. Qed.

Lemma of_opt_str_injective (o1 o2 : option pystr) :
  Value.of_opt_str o1 = Value.of_opt_str o2 -> o1 = o2.
Proof.
  destruct o1, o2; intros Heq; try reflexivity; try discriminate Heq.
  now inversion Heq.
Qed.

(** X9.  [to_dict] loses nothing: two results have the same dictionary only
    when they are the same result.  The dictionary has the eight keys of
    the source in their order, whatever the result. *)
Theorem to_dict_loses_nothing (r1 r2 : TestResult.t) :
  (TestResult.to_dict r1 = TestResult.to_dict r2 <-> r1 = r2)
  /\ Dict.keys (TestResult.to_dict r1)
     = map Str.lit [ "name"; "description"; "status"; "duration_ms";
                     "details"; "url"; "timestamp"; "error_message" ]%string.
Proof.
  split; [|reflexivity]. split; [|now intros ->].
  destruct r1 as [n1 d1 s1 ms1 det1 u1 ts1 e1],
           r2 as [n2 d2 s2 ms2 det2 u2 ts2 e2].
  unfold TestResult.to_dict. cbn [TestResult.name TestResult.description
    TestResult.status TestResult.duration_ms TestResult.details TestResult.url
    TestResult.timestamp TestResult.error_message].
  intros Heq. inversion Heq as [[Hn Hd Hs Hms Hdet Hu Hts He]].
  apply Status_value_injective in Hs.
  apply of_opt_str_injective in Hu, He. now subst.
Qed.

End ResultDictionaries.

Section OutcomeFacts.
Context `{Host}.
Implicit Types (b : TestBundle.t) (config : Dict.t pyval) (w : World).

(** X10.  The parts of an outcome that [run_bundle] returns agree: the bundle
    is the registered one, the test count of the bundle information, the
    total of the statistics and the number of results are the number of
    cases, the configuration is the one given, and the seconds of the
    statistics are the execution time rounded to two decimals. *)
Theorem run_outcome_parts_agree (reg : BundleRegistry.t) (id : pystr)
  config w out w' :
  TestRunner.run_bundle reg id config w = (Ok out, w') ->
  exists b results t,
    BundleRegistry.get_bundle reg id = Some b
    /\ out = TestRunner.run_outcome b config results t
    /\ length results = length (TestBundle.get_test_cases b)
    /\ Dyn.item out (Str.lit "bundle_info")
       = Ok (VDict (TestBundle.get_bundle_info b))
    /\ Dict.get (Str.lit "test_count") (TestBundle.get_bundle_info b)
       = Some (VInt (Z.of_nat (length results)))
    /\ Outcome.statistic out (Str.lit "total_tests")
       = Ok (VInt (Z.of_nat (length results)))
    /\ Outcome.result_fields out (Str.lit "name")
       = Ok (map (fun r => VStr (TestResult.name r)) results)
    /\ Dyn.item out (Str.lit "config") = Ok (VDict config)
    /\ Dyn.item out (Str.lit "execution_time") = Ok (VFloat t)
    /\ Outcome.statistic out (Str.lit "execution_time_seconds")
       = Ok (VFloat (Py.round2 t)).
Proof.
  intros Hrun.
  destruct (BundleRegistry.get_bundle reg id) as [b|] eqn:Hget.
  2: { rewrite run_bundle_unknown in Hrun by exact Hget. discriminate. }
  destruct (TestBundle.truth b) eqn:Htruth.
  2: { rewrite run_bundle_false with (b := b) in Hrun by assumption.
       discriminate. }
  destruct (TestBundle.validate_config b config) as [[|] msg] eqn:Hvalid.
  2: { rewrite run_bundle_invalid with (b := b) (msg := msg) in Hrun
         by assumption. discriminate. }
  destruct (@run_bundle_returned _ reg id b config w out w')
    as (results & w1 & Hex & -> & _); trivial; [now rewrite Hvalid|].
  do 3 eexists. split; [reflexivity|]. split; [reflexivity|].
  assert (Hlen : length results = length (TestBundle.get_test_cases b))
    by exact (execute_loop_length _ _ _ _ Hex).
  split; [exact Hlen|]. split; [reflexivity|].
  split; [cbn; now rewrite Hlen|]. split; [reflexivity|].
  split; [apply result_fields_name|]. repeat split.
Qed.

End OutcomeFacts.

Section MissingKeys.
Context `{Host}.

(** X11.  The three renderers that read the outcome look up [statistics]
    first and [bundle_info] second, and raise [KeyError] with the key
    that is missing. *)
Theorem renderers_raise_on_missing_key (test_results : Dict.t pyval) :
  (Dict.get (Str.lit "statistics") test_results = None ->
   ReportGenerator.generate_text_report test_results
   = Raise (KeyError (Str.lit "statistics"))
   /\ ReportGenerator.generate_html_summary test_results
      = Raise (KeyError (Str.lit "statistics"))
   /\ ReportGenerator.generate_canvas_report test_results
      = Raise (KeyError (Str.lit "statistics")))
  /\ (Dict.get (Str.lit "statistics") test_results <> None ->
      Dict.get (Str.lit "bundle_info") test_results = None ->
      ReportGenerator.generate_text_report test_results
      = Raise (KeyError (Str.lit "bundle_info"))
      /\ ReportGenerator.generate_html_summary test_results
         = Raise (KeyError (Str.lit "bundle_info"))
      /\ ReportGenerator.generate_canvas_report test_results
         = Raise (KeyError (Str.lit "bundle_info"))).
Proof.
  unfold ReportGenerator.generate_text_report,
    ReportGenerator.generate_html_summary,
    ReportGenerator.generate_canvas_report, ReportGenerator.canvas_lines,
    Dyn.item.
  split.
  - intros ->. repeat split.
  - destruct (Dict.get (Str.lit "statistics") test_results);
      [|congruence]. intros _ ->. repeat split.
Qed.

End MissingKeys.

Section CanvasTotality.
Context `{Host}.

Lemma Forall_or_Exists_url (results : list TestResult.t) :
  Forall (fun r => TestResult.url r <> None) results
  \/ Exists (fun r => TestResult.url r = None) results.
Proof.
  induction results as [|r results [IH|IH]].
  - left. constructor.
  - destruct (TestResult.url r) eqn:Hu.
    + left. constructor; [congruence|exact IH].
    + right. now left.
  - right. now right.
Qed.

Lemma omap_canvas_result_links (results : list TestResult.t) :
  Forall (fun r => TestResult.url r <> None) results ->
  exists blocks,
    omap ReportGenerator.canvas_result
         (map (fun r => VDict (TestResult.to_dict r)) results) = Ok blocks
    /\ length blocks = length results.
Proof.
  induction 1 as [|r results Hr _ (blocks & IH & Hlen)].
  - now exists [].
  - cbn [map omap]. rewrite canvas_result_to_dict.
    destruct (TestResult.url r) as [u|]; [|congruence].
    destruct (@wrap_lines_ok _ (Str.lit "Detail: ") (TestResult.details r))
      as (dl & -> & _); [simpl; lia|repeat constructor; discriminate|].
    destruct (@wrap_lines_ok _ (Str.lit "Link: ") u)
      as (ll & Hll & _); [simpl; lia|repeat constructor; discriminate|].
    simpl Value.of_opt_str. rewrite Hll. cbn [obind]. rewrite IH.
    eexists. split; [reflexivity|]. simpl. now rewrite Hlen.
Qed.

Lemma canvas_report_with_links (b : TestBundle.t) (config : Dict.t pyval)
  (results : list TestResult.t) (t : float) :
  Forall (fun r => TestResult.url r <> None) results ->
  exists canvas,
    ReportGenerator.generate_canvas_report
      (TestRunner.run_outcome b config results t) = Ok canvas.
Proof.
  intros Hall. unfold ReportGenerator.generate_canvas_report.
  destruct (canvas_lines_run_outcome b config results t)
    as (summary & duration & ->).
  destruct (wrap_block_ok (TestBundle.description b)) as (block & -> & _).
  destruct (@wrap_lines_ok _ (Str.lit "Summary: ") summary)
    as (sl & -> & _); [simpl; lia|repeat constructor; discriminate|].
  destruct (@wrap_lines_ok _ (Str.lit "Duration: ") duration)
    as (dl & -> & _); [simpl; lia|repeat constructor; discriminate|].
  destruct (omap_canvas_result_links Hall) as (blocks & -> & _).
  cbn [obind]. eauto.
Qed.

Lemma canvas_report_without_link (b : TestBundle.t) (config : Dict.t pyval)
  (results : list TestResult.t) (t : float) :
  Exists (fun r => TestResult.url r = None) results ->
  ReportGenerator.generate_canvas_report
    (TestRunner.run_outcome b config results t)
  = Raise (AttributeError
             (Str.lit "'NoneType' object has no attribute 'expandtabs'")).
Proof.
  intros Hnull. unfold ReportGenerator.generate_canvas_report.
  destruct (canvas_lines_run_outcome b config results t)
    as (summary & duration & ->).
  destruct (wrap_block_ok (TestBundle.description b)) as (block & -> & _).
  destruct (@wrap_lines_ok _ (Str.lit "Summary: ") summary)
    as (sl & -> & _); [simpl; lia|repeat constructor; discriminate|].
  destruct (@wrap_lines_ok _ (Str.lit "Duration: ") duration)
    as (dl & -> & _); [simpl; lia|repeat constructor; discriminate|].
  now rewrite (omap_canvas_result_null_url Hnull).
Qed.

(** X12.  The canvas of a run outcome is rendered exactly when every result
    has a link, whatever the names and the texts are; otherwise the
    renderer raises [AttributeError]. *)
Theorem canvas_rendered_iff_links (b : TestBundle.t) (config : Dict.t pyval)
  (results : list TestResult.t) (t : float) :
  let report := ReportGenerator.generate_canvas_report
                  (TestRunner.run_outcome b config results t) in
  ((exists canvas, report = Ok canvas)
   <-> Forall (fun r => TestResult.url r <> None) results)
  /\ ((exists msg, report = Raise (AttributeError msg))
      <-> Exists (fun r => TestResult.url r = None) results)
  /\ ((exists canvas, report = Ok canvas)
      \/ exists msg, report = Raise (AttributeError msg)).
Proof.
  cbv zeta.
  destruct (Forall_or_Exists_url results) as [Hall|Hex].
  - destruct (canvas_report_with_links b config t Hall) as (canvas & ->).
    split; [|split].
    + split; eauto.
    + split; [intros (msg & Hmsg); discriminate Hmsg|].
      intros Hex. exfalso. apply Exists_exists in Hex as (r & Hin & Hr).
      rewrite Forall_forall in Hall. now apply (Hall r).
    + left. eauto.
  - rewrite (canvas_report_without_link b config t Hex).
    split; [|split].
    + split; [intros (canvas & Hc); discriminate Hc|].
      intros Hall. exfalso. apply Exists_exists in Hex as (r & Hin & Hr).
      rewrite Forall_forall in Hall. now apply (Hall r).
    + split; eauto.
    + right. eauto.
Qed.

End CanvasTotality.

Section CanvasContent.
Context `{Host}.

(** X13.  The rows of a text on the canvas keep all of it that is not white
    space, in order: [wrap_block] frames lines of at most 66 characters,
    [wrap_lines] puts the prefix in front of the first line and as many
    spaces in front of the others. *)
Theorem canvas_rows_keep_text (text : pystr) :
  (exists wrapped,
     ReportGenerator.wrap_block (VStr text)
     = Ok (map (fun line => Str.lit "| " ++ Str.ljust line 66 ++ Str.lit " |")
               wrapped)
     /\ wrapped <> []
     /\ Forall (fun line => length line <= 66) wrapped
     /\ visible (concat wrapped) = visible text)
  /\ (forall prefix,
        length prefix <= 66 ->
        let inner := (67 - Z.of_nat (length prefix))%Z in
        exists first more,
          ReportGenerator.wrap_lines prefix (VStr text)
          = Ok ((Str.lit "| " ++ prefix ++ Str.ljust first inner
                 ++ Str.lit "|")
                :: map (fun line =>
                          Str.lit "| " ++ Str.rep Str.space (length prefix)
                          ++ Str.ljust line inner ++ Str.lit "|") more)
          /\ Forall (fun line => (Z.of_nat (length line) <= inner)%Z)
                    (first :: more)
          /\ visible (concat (first :: more)) = visible text).
Proof.
  assert (Hwrap : forall inner : Z, (0 < inner)%Z ->
            exists wrapped,
              Textwrap.wrap text inner = Ok wrapped
              /\ ReportGenerator.or_blank wrapped <> []
              /\ Forall (fun line => (Z.of_nat (length line) <= inner)%Z)
                        (ReportGenerator.or_blank wrapped)
              /\ visible (concat (ReportGenerator.or_blank wrapped))
                 = visible text).
  { intros inner Hpos.
    destruct (wrap_returns text Hpos) as (wrapped & Hw & Hfit & _ & Hvis).
    exists wrapped. split; [exact Hw|].
    destruct wrapped as [|l ls]; cbn [ReportGenerator.or_blank].
    - split; [discriminate|]. split; [|exact Hvis].
      repeat constructor. simpl. lia.
    - split; [discriminate|]. now split. }
  split.
  - destruct (Hwrap 66%Z ltac:(lia)) as (wrapped & Hw & Hne & Hfit & Hvis).
    exists (ReportGenerator.or_blank wrapped).
    unfold ReportGenerator.wrap_block, ReportGenerator.wrap_value.
    change (ReportGenerator.width - 4)%Z with 66%Z. rewrite Hw. cbn [obind].
    split; [reflexivity|]. split; [exact Hne|]. split; [|exact Hvis].
    eapply Forall_impl; [|exact Hfit]. intros line Hl. cbv beta in Hl. lia.
  - intros prefix Hprefix inner.
    destruct (Hwrap inner ltac:(subst inner; lia))
      as (wrapped & Hw & Hne & Hfit & Hvis).
    unfold ReportGenerator.wrap_lines, ReportGenerator.wrap_value. cbv zeta.
    replace (ReportGenerator.width - Z.of_nat (length prefix) - 3)%Z
      with inner by (subst inner; unfold ReportGenerator.width; lia).
    rewrite Hw. cbn [obind].
    destruct (ReportGenerator.or_blank wrapped) as [|first more];
      [congruence|].
    exists first, more. now split.
Qed.

End CanvasContent.

Section BlankText.
Context `{Host}.

Lemma expandtabs_whitespace (text : pystr) : forall line_pos,
  forallb Textwrap.is_whitespace text = true ->
  forallb Textwrap.is_whitespace (Textwrap.expandtabs line_pos text) = true.
Proof.
  induction text as [|c text IH]; intros line_pos Hall; [reflexivity|].
  cbn [forallb] in Hall. apply andb_true_iff in Hall as [Hc Hrest].
  cbn [Textwrap.expandtabs]. destruct (c =? 9)%N.
  - rewrite forallb_app, IH by exact Hrest. rewrite andb_true_r.
    unfold Str.rep. apply forallb_forall. intros x Hx.
    apply repeat_spec in Hx. now subst x.
  - cbn [forallb]. now rewrite Hc, IH.
Qed.

(** Text of white space is text of spaces once it is munged. *)
Lemma munge_whitespace_only (text : pystr) :
  forallb Textwrap.is_whitespace text = true ->
  exists n, Textwrap._munge_whitespace text = Str.rep Str.space n.
Proof.
  intros Hall. unfold Textwrap._munge_whitespace.
  pose proof (expandtabs_whitespace text 0 Hall) as Hexp.
  exists (length (Textwrap.expandtabs 0 text)).
  induction (Textwrap.expandtabs 0 text) as [|c l IH]; [reflexivity|].
  cbn [forallb] in Hexp. apply andb_true_iff in Hexp as [Hc Hl].
  cbn [map length]. rewrite Hc, IH by exact Hl. reflexivity.
Qed.

Lemma leading_rep_space (n : nat) :
  Textwrap.leading Textwrap.is_whitespace (Str.rep Str.space n) = n.
Proof. induction n as [|n IH]; [reflexivity|]. simpl. now rewrite IH. Qed.

(** A run of spaces is one chunk. *)
Lemma split_spaces (n : nat) :
  Textwrap._split (Str.rep Str.space (S n)) = [Str.rep Str.space (S n)].
Proof.
  unfold Textwrap._split. rewrite length_rep.
  cbn [Textwrap.split_from]. change (Str.rep Str.space (S n))
    with (Str.space :: Str.rep Str.space n).
  cbn [Textwrap.chunk_len]. change (Textwrap.is_whitespace Str.space) with true.
  cbv iota.
  change (Str.space :: Str.rep Str.space n) with (Str.rep Str.space (S n)).
  rewrite leading_rep_space.
  rewrite firstn_all2, skipn_all2 by (rewrite length_rep; lia).
  f_equal. now destruct n.
Qed.

Lemma is_blank_rep_space (n : nat) : Str.is_blank (Str.rep Str.space n) = true.
Proof. induction n as [|n IH]; [reflexivity|exact IH]. Qed.

Lemma rfind_hyphen_spaces (n stop : nat) :
  Textwrap.rfind_hyphen (Str.rep Str.space n) stop = None.
Proof.
  induction stop as [|i IH]; [reflexivity|]. cbn [Textwrap.rfind_hyphen].
  unfold Textwrap.at_is.
  destruct (nth_error (Str.rep Str.space n) i) as [c|] eqn:Hnth; [|exact IH].
  apply nth_error_In, repeat_spec in Hnth. subst c. exact IH.
Qed.

Lemma firstn_rep (c : pychar) (k : nat) : forall n,
  firstn k (Str.rep c n) = Str.rep c (Nat.min k n).
Proof.
  induction k as [|k IH]; intros [|n]; try reflexivity.
  cbn [Nat.min]. change (Str.rep c (S ?m)) with (c :: Str.rep c m).
  cbn [firstn]. now rewrite IH.
Qed.

Lemma skipn_rep (c : pychar) (k : nat) : forall n,
  skipn k (Str.rep c n) = Str.rep c (n - k).
Proof.
  induction k as [|k IH]; intros [|n]; try reflexivity.
  change (Str.rep c (S n)) with (c :: Str.rep c n).
  cbn [skipn Nat.sub]. apply IH.
Qed.

(** A turn of the loop on a single chunk of spaces adds no line and
    leaves a single chunk of spaces or none. *)
Lemma wrap_step_spaces (width n : nat) :
  1 <= width ->
  snd (Textwrap.wrap_step width [Str.rep Str.space n] []) = []
  /\ (fst (Textwrap.wrap_step width [Str.rep Str.space n] []) = []
      \/ exists m, fst (Textwrap.wrap_step width [Str.rep Str.space n] [])
                   = [Str.rep Str.space m]).
Proof.
  intros Hw. unfold Textwrap.wrap_step. cbn [Textwrap.take_fitting].
  rewrite length_rep. cbn [Nat.add].
  destruct (Nat.leb_spec n width) as [Hfit|Hlong].
  - cbn [app Textwrap.take_fitting]. unfold Textwrap.drop_trailing_blank.
    cbn [rev app]. rewrite is_blank_rep_space. cbn. auto.
  - rewrite length_rep. destruct (Nat.ltb_spec width n) as [_|]; [|lia].
    unfold Textwrap._handle_long_word. rewrite length_rep, Nat.sub_0_r.
    destruct (Nat.ltb_spec width n) as [_|]; [|lia].
    rewrite rfind_hyphen_spaces. cbn [app].
    unfold Textwrap.drop_trailing_blank. cbn [rev app].
    rewrite firstn_rep, skipn_rep, is_blank_rep_space. cbn. split; [reflexivity|]. right. eauto.
Qed.

(** Text of white space wraps to no line at all. *)
Lemma wrap_whitespace_only (text : pystr) (width : Z) :
  (0 < width)%Z -> forallb Textwrap.is_whitespace text = true ->
  Textwrap.wrap text width = Ok [].
Proof.
  intros Hw Hall. unfold Textwrap.wrap, Textwrap._wrap_chunks.
  destruct (Z.leb_spec width 0) as [Hle|_]; [lia|].
  destruct (munge_whitespace_only text Hall) as (n & ->).
  set (chunks := Textwrap._split (Str.rep Str.space n)).
  pose (Inv := fun (cs ls : list pystr) =>
                 ls = [] /\ (cs = [] \/ exists m, cs = [Str.rep Str.space m])).
  destruct (@wrap_loop_invariant (Z.to_nat width) Inv ltac:(lia))
    with (fuel := Textwrap.chunks_measure chunks) (chunks := chunks)
         (lines := @nil pystr)
    as (out & -> & Hout & _).
  - intros cs ls Hne (-> & [->|(m & ->)]); [congruence|].
    apply wrap_step_spaces. lia.
  - apply Nat.le_refl.
  - split; [reflexivity|]. subst chunks. destruct n as [|n]; [now left|].
    right. exists (S n). apply split_spaces.
  - now rewrite Hout.
Qed.

(** X14.  Text of white space (blanks, tabs, line breaks) or no text at all
    gets one row of spaces on the canvas; the row of spaces stands in
    only for a text without a visible character. *)
Theorem blank_text_gets_one_row (text : pystr) :
  (forallb Textwrap.is_whitespace text = true ->
   ReportGenerator.wrap_block (VStr text)
   = Ok [Str.lit "| " ++ Str.rep Str.space 66 ++ Str.lit " |"]
   /\ forall prefix,
        length prefix <= 66 ->
        ReportGenerator.wrap_lines prefix (VStr text)
        = Ok [Str.lit "| " ++ prefix
              ++ Str.rep Str.space (67 - length prefix) ++ Str.lit "|"])
  /\ (forall width : Z, Textwrap.wrap text width = Ok [] -> visible text = []).
Proof.
  split.
  - intros Hall. split.
    + unfold ReportGenerator.wrap_block, ReportGenerator.wrap_value.
      rewrite wrap_whitespace_only by (trivial; reflexivity). reflexivity.
    + intros prefix Hprefix.
      unfold ReportGenerator.wrap_lines, ReportGenerator.wrap_value.
      cbv zeta. rewrite wrap_whitespace_only
        by (trivial; unfold ReportGenerator.width; lia).
      cbn [obind ReportGenerator.or_blank]. unfold Str.ljust.
      cbn [length app].
      match goal with
      | |- context [Z.to_nat ?z] =>
          replace (Z.to_nat z) with (67 - length prefix)
            by (unfold ReportGenerator.width; lia)
      end.
      reflexivity.
  - intros width Hwrap.
    destruct (Z.leb_spec width 0) as [Hle|Hpos].
    + unfold Textwrap.wrap, Textwrap._wrap_chunks in Hwrap.
      destruct (Z.leb_spec width 0); [discriminate Hwrap|lia].
    + destruct (wrap_returns text Hpos) as (lines & Hlines & _ & _ & Hvis).
      rewrite Hwrap in Hlines. inversion Hlines; subst lines. now rewrite <- Hvis.
Qed.

End BlankText.

Lemma truediv_zero (p : positive) : Py.int_truediv 0 (Zpos p) = 0%float.
Proof. reflexivity. Qed.

Lemma truediv_self (p : positive) : Py.int_truediv (Zpos p) (Zpos p) = 1%float.
Proof.
  unfold Py.int_truediv, Py.SF_of_Z, SFdiv, SFdiv_core_binary.
  replace (Zdigits2 (Zpos p) + 0 - (Zdigits2 (Zpos p) + 0))%Z with 0%Z by lia.
  change (Z.min (fexp prec emax 0) (0 - 0)) with (-53)%Z.
  change (0 - 0 - -53)%Z with 53%Z. cbv zeta iota.
  destruct (Z.div_eucl (Z.shiftl (Zpos p) 53) (Zpos p)) as [q r] eqn:Hdiv.
  assert (Hq : q = (2 ^ 53)%Z).
  { change q with (fst (q, r)). rewrite <- Hdiv.
    change (fst (Z.div_eucl ?a ?b)) with (Z.div a b).
    rewrite Z.shiftl_mul_pow2 by lia. rewrite Z.mul_comm.
    apply Z.div_mul. discriminate. }
  assert (Hr : r = 0%Z).
  { change r with (snd (q, r)). rewrite <- Hdiv.
    change (snd (Z.div_eucl ?a ?b)) with (Z.modulo a b).
    rewrite Z.shiftl_mul_pow2 by lia. rewrite Z.mul_comm.
    apply Z.mod_mul. discriminate. }
  subst q r. unfold new_location.
  destruct (Z.even (Zpos p)); reflexivity.
Qed.


Section StatisticsMore.
Context `{Host}.
Implicit Types (results : list TestResult.t).

Lemma count_status_all (s : TestStatus) results :
  Forall (fun r => TestResult.status r = s) results ->
  TestRunner.count_status s results = length results.
Proof.
  induction 1 as [|r results Hr _ IH]; [reflexivity|].
  rewrite count_status_cons, IH, Hr. now destruct s.
Qed.

(** X15.  The pass rate at its ends: when there are results and all of them
    passed it is the float 100.0, when none of them passed it is the
    float 0.0; without results it is the integer 0. *)
Theorem pass_rate_at_the_ends results (t : float) :
  let pass_rate :=
    Dict.get (Str.lit "pass_rate")
             (TestRunner._calculate_statistics results t) in
  (results <> [] ->
   Forall (fun r => TestResult.status r = PASSED) results ->
   pass_rate = Some (VFloat 100%float))
  /\ (results <> [] ->
      Forall (fun r => TestResult.status r <> PASSED) results ->
      pass_rate = Some (VFloat 0%float))
  /\ (results = [] -> pass_rate = Some (VInt 0)).
Proof.
  cbv zeta. unfold TestRunner._calculate_statistics.
  split; [|split].
  - intros Hne Hall. rewrite (count_status_all Hall).
    destruct results as [|r results]; [congruence|].
    cbn. unfold TestRunner.pass_rate_of. cbn [Nat.ltb Nat.leb length].
    change (Z.of_nat (S (length results)))
      with (Zpos (Pos.of_succ_nat (length results))).
    rewrite truediv_self. reflexivity.
  - intros Hne Hnone. rewrite (count_status_none Hnone).
    destruct results as [|r results]; [congruence|]. reflexivity.
  - intros ->. reflexivity.
Qed.

(** X16.  The statistics do not depend on the order of the results. *)
Theorem statistics_ignore_order results results' (t : float) :
  Permutation results results' ->
  TestRunner._calculate_statistics results t
  = TestRunner._calculate_statistics results' t.
Proof.
  intros Hperm.
  assert (Hcount : forall s, TestRunner.count_status s results
                             = TestRunner.count_status s results').
  { intros s. induction Hperm as [|r l l' _ IH|r1 r2 l|l l' l'' _ IH1 _ IH2].
    - reflexivity.
    - now rewrite !count_status_cons, IH.
    - rewrite !count_status_cons. lia.
    - now rewrite IH1. }
  assert (Hsum : TestRunner.sum_durations results
                 = TestRunner.sum_durations results').
  { clear Hcount. rewrite !sum_durations_spec.
    induction Hperm as [|r l l' _ IH|r1 r2 l|l l' l'' _ IH1 _ IH2];
      cbn [map fold_right]; lia. }
  unfold TestRunner._calculate_statistics.
  now rewrite !Hcount, Hsum, (Permutation_length Hperm).
Qed.

End StatisticsMore.



Section JsonAscii.
Context `{Host}.

Lemma json_chars_app (a b : pystr) :
  forallb json_char (a ++ b) = forallb json_char a && forallb json_char b.
Proof. apply forallb_app. Qed.

Lemma json_chars_of_N (n : N) : forallb json_char (Str.of_N n) = true.
Proof.
  destruct (of_N_spec n) as (Hall & _).
  apply forallb_forall. intros c Hin.
  rewrite forallb_forall in Hall. specialize (Hall c Hin).
  unfold Json.is_digit in Hall. unfold json_char.
  apply andb_true_iff in Hall as [Hlo Hhi].
  apply N.leb_le in Hlo, Hhi. apply orb_true_iff. right.
  apply andb_true_iff. split; apply N.leb_le; lia.
Qed.

Lemma json_chars_of_Z (z : Z) : forallb json_char (Str.of_Z z) = true.
Proof.
  destruct z as [|p|p]; unfold Str.of_Z.
  - reflexivity.
  - apply json_chars_of_N.
  - cbn [forallb]. now rewrite json_chars_of_N.
Qed.

Lemma json_chars_hex_digit (d : N) :
  (d < 16)%N -> json_char (Json.hex_digit d) = true.
Proof.
  intros Hd. unfold Json.hex_digit, json_char.
  destruct (N.ltb_spec d 10); apply orb_true_iff; right;
    apply andb_true_iff; split; apply N.leb_le; lia.
Qed.

Lemma json_chars_u_escape (n : N) : forallb json_char (Json.u_escape n) = true.
Proof.
  unfold Json.u_escape. cbn [forallb].
  rewrite !json_chars_hex_digit by (apply N.mod_lt; discriminate).
  reflexivity.
Qed.

Lemma json_chars_escape_char (c : pychar) :
  forallb json_char (Json.escape_char c) = true.
Proof.
  unfold Json.escape_char.
  repeat match goal with
         | |- context [if (c =? ?n)%N then _ else _] =>
             destruct (c =? n)%N; [reflexivity|]
         end.
  destruct ((32 <=? c) && (c <=? 126))%N eqn:Hprint.
  - cbn [forallb]. unfold json_char. rewrite Hprint. now rewrite orb_true_r.
  - destruct (c <? 65536)%N; [apply json_chars_u_escape|].
    cbv zeta. now rewrite json_chars_app, !json_chars_u_escape.
Qed.

Lemma json_chars_basestring (text : pystr) :
  forallb json_char (Json.encode_basestring_ascii text) = true.
Proof.
  assert (Hbody : forallb json_char (flat_map Json.escape_char text) = true).
  { induction text as [|c text IH]; [reflexivity|].
    cbn [flat_map]. now rewrite json_chars_app, json_chars_escape_char, IH. }
  unfold Json.encode_basestring_ascii. now rewrite !json_chars_app, Hbody.
Qed.

Lemma json_chars_indent (level : nat) :
  forallb json_char (Json.newline_indent level) = true.
Proof.
  unfold Json.newline_indent, Str.rep. cbn [forallb].
  change (json_char 10%N) with true. cbn [andb].
  induction (2 * level) as [|n IH]; [reflexivity|exact IH].
Qed.

Lemma json_chars_join (sep : pystr) (parts : list pystr) :
  forallb json_char sep = true ->
  Forall (fun part => forallb json_char part = true) parts ->
  forallb json_char (Str.join sep parts) = true.
Proof.
  intros Hsep. induction 1 as [|part parts Hpart Hparts IH]; [reflexivity|].
  destruct parts as [|next parts]; [exact Hpart|].
  change (Str.join sep (part :: next :: parts))
    with (part ++ sep ++ Str.join sep (next :: parts)).
  now rewrite !json_chars_app, Hpart, Hsep, IH.
Qed.

Lemma json_chars_encode (v : pyval) :
  (forall f, forallb json_char (float_repr f) = true) ->
  forall level, forallb json_char (Json.encode level v) = true.
Proof.
  intros Hrepr. induction v as [|b|z|f|s|l IH|d IH] using pyval_nested_ind;
    intros level.
  - reflexivity.
  - now destruct b.
  - apply json_chars_of_Z.
  - cbn [Json.encode]. unfold Json.floatstr.
    destruct (PrimFloat.is_nan f); [reflexivity|].
    destruct (PrimFloat.is_infinity f); [|apply Hrepr].
    now destruct (PrimFloat.ltb f PrimFloat.zero).
  - apply json_chars_basestring.
  - destruct l as [|x l]; [reflexivity|].
    change (Json.encode level (VList (x :: l)))
      with (Str.lit "[" ++ Json.newline_indent (S level)
            ++ Str.join (Str.lit "," ++ Json.newline_indent (S level))
                        (map (Json.encode (S level)) (x :: l))
            ++ Json.newline_indent level ++ Str.lit "]").
    rewrite !json_chars_app, !json_chars_indent, json_chars_join;
      [reflexivity|now rewrite json_chars_app, json_chars_indent|].
    apply Forall_map. eapply Forall_impl; [|exact IH]. intros v Hv. apply Hv.
  - destruct d as [|kv d]; [reflexivity|].
    change (Json.encode level (VDict (kv :: d)))
      with (Str.lit "{" ++ Json.newline_indent (S level)
            ++ Str.join (Str.lit "," ++ Json.newline_indent (S level))
                 (map (fun kv => Json.encode_basestring_ascii (fst kv)
                                 ++ Str.lit ": " ++ Json.encode (S level) (snd kv))
                      (kv :: d))
            ++ Json.newline_indent level ++ Str.lit "}").
    rewrite !json_chars_app, !json_chars_indent, json_chars_join;
      [reflexivity|now rewrite json_chars_app, json_chars_indent|].
    apply Forall_map. eapply Forall_impl; [|exact IH]. intros kv0 Hv.
    cbv beta. now rewrite !json_chars_app, json_chars_basestring, Hv.
Qed.

(** X17.  With [ensure_ascii], the JSON report is made of printable ASCII
    characters and the new lines of its indentation, whatever characters
    the names and texts of the outcome hold, as long as the interpreter
    writes its floats so. *)
Theorem json_report_is_ascii (test_results : Dict.t pyval) :
  (forall f, forallb json_char (float_repr f) = true) ->
  forallb json_char (ReportGenerator.generate_json_report test_results) = true
  /\ forallb Str.is_ascii (ReportGenerator.generate_json_report test_results)
     = true.
Proof.
  intros Hrepr.
  assert (Hchars : forallb json_char
                     (ReportGenerator.generate_json_report test_results)
                   = true)
    by now apply json_chars_encode.
  split; [exact Hchars|].
  apply forallb_forall. intros c Hin.
  rewrite forallb_forall in Hchars. specialize (Hchars c Hin).
  unfold json_char in Hchars. unfold Str.is_ascii. apply N.ltb_lt.
  apply orb_true_iff in Hchars as [Hnl|Hprint].
  - apply N.eqb_eq in Hnl. lia.
  - apply andb_true_iff in Hprint as [_ Hhi]. apply N.leb_le in Hhi. lia.
Qed.

End JsonAscii.

Section SimulatedJsonAscii.
#[local] Existing Instance Sim.host.

Lemma sim_float_repr_chars (f : float) :
  forallb json_char (float_repr (Host := Sim.host) f) = true.
Proof.
  cbn [float_repr Sim.host]. unfold Sim.two_decimals.
  destruct (Prim2SF f) as [[|]| | |s m e]; try reflexivity.
  cbv zeta. rewrite !json_chars_app, !json_chars_of_Z.
  destruct s; destruct (_ =? 0)%Z; try reflexivity;
    now rewrite ?json_chars_of_Z.
Qed.

(** The report of an outcome whose bundle is named by two surrogate
    halves, on the simulated host. *)
Lemma json_report_is_ascii_sample :
  forallb Str.is_ascii
    (ReportGenerator.generate_json_report
       (TestRunner.run_outcome (H := Sim.host) Sim.paired_name_suite [] []
                               0%float)) = true.
Proof.
  apply json_report_is_ascii. exact sim_float_repr_chars.
Defined.

End SimulatedJsonAscii.


Section DemoFacts.
Context `{Host}.

(** X18.  The demonstration finds its bundle under the id it uses and its
    configuration passes the validation, so the run gives seven results.
    It has then printed the list of the three bundles and the text
    report.  When every result has a link it prints the canvas and its
    closing lines and returns; when a check raised, it stops at the
    canvas with [AttributeError].  It raises nothing else. *)
Theorem demo_prints_reports (w : World) :
  exists results t w' text,
    let out := TestRunner.run_outcome EcommerceBundle.bundle
                 Demo.ecommerce_config results t in
    let printed := Demo.print (ReportGenerator.nl ++ text) demo_preamble in
    TestRunner.run_bundle BundleRegistry.init
      (Str.lit "e-commerce_checkout_flow") Demo.ecommerce_config w
    = (Ok out, w')
    /\ length results = 7
    /\ ReportGenerator.generate_text_report out = Ok text
    /\ (Forall (fun r => TestResult.url r <> None) results ->
        exists canvas,
          ReportGenerator.generate_canvas_report out = Ok canvas
          /\ Demo.demo w
             = ((Demo.prints Demo.closing
                   (Demo.print (ReportGenerator.nl ++ canvas) printed),
                 Ok tt), w'))
    /\ (Exists (fun r => TestResult.url r = None) results ->
        Demo.demo w
        = ((printed,
            Raise (AttributeError
                     (Str.lit "'NoneType' object has no attribute 'expandtabs'"))),
           w')).
Proof.
  pose (b := EcommerceBundle.bundle).
  assert (Hget : BundleRegistry.get_bundle BundleRegistry.init
                   (Str.lit "e-commerce_checkout_flow") = Some b)
    by reflexivity.
  assert (Hvalid : fst (TestBundle.validate_config b Demo.ecommerce_config)
                   = true) by reflexivity.
  assert (Hb : In b default_bundles) by (left; reflexivity).
  pose proof (run_bundle_valid _ _ Demo.ecommerce_config w Hget
                (builtin_truth Hb) Hvalid) as Hrun.
  destruct (execute_loop_contained (snd (time_time w))
              (builtin_contained Demo.ecommerce_config
                 (TestBundle.get_test_cases b) Hb))
    as (results & w1 & Hex).
  unfold TestBundle.execute_bundle in Hrun. rewrite Hex in Hrun.
  set (t := PrimFloat.sub (fst (time_time w1)) (fst (time_time w))) in *.
  destruct (text_report_run_outcome b Demo.ecommerce_config results t)
    as (head & Htext).
  eexists results, t, (snd (time_time w1)), _. cbv zeta.
  split; [exact Hrun|]. split; [exact (execute_loop_length _ _ _ _ Hex)|].
  split; [exact Htext|].
  assert (Hlist : Demo.print_bundles
                    (BundleRegistry.list_bundles BundleRegistry.init)
                    (Demo.print
                       (Demo.package ++ Str.lit " Available Test Bundles:")
                       (Demo.print
                          (Demo.rocket
                           ++ Str.lit " Test Automation Platform - Python Implementation"
                           ++ ReportGenerator.nl) []))
                  = (Demo.prints
                       [ Demo.rocket
                         ++ Str.lit " Test Automation Platform - Python Implementation"
                         ++ ReportGenerator.nl;
                         Demo.package ++ Str.lit " Available Test Bundles:";
                         Demo.point " E-commerce Checkout Flow (7 tests)";
                         Demo.point " Form Validation Suite (6 tests)";
                         Demo.point " API Health Checks (6 tests)" ] [],
                     Ok tt))
    by (vm_compute; reflexivity).
  split.
  - intros Hall.
    destruct (canvas_report_with_links b Demo.ecommerce_config t Hall)
      as (canvas & Hcanvas).
    exists canvas. split; [exact Hcanvas|].
    unfold Demo.demo. rewrite Hlist, Hrun. fold b. rewrite Htext, Hcanvas.
    reflexivity.
  - intros Hnull.
    unfold Demo.demo. rewrite Hlist, Hrun. fold b.
    rewrite Htext, (canvas_report_without_link b Demo.ecommerce_config t Hnull).
    reflexivity.
Qed.

End DemoFacts.

(* ================================================================== *)
(** ** Examples on the simulated host *)

Section SimulatedExtras.
#[local] Existing Instance Sim.host.

(** The registry of the examples was built by three registrations. *)
Lemma built_registry_invariant_sample :
  NoDup (BundleRegistry.get_bundle_ids (H := Sim.host) Sim.registry)
  /\ length (BundleRegistry.list_bundles (H := Sim.host) Sim.registry) = 6
  /\ In (Str.lit "api_health_checks")
        (BundleRegistry.get_bundle_ids (H := Sim.host) Sim.registry).
Proof.
  destruct (@built_registry_invariant Sim.host Sim.registry)
    as (Hnodup & Hlen & _ & _ & Hkept & _).
  - repeat constructor.
  - split; [exact Hnodup|]. split; [rewrite Hlen; reflexivity|].
    apply Hkept. right. right. left. reflexivity.
Defined.

(** The id of the e-commerce bundle. *)
Lemma bundle_id_of_ascii_name_sample :
  BundleRegistry.bundle_id_of (H := Sim.host)
    (Str.lit "e-commerce_checkout_flow")
  = Str.lit "e-commerce_checkout_flow"
  /\ BundleRegistry.bundle_id_of (H := Sim.host)
       (Str.lit "E-commerce Checkout Flow")
     = Str.lit "e-commerce_checkout_flow".
Proof.
  split; [|reflexivity].
  destruct (@bundle_id_of_ascii_name Sim.host
              (Str.lit "E-commerce Checkout Flow") eq_refl)
    as (_ & _ & _ & Hid).
  exact Hid.
Defined.

(** The outcome of the run of "Sample Suite". *)
Lemma run_outcome_parts_agree_sample :
  exists out w',
    TestRunner.run_bundle (H := Sim.host) Sim.registry
      (Str.lit "sample_suite") Sim.sample_config 0%float = (Ok out, w')
    /\ Outcome.statistic out (Str.lit "total_tests") = Ok (VInt 2)
    /\ Dyn.item out (Str.lit "config") = Ok (VDict Sim.sample_config).
Proof.
  pose (out := TestRunner.run_outcome (H := Sim.host) Sim.sample_suite
                 Sim.sample_config
                 (Sim.results_of (TestBundle.execute_bundle Sim.sample_suite
                         Sim.sample_config 0%float))
                 0%float).
  assert (Hrun : TestRunner.run_bundle (H := Sim.host) Sim.registry
                   (Str.lit "sample_suite") Sim.sample_config 0%float
                 = (Ok out, 0%float)) by (vm_compute; reflexivity).
  destruct (@run_outcome_parts_agree Sim.host Sim.registry
              (Str.lit "sample_suite") Sim.sample_config 0%float out 0%float
              Hrun)
    as (b & results & t & Hget & _ & Hlen & _ & _ & Htotal & _ & Hconfig & _).
  exists out, 0%float. split; [exact Hrun|]. split; [|exact Hconfig].
  rewrite Htotal, Hlen.
  change (BundleRegistry.get_bundle Sim.registry (Str.lit "sample_suite"))
    with (Some Sim.sample_suite) in Hget.
  inversion Hget. reflexivity.
Defined.

(** Two results in either order. *)
Lemma statistics_ignore_order_sample :
  let passed := TestResult.mk (Str.lit "Check A") [] PASSED 250 [] None [] None in
  let failed := TestResult.mk (Str.lit "Check B") [] FAILED 100 [] None [] None in
  TestRunner._calculate_statistics [passed; failed] 0%float
  = TestRunner._calculate_statistics [failed; passed] 0%float.
Proof.
  intros passed failed. apply statistics_ignore_order. apply perm_swap.
Defined.

End SimulatedExtras.
